(** * Synthetic market-data generator: a shallow embedding of [main.py]

    The development follows the data-collection core of the research
    pipeline: the trading calendar, the per-instrument price generator
    and its technical indicators, the macro series, the news corpus and
    the sentiment scorer.

    Conventions.
    - A Python/NumPy float is idealised as an exact rational ([Q]); the
      IEEE special values that the indicator code can produce by dividing
      by zero are kept explicit in the type [fval].
    - NumPy's global pseudo-random generator is a state threaded through
      every draw ([RandomState]); the generating functions live in a
      state-and-exception monad [M].
    - Calendar dates are day ordinals (days since 1970-01-01). *)

From Stdlib Require Import ZArith QArith Qround Qminmax Qabs Lia Lqa Ascii String List Sorted.
From stdpp Require Import gmap strings list fin_maps pretty sorting.

Open Scope Z_scope.

(** ** Numbers *)

Definition Qltb (x y : Q) : bool := negb (Qle_bool y x).

(** Python's [max(a, b)] keeps [a] unless [b > a]; [min(a, b)] keeps [a]
    unless [b < a]. *)
Definition py_max (a b : Q) : Q := if Qltb a b then b else a.
Definition py_min (a b : Q) : Q := if Qltb b a then b else a.

(** [np.clip(x, lo, hi)] is [minimum(maximum(x, lo), hi)]. *)
Definition np_clip (x lo hi : Q) : Q := Qmin (Qmax x lo) hi.

(** [int(x)]: truncation towards zero. *)
Definition py_int (x : Q) : Z := Z.quot (Qnum x) (Zpos (Qden x)).

(** Round half to even, [np.rint]. *)
Definition rint (x : Q) : Z :=
  let f := Qfloor x in
  let r := (x - inject_Z f)%Q in
  if Qltb r (1 # 2) then f
  else if Qltb (1 # 2) r then f + 1
  else if Z.even f then f else f + 1.

(** [round(x, 2)] on a float: scale by 100, round half to even, scale back. *)
Definition round2 (x : Q) : Q := rint (x * 100) # 100.

(** ** Dates *)

Record Timestamp := ymd { year : Z; month : Z; day : Z }.

(** Day ordinal of a civil date (proleptic Gregorian calendar), counted
    from 1970-01-01. *)
Definition to_ordinal (d : Timestamp) : Z :=
  let y := if month d <=? 2 then year d - 1 else year d in
  let era := y / 400 in
  let yoe := y - era * 400 in
  let mp := if month d <=? 2 then month d + 9 else month d - 3 in
  let doy := (153 * mp + 2) / 5 + day d - 1 in
  let doe := yoe * 365 + yoe / 4 - yoe / 100 + doy in
  era * 146097 + doe - 719468.

(** Monday is 0, Sunday is 6; 1970-01-01 was a Thursday. *)
Definition weekday (o : Z) : Z := (o + 3) mod 7.

Definition is_business_day (o : Z) : bool := weekday o <? 5.

(** [pd.bdate_range(start, end, freq='B')]: the Monday-to-Friday dates of
    the closed interval, in increasing order. *)
Definition bdate_range (start_ end_ : Timestamp) : list Z :=
  let s := to_ordinal start_ in
  let e := to_ordinal end_ in
  List.filter is_business_day (seqZ s (e - s + 1)).

(** The slice [xs[:n]] of Python, with its reading of a negative bound. *)
Definition py_slice_to {A} (n : Z) (xs : list A) : list A :=
  if 0 <=? n then take (Z.to_nat n) xs
  else take (length xs - Z.to_nat (- n)) xs.

(** ** Configuration *)

Record Config := {
  START_DATE : Timestamp;
  END_DATE : Timestamp;
  EXPECTED_TRADING_DAYS : Z;
  TARGET_STOCK_COUNT : Z;
  EXPECTED_NEWS_COUNT : Z;
  SP500_TOP_300_STOCKS : list string
}.

Definition default_symbols : list string :=
  [
    "AAPL"; "MSFT"; "GOOGL"; "GOOG"; "AMZN"; "NVDA"; "META"; "TSLA"; "BRK-B"; "AVGO";
    "UNH"; "JNJ"; "XOM"; "JPM"; "V"; "PG"; "MA"; "CVX"; "HD"; "ABBV";
    "PFE"; "BAC"; "KO"; "PEP"; "TMO"; "COST"; "MRK"; "WMT"; "DIS"; "ABT";
    "DHR"; "VZ"; "CSCO"; "ACN"; "LIN"; "ADBE"; "NKE"; "BMY"; "PM"; "T";
    "TXN"; "NFLX"; "RTX"; "NEE"; "WFC"; "UPS"; "LOW"; "ORCL"; "AMD"; "CRM";
    "QCOM"; "HON"; "UNP"; "INTU"; "IBM"; "AMGN"; "ELV"; "CAT"; "SPGI"; "AXP";
    "BKNG"; "GE"; "DE"; "TJX"; "ADP"; "MDLZ"; "SYK"; "GILD"; "MCD"; "LMT";
    "ADI"; "MMM"; "CI"; "SCHW"; "CME"; "MO"; "SO"; "ZTS"; "CB"; "DUK";
    "BSX"; "TGT"; "BDX"; "ITW"; "AON"; "CL"; "EQIX"; "SLB"; "APD"; "EMR";
    "NSC"; "GD"; "ICE"; "PNC"; "FCX"; "USB"; "GM"; "PYPL"; "ETN"; "WM";
    "NOC"; "MCK"; "D"; "REGN"; "FDX"; "CVS"; "ISRG"; "ECL"; "PLD"; "SPG";
    "GS"; "MRNA"; "ATVI"; "COF"; "TFC"; "F"; "JCI"; "HUM"; "SRE"; "MU";
    "PSA"; "MCO"; "AEP"; "CCI"; "MSI"; "CMG"; "KLAC"; "ADSK"; "FIS"; "FISV";
    "APH"; "EXC"; "CNC"; "PEG"; "MCHP"; "KMB"; "TEL"; "AIG"; "DOW"; "CARR";
    "CTSH"; "PAYX"; "OXY"; "DLR"; "HCA"; "AMAT"; "DXCM"; "EW"; "WELL"; "AMT";
    "SBUX"; "PRU"; "AFL"; "ALL"; "ROST"; "YUM"; "ORLY"; "EA"; "CTAS"; "FAST";
    "PCAR"; "BK"; "MTB"; "PPG"; "AZO"; "ED"; "IDXX"; "IQV"; "ROP"; "GWW";
    "STZ"; "A"; "APTV"; "CPRT"; "NDAQ"; "MKTX"; "CTVA"; "DD"; "KHC"; "EFX";
    "HPQ"; "GLW"; "VRSK"; "BLL"; "EBAY"; "ABC"; "WBA"; "EIX"; "ETR"; "CDW";
    "XEL"; "CERN"; "OTIS"; "TSN"; "WEC"; "STT"; "DLTR"; "AWK"; "ES"; "URI";
    "TROW"; "MLM"; "PPL"; "RSG"; "DTE"; "FE"; "AEE"; "NTRS"; "CNP"; "LYB";
    "CMS"; "DFS"; "WY"; "CLX"; "VRTX"; "IP"; "KEY"; "NI"; "EXPE"; "FITB";
    "EMN"; "LUV"; "CFG"; "CAG"; "HBAN"; "LYV"; "EXPD"; "IEX"; "AVB"; "FRT";
    "ESS"; "K"; "FMC"; "HSY"; "J"; "SYF"; "RF"; "L"; "ATO"; "TRMB";
    "CHRW"; "DRI"; "TDY"; "BR"; "FLS"; "JKHY"; "AOS"; "PEAK"; "LH"; "WAB";
    "MAS"; "NTAP"; "ROL"; "SWKS"; "ZION"; "LKQ"; "TECH"; "CE"; "TTWO"; "MAA";
    "PKI"; "TYL"; "WAT"; "JBHT"; "POOL"; "CBOE"; "ALLE"; "DGX"; "COO"; "AKAM";
    "UDR"; "MHK"; "HOLX"; "STE"; "REG"; "LDOS"; "AVY"; "TPG"; "HRL"; "PAYC";
    "TER"; "CINF"; "CRL"; "NWSA"; "PFG"; "NWL"; "GL"; "BEN"; "NVR"; "AIZ";
    "LNT"; "VICI"; "RCL"; "UHS"; "DVN"; "INCY"; "CCL"; "CMA"; "HAS"; "PKG";
    "VTRS"; "GRMN"; "CPB"; "WRK"; "BWA"; "SEE"; "PNW"; "PBCT"; "DVA"; "RHI";
    "BXP"; "HII"; "HSIC"; "ALK"; "LVS"; "NRG"; "NLSN"; "FTV"; "RE"; "ALB";
    "AAL"; "GPS"; "APA"; "TAP"; "UAA"; "DISH"; "HFC"; "VNO"; "IVZ"; "PVH"
  ]%string.

Definition MACRO_INDICATORS : list string :=
  [ "GDP_Growth"; "Inflation_Rate"; "Unemployment_Rate"; "Federal_Funds_Rate";
    "VIX_Index"; "Dollar_Index"; "Oil_Price"; "Ten_Year_Treasury" ]%string.

(** The class attributes of [Config] as shipped. *)
Definition shipped : Config := {|
  START_DATE := ymd 2015 1 1;
  END_DATE := ymd 2024 12 31;
  EXPECTED_TRADING_DAYS := 2518;
  TARGET_STOCK_COUNT := 300;
  EXPECTED_NEWS_COUNT := 15000;
  SP500_TOP_300_STOCKS := default_symbols
|}.

(** The calendar of [_generate_full_scale_stock_data]: the business days of
    the configured interval, cut to the target length when longer. *)
Definition stock_calendar (cfg : Config) : list Z :=
  let business_days := bdate_range (START_DATE cfg) (END_DATE cfg) in
  if EXPECTED_TRADING_DAYS cfg <? Z.of_nat (length business_days)
  then py_slice_to (EXPECTED_TRADING_DAYS cfg) business_days
  else business_days.

(** The calendar of [collect_news_sentiment_data]: the same interval,
    sliced without a guard. *)
Definition news_calendar (cfg : Config) : list Z :=
  py_slice_to (EXPECTED_TRADING_DAYS cfg)
    (bdate_range (START_DATE cfg) (END_DATE cfg)).

(** ** IEEE values of the derived columns

    Generated prices and returns are finite. The derived columns can hold
    the special values that NumPy produces instead of raising: a quotient
    with a zero divisor is an infinity (or NaN for 0/0), and a rolling
    statistic over an incomplete window is NaN. The sign of a zero is not
    tracked: a zero divisor is taken as +0. *)

Inductive fval := Fin (q : Q) | Inf (negative : bool) | NaN.

Definition Qis_zero (q : Q) : bool := Qeq_bool q 0.

Definition fneg (x : fval) : fval :=
  match x with
  | Fin q => Fin (- q)
  | Inf s => Inf (negb s)
  | NaN => NaN
  end.

Definition fadd (x y : fval) : fval :=
  match x, y with
  | Fin a, Fin b => Fin (a + b)
  | Fin _, Inf s => Inf s
  | Inf s, Fin _ => Inf s
  | Inf s, Inf t => if Bool.eqb s t then Inf s else NaN
  | _, _ => NaN
  end.

Definition fsub (x y : fval) : fval := fadd x (fneg y).

Definition fmul (x y : fval) : fval :=
  match x, y with
  | Fin a, Fin b => Fin (a * b)
  | Fin a, Inf s => if Qis_zero a then NaN else Inf (xorb (Qltb a 0) s)
  | Inf s, Fin b => if Qis_zero b then NaN else Inf (xorb s (Qltb b 0))
  | Inf s, Inf t => Inf (xorb s t)
  | _, _ => NaN
  end.

Definition fdiv (x y : fval) : fval :=
  match x, y with
  | Fin a, Fin b =>
      if Qis_zero b then (if Qis_zero a then NaN else Inf (Qltb a 0))
      else Fin (a / b)
  | Fin _, Inf _ => Fin 0
  | Inf s, Fin b => Inf (xorb s (Qltb b 0))
  | _, _ => NaN
  end.

(** ** Exceptions and the random state *)

Inductive exn :=
  | KeyError (key : string)
  | ValueError (msg : string)
  | IndexError
  | AttributeError (attr : string)
  | ZeroDivisionError.

(** The global generator of [np.random]: a stream of raw draws and a cursor
    into it. Each primitive consumes one raw draw and maps it into the
    support of its distribution. *)
Record RandomState := { entropy : nat -> Q; position : nat }.

Inductive outcome (A : Type) :=
  | Returns (a : A) (st : RandomState)
  | Raises (e : exn) (st : RandomState).
Arguments Returns {A} a st.
Arguments Raises {A} e st.

Definition M (A : Type) : Type := RandomState -> outcome A.

#[global] Instance M_ret : MRet M := fun A a st => Returns a st.
#[global] Instance M_bind : MBind M := fun A B f m st =>
  match m st with
  | Returns a st' => f a st'
  | Raises e st' => Raises e st'
  end.

Definition raise {A} (e : exn) : M A := fun st => Raises e st.

Definition next_raw : M Q := fun st =>
  Returns (entropy st (position st))
          {| entropy := entropy st; position := S (position st) |}.

(** A double in [0, 1). *)
Definition random_sample : M Q :=
  q ← next_raw; mret (q - inject_Z (Qfloor q))%Q.

Definition standard_normal : M Q := next_raw.

(** [np.random.uniform(low, high)] is [low + (high - low) * random_sample()];
    the bounds are not compared. *)
Definition uniform (low high : Q) : M Q :=
  u ← random_sample; mret (low + (high - low) * u)%Q.

(** [np.random.normal(loc, scale)] is [loc + scale * standard_normal()]. *)
Definition normal (loc scale : Q) : M Q :=
  z ← standard_normal; mret (loc + scale * z)%Q.

Fixpoint repeatM {A} (n : nat) (m : M A) : M (list A) :=
  match n with
  | O => mret []
  | S k => x ← m; xs ← repeatM k m; mret (x :: xs)
  end.

(** [np.random.normal(loc, scale, size)]. *)
Definition normal_n (loc scale : Q) (size : nat) : M (list Q) :=
  repeatM size (normal loc scale).

(** [np.random.randint(low, high)]: an integer of [low, high). *)
Definition randint (low high : Z) : M Z :=
  if low <? high
  then q ← next_raw; mret (low + Qfloor q mod (high - low))
  else raise (ValueError "low >= high").

(** [np.random.choice(xs)]. *)
Definition choice {A} (xs : list A) : M A :=
  match xs with
  | [] => raise (ValueError "a must be non-empty")
  | _ :: _ =>
      i ← randint 0 (Z.of_nat (length xs));
      match xs !! Z.to_nat i with
      | Some x => mret x
      | None => raise IndexError
      end
  end.

(** [np.random.poisson(lam)]: any natural number; 0 when [lam] is 0. *)
Definition poisson (lam : Q) : M nat :=
  if Qltb lam 0 then raise (ValueError "lam < 0")
  else if Qis_zero lam then mret 0%nat
  else q ← next_raw; mret (Z.to_nat (Qfloor (Qabs q))).

Definition index {A} (xs : list A) (i : nat) : M A :=
  match xs !! i with
  | Some x => mret x
  | None => raise IndexError
  end.

Fixpoint for_enumerate {A B} (f : nat -> A -> M B) (i : nat) (xs : list A)
  : M (list B) :=
  match xs with
  | [] => mret []
  | x :: tl => y ← f i x; ys ← for_enumerate f (S i) tl; mret (y :: ys)
  end.

Fixpoint for_each {A B} (f : A -> M B) (xs : list A) : M (list B) :=
  match xs with
  | [] => mret []
  | x :: tl => y ← f x; ys ← for_each f tl; mret (y :: ys)
  end.

(** ** The price panel *)

Record SectorParams := {
  drift : Q;
  volatility : Q;
  beta : Q;
  avg_volume : Z
}.

Definition py_in (s : string) (xs : list string) : bool :=
  existsb (String.eqb s) xs.

Definition tech_stocks : list string :=
  [ "AAPL"; "MSFT"; "GOOGL"; "GOOG"; "AMZN"; "NVDA"; "META"; "TSLA"; "ORCL";
    "AMD"; "CRM"; "ADBE"; "INTU"; "IBM" ]%string.
Definition finance_stocks : list string :=
  [ "JPM"; "BAC"; "WFC"; "GS"; "AXP"; "USB"; "PNC"; "TFC"; "COF"; "SCHW" ]%string.
Definition healthcare_stocks : list string :=
  [ "JNJ"; "PFE"; "UNH"; "ABBV"; "TMO"; "ABT"; "DHR"; "BMY"; "AMGN"; "GILD" ]%string.
Definition energy_stocks : list string :=
  [ "XOM"; "CVX"; "SLB"; "OXY"; "FCX"; "DVN"; "APA" ]%string.

Definition _get_sector_parameters (symbol : string) : SectorParams :=
  if py_in symbol tech_stocks then
    {| drift := 15 # 100; volatility := 35 # 100; beta := 12 # 10; avg_volume := 15000000 |}
  else if py_in symbol finance_stocks then
    {| drift := 10 # 100; volatility := 25 # 100; beta := 11 # 10; avg_volume := 8000000 |}
  else if py_in symbol healthcare_stocks then
    {| drift := 12 # 100; volatility := 20 # 100; beta := 8 # 10; avg_volume := 6000000 |}
  else if py_in symbol energy_stocks then
    {| drift := 8 # 100; volatility := 40 # 100; beta := 13 # 10; avg_volume := 12000000 |}
  else
    {| drift := 10 # 100; volatility := 22 # 100; beta := 1; avg_volume := 5000000 |}.

(** One dictionary of [stock_records]. *)
Record StockRecord := {
  Date : Z;
  Symbol : string;
  Open : Q;
  High : Q;
  Low : Q;
  Close : Q;
  Volume : Z;
  Return : Q;
  Log_Return : fval
}.

(** The columns that [_calculate_technical_indicators] appends. *)
Record Indicators := {
  MA_5 : fval; MA_20 : fval; MA_50 : fval; MA_200 : fval;
  Volatility_5 : fval; Volatility_20 : fval; Volatility_60 : fval;
  RSI : fval;
  MACD : fval; MACD_Signal : fval;
  BB_Upper : fval; BB_Lower : fval;
  Liquidity_Score : fval; Volume_MA_20 : fval; Volume_Ratio : fval;
  Price_Change_1D : fval; Price_Change_5D : fval; Price_Change_20D : fval
}.

(** A row of the frame a generator returns. *)
Record PanelRow := { record : StockRecord; indicators : Indicators }.

(** The price list of [_generate_single_stock_data]: it starts from the
    initial price, appends one compounded price per return, and then drops
    its first entry. *)
Definition price_path (initial_price : Q) (total_returns : list Q) : list Q :=
  let prices :=
    fold_left (fun prices ret => prices ++ [(List.last prices 0 * (1 + ret))%Q])
              total_returns [initial_price] in
  drop 1 prices.

(** [returns_copy[mask] += shocks]: the shocks go, in order, to the
    positions the mask selects. *)
Fixpoint add_masked (returns : list Q) (mask : list bool) (shocks : list Q)
  : list Q :=
  match returns, mask with
  | r :: rs, true :: ms =>
      match shocks with
      | s :: ss => (r + s)%Q :: add_masked rs ms ss
      | [] => r :: add_masked rs ms []
      end
  | r :: rs, false :: ms => r :: add_masked rs ms shocks
  | rs, [] => rs
  | [], _ => []
  end.

Definition date_mask (lo hi : Timestamp) (date_range : list Z) : list bool :=
  map (fun d => (to_ordinal lo <=? d) && (d <=? to_ordinal hi)) date_range.

Definition mask_sum (mask : list bool) : nat :=
  length (List.filter (fun b => b) mask).

Definition _add_market_events (returns : list Q) (date_range : list Z)
  : M (list Q) :=
  let returns_copy := returns in
  let covid_mask := date_mask (ymd 2020 3 1) (ymd 2020 4 30) date_range in
  returns_copy ←
    (if existsb (fun b => b) covid_mask
     then shocks ← normal_n (- (2 # 100)) (5 # 100) (mask_sum covid_mask);
          mret (add_masked returns_copy covid_mask shocks)
     else mret returns_copy);
  let inflation_mask := date_mask (ymd 2022 1 1) (ymd 2022 12 31) date_range in
  returns_copy ←
    (if existsb (fun b => b) inflation_mask
     then shocks ← normal_n (- (5 # 1000)) (2 # 100) (mask_sum inflation_mask);
          mret (add_masked returns_copy inflation_mask shocks)
     else mret returns_copy);
  mret returns_copy.

(** *** Rolling and exponentially weighted statistics *)

Definition Qsum (xs : list Q) : Q := fold_right Qplus 0%Q xs.

Definition mean (xs : list Q) : Q := (Qsum xs / inject_Z (Z.of_nat (length xs)))%Q.

(** [series.rolling(window).stat()]: undefined until the window is full. *)
Definition rolling (window : nat) (stat : list Q -> fval) (xs : list Q)
  : list fval :=
  map (fun i =>
         if (S i <? window)%nat then NaN
         else stat (take window (drop (S i - window) xs)))
      (seq 0 (length xs)).

Definition rolling_mean (window : nat) : list Q -> list fval :=
  rolling window (fun w => Fin (mean w)).

(** [series.diff()]: the first entry is undefined. *)
Definition diff (xs : list Q) : list (option Q) :=
  match xs with
  | [] => []
  | _ :: tl => None :: zip_with (fun prev cur => Some (cur - prev)%Q) xs tl
  end.

(** [delta.where(cond, other)]: an undefined entry fails every comparison
    and is replaced as well. *)
Definition where_ (cond : Q -> bool) (other : Q) (d : option Q) : Q :=
  match d with
  | Some q => if cond q then q else other
  | None => other
  end.

(** Average gain and average loss of [_calculate_rsi]. *)
Definition rsi_gain (prices : list Q) (window : nat) : list fval :=
  let delta := diff prices in
  rolling_mean window (map (where_ (fun d => Qltb 0 d) 0%Q) delta).

Definition rsi_loss (prices : list Q) (window : nat) : list fval :=
  let delta := diff prices in
  rolling_mean window
    (map (fun d => (- where_ (fun d => Qltb d 0) 0 d)%Q) delta).

Definition _calculate_rsi (prices : list Q) (window : nat) : list fval :=
  let gain := rsi_gain prices window in
  let loss := rsi_loss prices window in
  let rs := zip_with fdiv gain loss in
  map (fun r => fsub (Fin 100) (fdiv (Fin 100) (fadd (Fin 1) r))) rs.

(** [series.pct_change(k)]. *)
Definition pct_change (k : nat) (xs : list Q) : list fval :=
  map (fun i =>
         match xs !! i, (if (i <? k)%nat then None else xs !! (i - k)%nat) with
         | Some cur, Some prev => fsub (fdiv (Fin cur) (Fin prev)) (Fin 1)
         | _, _ => NaN
         end)
      (seq 0 (length xs)).

(** [series.ewm(span=span).mean()] with the default [adjust=True]: the
    weights of the past observations are the powers of [1 - alpha]. *)
Fixpoint ewm_from (alpha num den : Q) (xs : list Q) : list Q :=
  match xs with
  | [] => []
  | x :: tl =>
      let num' := (x + (1 - alpha) * num)%Q in
      let den' := (1 + (1 - alpha) * den)%Q in
      (num' / den')%Q :: ewm_from alpha num' den' tl
  end.

Definition ewm_mean (span : Z) (xs : list Q) : list Q :=
  ewm_from (2 / (inject_Z span + 1))%Q 0%Q 0%Q xs.

(** Stable insertion sort on the date column, for [df.sort_values('Date')]. *)
Fixpoint insert_by_date (r : StockRecord) (rows : list StockRecord)
  : list StockRecord :=
  match rows with
  | [] => [r]
  | x :: tl => if Date r <=? Date x then r :: rows else x :: insert_by_date r tl
  end.

Definition sort_values_Date (rows : list StockRecord) : list StockRecord :=
  fold_right insert_by_date [] rows.

Definition at_ (col : list fval) (i : nat) : fval := default NaN (col !! i).

Section Pipeline.

(** The functions of NumPy that are not rational, and the stream that
    the Mersenne Twister produces from a seed: parameters of the model. *)
Variables np_sqrt np_log np_exp : Q -> Q.
Variable mt19937 : Z -> nat -> Q.

(** [np.random.seed(s)]. *)
Definition seed (s : Z) : M unit := fun _ =>
  Returns tt {| entropy := mt19937 s; position := 0 |}.

(** Sample standard deviation of a window ([ddof=1]). *)
Definition std (w : list Q) : fval :=
  let m := mean w in
  let ss := Qsum (map (fun x => (x - m) * (x - m))%Q w) in
  match fdiv (Fin ss) (Fin (inject_Z (Z.of_nat (length w)) - 1)) with
  | Fin v => Fin (np_sqrt v)
  | other => other
  end.

Definition rolling_std (window : nat) : list Q -> list fval :=
  rolling window std.

(** [np.log(close / prev)] on NumPy floats: no exception, the special
    values propagate. *)
Definition log_ratio (close prev : Q) : fval :=
  match fdiv (Fin close) (Fin prev) with
  | Fin r => if Qltb 0 r then Fin (np_log r)
             else if Qis_zero r then Inf true else NaN
  | Inf false => Inf false
  | _ => NaN
  end.

(** A frame built from an empty list of records has no column, and
    sorting it by ['Date'] raises [KeyError]. *)
Definition _calculate_technical_indicators (records : list StockRecord)
  : M (list PanelRow) :=
  match records with
  | [] => raise (KeyError "Date")
  | _ :: _ =>
      let df := sort_values_Date records in
      let close := map Close df in
      let ret := map Return df in
      let volume := map (fun r => inject_Z (Volume r)) df in
      let ma_5 := rolling_mean 5 close in
      let ma_20 := rolling_mean 20 close in
      let ma_50 := rolling_mean 50 close in
      let ma_200 := rolling_mean 200 close in
      let annualise := map (fun s => fmul s (Fin (np_sqrt 252))) in
      let volatility_5 := annualise (rolling_std 5 ret) in
      let volatility_20 := annualise (rolling_std 20 ret) in
      let volatility_60 := annualise (rolling_std 60 ret) in
      let rsi := _calculate_rsi close 14 in
      let ema_12 := ewm_mean 12 close in
      let ema_26 := ewm_mean 26 close in
      let macd := zip_with Qminus ema_12 ema_26 in
      let macd_signal := ewm_mean 9 macd in
      let close_std_20 := rolling_std 20 close in
      let bb_upper := zip_with (fun m s => fadd m (fmul s (Fin 2))) ma_20 close_std_20 in
      let bb_lower := zip_with (fun m s => fsub m (fmul s (Fin 2))) ma_20 close_std_20 in
      let liquidity := zip_with (fun c v => Fin (c * v)) close volume in
      let volume_ma_20 := rolling_mean 20 volume in
      let volume_ratio := zip_with (fun v m => fdiv (Fin v) m) volume volume_ma_20 in
      let change_1 := pct_change 1 close in
      let change_5 := pct_change 5 close in
      let change_20 := pct_change 20 close in
      mret (imap (fun i r =>
        {| record := r;
           indicators := {|
             MA_5 := at_ ma_5 i; MA_20 := at_ ma_20 i;
             MA_50 := at_ ma_50 i; MA_200 := at_ ma_200 i;
             Volatility_5 := at_ volatility_5 i;
             Volatility_20 := at_ volatility_20 i;
             Volatility_60 := at_ volatility_60 i;
             RSI := at_ rsi i;
             MACD := at_ (map Fin macd) i;
             MACD_Signal := at_ (map Fin macd_signal) i;
             BB_Upper := at_ bb_upper i; BB_Lower := at_ bb_lower i;
             Liquidity_Score := at_ liquidity i;
             Volume_MA_20 := at_ volume_ma_20 i;
             Volume_Ratio := at_ volume_ratio i;
             Price_Change_1D := at_ change_1 i;
             Price_Change_5D := at_ change_5 i;
             Price_Change_20D := at_ change_20 i |} |}) df)
  end.

(** The body of the loop over [enumerate(date_range)]. *)
Definition ohlc_record (symbol : string) (sector_params : SectorParams)
    (initial_price : Q) (prices total_returns : list Q)
    (i : nat) (date : Z) : M StockRecord :=
  close ← index prices i;
  u ← uniform (5 # 1000) (4 # 100);
  let daily_range := (close * u)%Q in
  up ← uniform 0 daily_range;
  let high := (close + up)%Q in
  down ← uniform 0 daily_range;
  let low := (close - down)%Q in
  open_price ← (if (0 <? i)%nat then index prices (i - 1) else mret close);
  let volume_base := avg_volume sector_params in
  ret_i ← index total_returns i;
  let volume_multiplier := (1 + Qabs ret_i * 10)%Q in
  v ← uniform (1 # 2) 2;
  let volume := py_int (inject_Z volume_base * volume_multiplier * v) in
  prev ← (if (0 <? i)%nat then index prices (i - 1) else mret initial_price);
  mret {| Date := date;
          Symbol := symbol;
          Open := round2 open_price;
          High := round2 high;
          Low := round2 low;
          Close := round2 close;
          Volume := volume;
          Return := ret_i;
          Log_Return := log_ratio close prev |}.

Definition _generate_single_stock_data (symbol : string) (date_range : list Z)
  : M (list PanelRow) :=
  let n_days := length date_range in
  let sector_params := _get_sector_parameters symbol in
  initial_price ← uniform 50 500;
  let annual_drift := drift sector_params in
  let annual_volatility := volatility sector_params in
  let daily_drift := (annual_drift / 252)%Q in
  let daily_vol := (annual_volatility / np_sqrt 252)%Q in
  market_shocks ← normal_n 0 (1 # 100) n_days;
  idiosyncratic_shocks ← normal_n daily_drift daily_vol n_days;
  let beta := beta sector_params in
  let total_returns :=
    zip_with (fun m s => (beta * m + s)%Q) market_shocks idiosyncratic_shocks in
  total_returns ← _add_market_events total_returns date_range;
  let prices := price_path initial_price total_returns in
  stock_records ←
    for_enumerate
      (ohlc_record symbol sector_params initial_price prices total_returns)
      0 date_range;
  _calculate_technical_indicators stock_records.

(** [pd.concat(frames, ignore_index=True)]. *)
Definition pd_concat {A} (frames : list (list A)) : M (list A) :=
  match frames with
  | [] => raise (ValueError "No objects to concatenate")
  | _ :: _ => mret (concat frames)
  end.

Definition _generate_full_scale_stock_data (cfg : Config) : M (list PanelRow) :=
  let business_days := stock_calendar cfg in
  let symbols := SP500_TOP_300_STOCKS cfg in
  _ ← seed 42;
  all_stock_data ←
    for_each (fun symbol => _generate_single_stock_data symbol business_days)
             symbols;
  pd_concat all_stock_data.


(** *** The macro series *)

(** [pd.date_range(start, end, freq='M')]: the month ends of the closed
    interval. *)
Definition month_end (months : Z) : Z :=
  let y := (months + 1) / 12 in
  let m := (months + 1) mod 12 + 1 in
  to_ordinal (ymd y m 1) - 1.

Definition month_end_range (start_ end_ : Timestamp) : list Z :=
  let first := year start_ * 12 + (month start_ - 1) in
  let last := year end_ * 12 + (month end_ - 1) in
  List.filter
    (fun o => (to_ordinal start_ <=? o) && (o <=? to_ordinal end_))
    (map month_end (seqZ first (last - first + 1))).

Definition getitem {V} (d : gmap string V) (key : string) : M V :=
  match d !! key with
  | Some v => mret v
  | None => raise (KeyError key)
  end.

(** [d[key] = f(d[key])]. *)
Definition update_item (d : gmap string Q) (key : string) (f : Q -> Q)
  : M (gmap string Q) :=
  v ← getitem d key; mret (<[key := f v]> d).

Definition volatilities : gmap string Q :=
  list_to_map
    [ ("GDP_Growth", 3 # 10); ("Inflation_Rate", 4 # 10);
      ("Unemployment_Rate", 2 # 10); ("Federal_Funds_Rate", 25 # 100);
      ("VIX_Index", 3); ("Dollar_Index", 2); ("Oil_Price", 8);
      ("Ten_Year_Treasury", 3 # 10) ]%Q.

Definition initial_macro_values : gmap string Q :=
  list_to_map
    [ ("GDP_Growth", 25 # 10); ("Inflation_Rate", 2);
      ("Unemployment_Rate", 5); ("Federal_Funds_Rate", 15 # 10);
      ("VIX_Index", 18); ("Dollar_Index", 95); ("Oil_Price", 70);
      ("Ten_Year_Treasury", 25 # 10) ]%Q.

Fixpoint add_shocks (indicators : list string) (new_values : gmap string Q)
  : M (gmap string Q) :=
  match indicators with
  | [] => mret new_values
  | indicator :: tl =>
      volatility ← getitem volatilities indicator;
      shock ← normal 0 volatility;
      new_values ← update_item new_values indicator (fun v => v + shock)%Q;
      add_shocks tl new_values
  end.

Definition in_window (lo hi : Timestamp) (date : Z) : bool :=
  (to_ordinal lo <=? date) && (date <=? to_ordinal hi).

Definition _update_macro_values (values : gmap string Q) (date : Z)
    (index : nat) : M (gmap string Q) :=
  let new_values := values in
  new_values ← add_shocks MACRO_INDICATORS new_values;
  new_values ←
    (if in_window (ymd 2020 3 1) (ymd 2020 12 31) date then
       new_values ← update_item new_values "Unemployment_Rate"
         (fun v => v + 2 * np_exp (- inject_Z (Z.of_nat index mod 12) / 3))%Q;
       new_values ← update_item new_values "GDP_Growth" (fun v => v - (15 # 10))%Q;
       new_values ← update_item new_values "VIX_Index" (fun v => v + 10)%Q;
       update_item new_values "Federal_Funds_Rate"
         (fun v => py_max (1 # 10) (v - (5 # 10)))%Q
     else mret new_values);
  new_values ←
    (if in_window (ymd 2022 1 1) (ymd 2023 12 31) date then
       new_values ← update_item new_values "Inflation_Rate"
         (fun v => py_min 9 (v + (3 # 10)))%Q;
       new_values ← update_item new_values "Federal_Funds_Rate"
         (fun v => py_min (55 # 10) (v + (2 # 10)))%Q;
       update_item new_values "Ten_Year_Treasury"
         (fun v => py_min 5 (v + (15 # 100)))%Q
     else mret new_values);
  new_values ← update_item new_values "GDP_Growth" (fun v => np_clip v (-5) 8)%Q;
  new_values ← update_item new_values "Inflation_Rate" (fun v => np_clip v (-1) 10)%Q;
  new_values ← update_item new_values "Unemployment_Rate" (fun v => np_clip v 2 15)%Q;
  new_values ← update_item new_values "Federal_Funds_Rate" (fun v => np_clip v 0 6)%Q;
  new_values ← update_item new_values "VIX_Index" (fun v => np_clip v 10 80)%Q;
  new_values ← update_item new_values "Dollar_Index" (fun v => np_clip v 80 120)%Q;
  new_values ← update_item new_values "Oil_Price" (fun v => np_clip v 20 150)%Q;
  new_values ← update_item new_values "Ten_Year_Treasury"
    (fun v => np_clip v (5 # 10) 6)%Q;
  mret new_values.

(** The loop of [collect_macro_economic_data]: one record per month, each
    made of the date and a copy of the updated values. *)
Fixpoint macro_loop (macro_values : gmap string Q) (i : nat)
    (date_range : list Z) : M (list (Z * gmap string Q)) :=
  match date_range with
  | [] => mret []
  | date :: tl =>
      macro_values ← _update_macro_values macro_values date i;
      rest ← macro_loop macro_values (S i) tl;
      mret ((date, macro_values) :: rest)
  end.

Definition collect_macro_economic_data (cfg : Config)
  : M (list (Z * gmap string Q)) :=
  let date_range := month_end_range (START_DATE cfg) (END_DATE cfg) in
  _ ← seed 42;
  macro_loop initial_macro_values 0 date_range.


End Pipeline.

(** ** The news corpus *)

Record Template := {
  t_title : string;
  t_description : string;
  t_sentiment : string
}.

Definition _get_comprehensive_news_templates : list (string * list Template) :=
  [
    ("earnings_positive",
     [
      {| t_title := "{company} Beats Earnings Expectations";
         t_description :=
           "{company} reported quarterly earnings that exceeded analyst expectations, driven by strong revenue growth and improved operational efficiency.";
         t_sentiment := "positive" |};
      {| t_title := "{company} Posts Record Quarterly Revenue";
         t_description :=
           "{company} announced record quarterly revenue, surpassing previous highs and demonstrating strong market position.";
         t_sentiment := "positive" |};
      {| t_title := "{company} Delivers Strong Financial Results";
         t_description :=
           "{company} delivered robust financial performance with revenue and earnings both exceeding Wall Street forecasts.";
         t_sentiment := "positive" |} ]);
    ("earnings_negative",
     [
      {| t_title := "{company} Misses Earnings Estimates";
         t_description :=
           "{company} reported disappointing quarterly results, falling short of analyst expectations amid challenging market conditions.";
         t_sentiment := "negative" |};
      {| t_title := "{company} Reports Declining Revenue";
         t_description :=
           "{company} announced a decline in quarterly revenue, citing increased competition and economic headwinds.";
         t_sentiment := "negative" |};
      {| t_title := "{company} Warns of Lower Guidance";
         t_description :=
           "{company} issued lower forward guidance, expressing concerns about market volatility and operational challenges.";
         t_sentiment := "negative" |} ]);
    ("analyst_upgrades",
     [
      {| t_title := "{company} Upgraded by Major Investment Bank";
         t_description :=
           "A leading investment bank upgraded {company} citing strong fundamentals and positive long-term outlook.";
         t_sentiment := "positive" |};
      {| t_title := "Analysts Raise Price Target for {company}";
         t_description :=
           "Multiple analysts increased their price targets for {company} following strong operational performance.";
         t_sentiment := "positive" |} ]);
    ("analyst_downgrades",
     [
      {| t_title := "{company} Downgraded on Growth Concerns";
         t_description :=
           "Analysts downgraded {company} citing concerns over slowing growth and increased market competition.";
         t_sentiment := "negative" |};
      {| t_title := "Investment Bank Cuts {company} Rating";
         t_description :=
           "A major investment bank reduced its rating on {company} due to regulatory concerns and market headwinds.";
         t_sentiment := "negative" |} ]);
    ("product_innovation",
     [
      {| t_title := "{company} Announces Breakthrough Innovation";
         t_description :=
           "{company} unveiled a revolutionary new product that could transform the industry and drive future growth.";
         t_sentiment := "positive" |};
      {| t_title := "{company} Launches Next-Generation Technology";
         t_description :=
           "{company} introduced cutting-edge technology that positions the company at the forefront of innovation.";
         t_sentiment := "positive" |} ]);
    ("regulatory_news",
     [
      {| t_title := "{company} Faces Regulatory Investigation";
         t_description :=
           "{company} is under investigation by regulatory authorities over potential compliance violations.";
         t_sentiment := "negative" |};
      {| t_title := "{company} Receives Regulatory Approval";
         t_description :=
           "{company} obtained key regulatory approval for its new product, clearing a major hurdle for commercialization.";
         t_sentiment := "positive" |} ]);
    ("market_general",
     [
      {| t_title := "{company} Maintains Market Leadership";
         t_description :=
           "{company} continues to demonstrate strong market position amid evolving industry dynamics.";
         t_sentiment := "neutral" |};
      {| t_title := "{company} Adapts to Market Changes";
         t_description :=
           "{company} announced strategic initiatives to adapt to changing market conditions and customer needs.";
         t_sentiment := "neutral" |} ]);
    ("merger_acquisition",
     [
      {| t_title := "{company} Announces Strategic Acquisition";
         t_description :=
           "{company} announced the acquisition of a complementary business to strengthen its market position.";
         t_sentiment := "positive" |};
      {| t_title := "{company} Explores Strategic Partnerships";
         t_description :=
           "{company} is exploring strategic partnerships to enhance its competitive capabilities.";
         t_sentiment := "neutral" |} ])
  ]%string.

Definition _get_news_companies : list string :=
  [
    "Apple"; "Microsoft"; "Alphabet"; "Amazon"; "NVIDIA"; "Tesla"; "Meta";
    "Berkshire Hathaway"; "UnitedHealth"; "Johnson & Johnson";
    "ExxonMobil"; "JPMorgan Chase"; "Visa"; "Procter & Gamble";
    "Mastercard"; "Chevron"; "Home Depot"; "AbbVie"; "Pfizer";
    "Bank of America"; "Coca-Cola"; "PepsiCo"; "Thermo Fisher"; "Costco";
    "Merck"; "Walmart"; "Disney"; "Abbott"; "Danaher"; "Verizon"; "Cisco";
    "Accenture"; "Linde"; "Adobe"; "Nike"; "Bristol Myers";
    "Philip Morris"; "AT&T"; "Intel"; "Netflix"; "Raytheon";
    "NextEra Energy"; "Wells Fargo"; "Lowe's"; "Oracle"; "AMD";
    "Salesforce"; "Qualcomm"; "Honeywell"; "Union Pacific"
  ]%string.

Definition _get_news_sources : list string :=
  [
    "Reuters"; "Bloomberg"; "Wall Street Journal"; "Financial Times";
    "CNBC"; "MarketWatch"; "Yahoo Finance"; "Business Insider"; "Forbes";
    "CNN Business"; "Associated Press"; "Dow Jones"; "Benzinga";
    "Seeking Alpha"; "TheStreet"; "Barron's"; "Investor's Business Daily";
    "Market News"; "Financial News"; "Trade News"; "Sector Analysis";
    "Industry Report"
  ]%string.


(** [template.format(company=company)] for templates whose only field is
    [{company}]. *)
Fixpoint format_company (skip : nat) (company template : string) : string :=
  match template with
  | EmptyString => EmptyString
  | String c rest =>
      match skip with
      | S k => format_company k company rest
      | O =>
          if String.prefix "{company}" template
          then company +:+ format_company 8 company rest
          else String c (format_company 0 company rest)
      end
  end.

(** A date as Python sees it: iterating a [DatetimeIndex] yields
    [pd.Timestamp] objects, while [np.random.choice] over one returns an
    element of the underlying [datetime64] array. *)
Inductive pydate := PdTimestamp (o : Z) | NpDatetime64 (o : Z).

Definition ordinal_of (d : pydate) : Z :=
  match d with PdTimestamp o | NpDatetime64 o => o end.

(** [date.date()]: a method of [pd.Timestamp] that [np.datetime64] lacks. *)
Definition date_method (d : pydate) : M Z :=
  match d with
  | PdTimestamp o => mret o
  | NpDatetime64 _ => raise (AttributeError "date")
  end.

(** [date + pd.Timedelta(hours=h, minutes=m)], in minutes since the epoch. *)
Definition add_timedelta (d : pydate) (hours minutes : Z) : Z :=
  ordinal_of d * 1440 + hours * 60 + minutes.

Record NewsRecord := {
  news_Date : Z;
  publishedAt : Z;
  title : string;
  description : string;
  source_name : string;
  company_mentioned : string;
  category : string;
  sentiment_hint : string;
  url : string;
  api_source : string
}.

Definition dict_get {V} (d : list (string * V)) (key : string) : M V :=
  match List.find (fun kv => String.eqb (fst kv) key) d with
  | Some kv => mret (snd kv)
  | None => raise (KeyError key)
  end.

Section News.

Variable mt19937 : Z -> nat -> Q.

(** One pass of the inner loop of [collect_news_sentiment_data]. *)
Definition daily_article (news_templates : list (string * list Template))
    (companies sources : list string) (date : pydate) (total_generated : nat)
  : M NewsRecord :=
  template_category ← choice (map fst news_templates);
  templates ← dict_get news_templates template_category;
  template ← choice templates;
  company ← choice companies;
  source ← choice sources;
  hours ← randint 6 22;
  minutes ← randint 0 60;
  let pub_time := add_timedelta date hours minutes in
  let title := format_company 0 company (t_title template) in
  let description := format_company 0 company (t_description template) in
  day ← date_method date;
  mret {| news_Date := day;
          publishedAt := pub_time;
          title := title;
          description := description;
          source_name := source;
          company_mentioned := company;
          category := template_category;
          sentiment_hint := t_sentiment template;
          url := "https://example.com/news/" +:+ pretty total_generated;
          api_source := "comprehensive_generator" |}.

(** [for _ in range(daily_count)]: append one article and count it. *)
Fixpoint daily_articles (news_templates : list (string * list Template))
    (companies sources : list string) (date : pydate) (daily_count : nat)
    (news_data : list NewsRecord) (total_generated : nat)
  : M (list NewsRecord * nat) :=
  match daily_count with
  | O => mret (news_data, total_generated)
  | S k =>
      news_record ←
        daily_article news_templates companies sources date total_generated;
      daily_articles news_templates companies sources date k
        (news_data ++ [news_record]) (S total_generated)
  end.

(** [for date in business_days]. *)
Fixpoint daily_loop (daily_news_count : Q)
    (news_templates : list (string * list Template))
    (companies sources : list string) (business_days : list Z)
    (news_data : list NewsRecord) (total_generated : nat)
  : M (list NewsRecord * nat) :=
  match business_days with
  | [] => mret (news_data, total_generated)
  | date :: tl =>
      k ← poisson daily_news_count;
      let daily_count := Nat.max 1 k in
      '(news_data, total_generated) ←
        daily_articles news_templates companies sources (PdTimestamp date)
          daily_count news_data total_generated;
      daily_loop daily_news_count news_templates companies sources tl
        news_data total_generated
  end.

(** One pass of the loop of [_generate_additional_news]. The date comes
    from [np.random.choice(business_days)]. *)
Definition additional_article (business_days : list Z)
    (templates : list (string * list Template))
    (companies sources : list string) (i : nat) : M NewsRecord :=
  date ← choice (map NpDatetime64 business_days);
  template_category ← choice (map fst templates);
  category_templates ← dict_get templates template_category;
  template ← choice category_templates;
  company ← choice companies;
  source ← choice sources;
  hours ← randint 6 22;
  minutes ← randint 0 60;
  let pub_time := add_timedelta date hours minutes in
  day ← date_method date;
  mret {| news_Date := day;
          publishedAt := pub_time;
          title := format_company 0 company (t_title template);
          description := format_company 0 company (t_description template);
          source_name := source;
          company_mentioned := company;
          category := template_category;
          sentiment_hint := t_sentiment template;
          url := "https://example.com/news/additional_" +:+ pretty i;
          api_source := "additional_generator" |}.

Definition _generate_additional_news (count : Z) (business_days : list Z)
    (templates : list (string * list Template))
    (companies sources : list string) : M (list NewsRecord) :=
  for_each (additional_article business_days templates companies sources)
           (seq 0 (Z.to_nat count)).

(** [while len(news_df) < EXPECTED_NEWS_COUNT: ...], with a bound on the
    number of passes. *)
Fixpoint top_up (fuel : nat) (target : Z) (business_days : list Z)
    (templates : list (string * list Template))
    (companies sources : list string) (news_df : list NewsRecord)
  : M (option (list NewsRecord)) :=
  if Z.of_nat (length news_df) <? target then
    match fuel with
    | O => mret None
    | S fuel' =>
        additional_news ←
          _generate_additional_news (target - Z.of_nat (length news_df))
            business_days templates companies sources;
        top_up fuel' target business_days templates companies sources
          (news_df ++ additional_news)
    end
  else mret (Some news_df).

(** The shuffle behind [RandomState.permutation]. *)
Fixpoint shuffle (i : nat) (xs : list nat) : M (list nat) :=
  match i with
  | O => mret xs
  | S k =>
      j ← randint 0 (Z.of_nat i + 1);
      xi ← index xs i;
      xj ← index xs (Z.to_nat j);
      shuffle k (<[i := xj]> (<[Z.to_nat j := xi]> xs))
  end.

(** [df.sample(n=n, random_state=s)]: the first [n] entries of a random
    permutation of the row numbers, drawn from a generator of its own. *)
Definition sample {A} (n : Z) (random_state : Z) (df : list A) : M (list A) :=
  if n <? 0 then raise (ValueError "negative number of rows")
  else if Z.of_nat (length df) <? n then raise (ValueError "larger sample than population")
  else
    match shuffle (length df - 1) (seq 0 (length df))
                  {| entropy := mt19937 random_state; position := 0 |} with
    | Returns perm _ =>
        for_each (index df) (take (Z.to_nat n) perm)
    | Raises e _ => raise e
    end.

(** [len(news_df) / news_df['Date'].nunique()] of the closing log lines. *)
Definition closing_statistics (news_df : list NewsRecord) : M unit :=
  match news_df with
  | [] => raise ZeroDivisionError
  | _ :: _ => mret tt
  end.

(** The first part of [collect_news_sentiment_data], up to
    [news_df = pd.DataFrame(news_data)]. *)
Definition generate_daily_news (cfg : Config) : M (list NewsRecord) :=
  let business_days := news_calendar cfg in
  daily_news_count ←
    (match business_days with
     | [] => raise ZeroDivisionError
     | _ :: _ =>
         mret (inject_Z (EXPECTED_NEWS_COUNT cfg)
               / inject_Z (Z.of_nat (length business_days)))%Q
     end);
  let news_templates := _get_comprehensive_news_templates in
  let companies := _get_news_companies in
  let sources := _get_news_sources in
  _ ← seed mt19937 42;
  '(news_data, _) ←
    daily_loop daily_news_count news_templates companies sources
      business_days [] 0;
  mret news_data.

(** The result is [None] only when the top-up loop runs out of fuel. *)
Definition collect_news_sentiment_data (fuel : nat) (cfg : Config)
  : M (option (list NewsRecord)) :=
  news_df ← generate_daily_news cfg;
  topped ←
    top_up fuel (EXPECTED_NEWS_COUNT cfg) (news_calendar cfg)
      _get_comprehensive_news_templates _get_news_companies
      _get_news_sources news_df;
  match topped with
  | None => mret None
  | Some news_df =>
      news_df ←
        (if EXPECTED_NEWS_COUNT cfg <? Z.of_nat (length news_df)
         then sample (EXPECTED_NEWS_COUNT cfg) 42 news_df
         else mret news_df);
      _ ← closing_statistics news_df;
      mret (Some news_df)
  end.

End News.

(** ** Sentiment scoring *)

Definition financial_positive_words : list string :=
  [
    "beat"; "exceed"; "strong"; "growth"; "profit"; "gain"; "surge";
    "rally"; "bullish"; "optimistic"; "upgrade"; "outperform";
    "breakthrough"; "success"; "record"; "robust"; "solid"; "positive";
    "momentum"; "opportunity"; "expansion"; "innovation"; "leadership";
    "competitive"; "efficient"
  ]%string.

Definition financial_negative_words : list string :=
  [
    "miss"; "disappoint"; "decline"; "loss"; "drop"; "fall"; "crash";
    "bearish"; "pessimistic"; "downgrade"; "underperform"; "concern";
    "challenge"; "risk"; "uncertainty"; "volatility"; "pressure";
    "weakness"; "struggling"; "difficult"; "problem"; "threat"
  ]%string.

(** [text.lower()] on the ASCII letters. *)
Definition lower_ascii (c : ascii) : ascii :=
  let n := nat_of_ascii c in
  if ((65 <=? n) && (n <=? 90))%nat then ascii_of_nat (n + 32) else c.

Fixpoint lower (s : string) : string :=
  match s with
  | EmptyString => EmptyString
  | String c rest => String (lower_ascii c) (lower rest)
  end.

(** [word in text]. *)
Fixpoint contains (word text : string) : bool :=
  String.prefix word text ||
  match text with
  | EmptyString => false
  | String _ rest => contains word rest
  end.

Definition keyword_count (words : list string) (text : string) : Z :=
  Z.of_nat (length (List.filter (fun word => contains word text) words)).

Record SentimentRecord := {
  news_id : nat;
  date : Z;
  textblob_sentiment : Q;
  keyword_sentiment : Q;
  combined_sentiment : Q;
  confidence : Q;
  intensity : Q;
  positive_keywords : Z;
  negative_keywords : Z;
  total_keywords : Z;
  source : string;
  sentiment_category : string
}.

(** The body of the loop of [analyze_news_sentiment]. [textblob] is the
    optional scorer: text to (polarity, subjectivity), absent when the
    import fails. *)
Definition analyze_article (textblob : option (string -> Q * Q))
    (idx : nat) (row : NewsRecord) : SentimentRecord :=
  let text := lower (title row +:+ " " +:+ description row) in
  let '(textblob_sentiment, confidence) :=
    match textblob with
    | Some blob => blob text
    | None => (0, 1 # 2)%Q
    end in
  let pos_count := keyword_count financial_positive_words text in
  let neg_count := keyword_count financial_negative_words text in
  let keyword_sentiment :=
    if 0 <? pos_count + neg_count
    then (inject_Z (pos_count - neg_count) / inject_Z (pos_count + neg_count))%Q
    else 0%Q in
  let combined_sentiment :=
    match textblob with
    | Some _ => ((6 # 10) * textblob_sentiment + (4 # 10) * keyword_sentiment)%Q
    | None => keyword_sentiment
    end in
  let intensity := py_min 1 (inject_Z (pos_count + neg_count) / 5)%Q in
  {| news_id := idx;
     date := news_Date row;
     textblob_sentiment := textblob_sentiment;
     keyword_sentiment := keyword_sentiment;
     combined_sentiment := combined_sentiment;
     confidence := confidence;
     intensity := intensity;
     positive_keywords := pos_count;
     negative_keywords := neg_count;
     total_keywords := pos_count + neg_count;
     source := source_name row;
     sentiment_category := category row |}.

(** The per-article frame of [analyze_news_sentiment]. *)
Definition analyze_news_sentiment (textblob : option (string -> Q * Q))
    (news_df : list NewsRecord) : list SentimentRecord :=
  imap (analyze_article textblob) news_df.

(** ** Fundamentals *)

Definition FUNDAMENTAL_INDICATORS : list string :=
  [ "Market_Cap"; "PE_Ratio"; "PB_Ratio"; "PS_Ratio"; "EV_EBITDA";
    "ROE"; "ROA"; "ROI"; "Gross_Margin"; "Operating_Margin";
    "Net_Margin"; "Debt_to_Equity"; "Current_Ratio"; "Quick_Ratio";
    "Asset_Turnover" ]%string.

(** An element of [pd.date_range(start, end, freq='Q')]: a quarter end,
    with the [year] and [quarter] attributes of its timestamp. *)
Record Quarter := { quarter_date : Z; quarter_year : Z; quarter_number : Z }.

(** The quarter that ends with month [months], counted from year 0. *)
Definition quarter_of (months : Z) : Quarter :=
  {| quarter_date := month_end months;
     quarter_year := months / 12;
     quarter_number := (months mod 12) / 3 + 1 |}.

(** The ends of March, June, September and December that lie in the closed
    interval. *)
Definition quarter_end_range (start_ end_ : Timestamp) : list Quarter :=
  let first := year start_ * 12 + (month start_ - 1) in
  let last := year end_ * 12 + (month end_ - 1) in
  List.filter
    (fun q => (to_ordinal start_ <=? quarter_date q)
              && (quarter_date q <=? to_ordinal end_))
    (map quarter_of
         (List.filter (fun months => months mod 3 =? 2)
                      (seqZ first (last - first + 1)))).

(** The symbol lists local to [_get_fundamental_multiplier]. *)
Definition multiplier_tech_stocks : list string :=
  [ "AAPL"; "MSFT"; "GOOGL"; "NVDA"; "META"; "TSLA" ]%string.
Definition multiplier_finance_stocks : list string :=
  [ "JPM"; "BAC"; "WFC"; "GS"; "AXP" ]%string.

Definition _get_fundamental_multiplier (symbol : string) : gmap string Q :=
  if py_in symbol multiplier_tech_stocks then
    list_to_map
      [ ("PE_Ratio", 15 # 10); ("PB_Ratio", 13 # 10); ("PS_Ratio", 18 # 10);
        ("EV_EBITDA", 14 # 10); ("ROE", 12 # 10); ("ROA", 11 # 10);
        ("ROI", 12 # 10); ("Gross_Margin", 13 # 10);
        ("Operating_Margin", 12 # 10); ("Net_Margin", 11 # 10) ]%Q
  else if py_in symbol multiplier_finance_stocks then
    list_to_map
      [ ("PE_Ratio", 7 # 10); ("PB_Ratio", 8 # 10); ("Debt_to_Equity", 2);
        ("ROE", 9 # 10); ("Current_Ratio", 5 # 10); ("Quick_Ratio", 5 # 10) ]%Q
  else
    list_to_map (map (fun indicator => (indicator, 1%Q)) FUNDAMENTAL_INDICATORS).

(** [d.get(key, default)]. *)
Definition get_or (d : gmap string Q) (key : string) (dflt : Q) : Q :=
  default dflt (d !! key).

Definition _get_base_fundamental_value (indicator : string) : Q :=
  let base_values : gmap string Q :=
    list_to_map
      [ ("Market_Cap", 50000); ("PE_Ratio", 18); ("PB_Ratio", 25 # 10);
        ("PS_Ratio", 3); ("EV_EBITDA", 12); ("ROE", 15 # 100);
        ("ROA", 8 # 100); ("ROI", 12 # 100); ("Gross_Margin", 35 # 100);
        ("Operating_Margin", 15 # 100); ("Net_Margin", 10 # 100);
        ("Debt_to_Equity", 60 # 100); ("Current_Ratio", 15 # 10);
        ("Quick_Ratio", 12 # 10); ("Asset_Turnover", 8 # 10) ]%Q in
  get_or base_values indicator 1.

(** One dictionary of [fundamental_data]: the three fixed keys, and the
    indicator entries that the inner loop assigns. *)
Record FundamentalRecord := {
  fundamental_Date : Z;
  fundamental_Symbol : string;
  fundamental_Quarter : string;
  fundamental_values : gmap string Q
}.

(** [for indicator in Config.FUNDAMENTAL_INDICATORS: record[indicator] = ...]. *)
Fixpoint fill_indicators (sector_multiplier : gmap string Q)
    (indicators : list string) (record : gmap string Q) : M (gmap string Q) :=
  match indicators with
  | [] => mret record
  | indicator :: tl =>
      let base_value := _get_base_fundamental_value indicator in
      let sector_adj := (base_value * get_or sector_multiplier indicator 1)%Q in
      noise ← normal 0 (base_value * (1 # 10));
      fill_indicators sector_multiplier tl
        (<[indicator := py_max (1 # 100) (sector_adj + noise)]> record)
  end.

Section Fundamentals.

Variable mt19937 : Z -> nat -> Q.

(** The body of the loops over [quarters] and [symbols]. *)
Definition fundamental_record (quarter : Quarter) (symbol : string)
  : M FundamentalRecord :=
  let sector_multiplier := _get_fundamental_multiplier symbol in
  values ← fill_indicators sector_multiplier FUNDAMENTAL_INDICATORS ∅;
  mret {| fundamental_Date := quarter_date quarter;
          fundamental_Symbol := symbol;
          fundamental_Quarter :=
            pretty (quarter_year quarter) +:+ "Q"
              +:+ pretty (quarter_number quarter);
          fundamental_values := values |}.

Definition collect_fundamental_data (cfg : Config) : M (list FundamentalRecord) :=
  let quarters := quarter_end_range (START_DATE cfg) (END_DATE cfg) in
  let symbols := SP500_TOP_300_STOCKS cfg in
  _ ← seed mt19937 42;
  fundamental_data ←
    for_each (fun quarter => for_each (fundamental_record quarter) symbols)
             quarters;
  mret (concat fundamental_data).

End Fundamentals.

(** ** The daily sentiment summary *)

(** [DataFrame.round(4)] on a float column; the special values stay. *)
Definition round4 (x : Q) : Q := rint (x * 10000) # 10000.

Definition fround4 (x : fval) : fval :=
  match x with Fin q => Fin (round4 q) | other => other end.

(** The group keys of [groupby('date')]: each date once, in increasing
    order. *)
Fixpoint insert_key (d : Z) (keys : list Z) : list Z :=
  match keys with
  | [] => [d]
  | k :: tl =>
      if d <? k then d :: keys
      else if d =? k then keys
      else k :: insert_key d tl
  end.

Definition group_keys (dates : list Z) : list Z :=
  fold_right insert_key [] dates.

Definition groupby_date (df : list SentimentRecord)
  : list (Z * list SentimentRecord) :=
  map (fun d => (d, List.filter (fun r => date r =? d) df))
      (group_keys (map date df)).

Definition series_min (xs : list Q) : Q :=
  match xs with [] => 0%Q | x :: tl => fold_left Qmin tl x end.

Definition series_max (xs : list Q) : Q :=
  match xs with [] => 0%Q | x :: tl => fold_left Qmax tl x end.

(** [pd.cut(x, bins, labels)] with the default [right=True] and
    [include_lowest=False]: the label of the interval [(lo, hi]] that holds
    [x], and no label outside the bins. *)
Fixpoint cut_from (lo : Q) (rest : list Q) (labels : list string) (x : Q)
  : option string :=
  match rest, labels with
  | hi :: rest', label :: labels' =>
      if Qltb lo x && Qle_bool x hi then Some label
      else cut_from hi rest' labels' x
  | _, _ => None
  end.

Definition pd_cut (x : Q) (bins : list Q) (labels : list string)
  : option string :=
  match bins with
  | [] => None
  | lo :: rest => cut_from lo rest labels x
  end.

(** [series.rolling(window).mean()] on a column that can hold NaN: the
    window must be full of numbers. *)
Definition rolling_mean_skipna (window : nat) (xs : list fval) : list fval :=
  map (fun i =>
         if (S i <? window)%nat then NaN
         else
           let w := take window (drop (S i - window) xs) in
           if forallb (fun v => match v with Fin _ => true | _ => false end) w
           then Fin (mean (omap (fun v => match v with Fin q => Some q | _ => None end) w))
           else NaN)
      (seq 0 (length xs)).

(** A row of [daily_stats]. *)
Record DailyRecord := {
  daily_date : Z;
  combined_sentiment_mean : Q;
  combined_sentiment_std : fval;
  combined_sentiment_count : nat;
  combined_sentiment_min : Q;
  combined_sentiment_max : Q;
  textblob_sentiment_mean : Q;
  keyword_sentiment_mean : Q;
  confidence_mean : Q;
  intensity_mean : Q;
  positive_keywords_sum : Z;
  negative_keywords_sum : Z;
  total_keywords_sum : Z;
  sentiment_momentum : fval;
  sentiment_volatility : fval;
  sentiment_regime : option string
}.

Section Summary.

Variable np_sqrt : Q -> Q.

(** A frame built from an empty list of records has no ['date'] column,
    and grouping by it raises [KeyError]. *)
Definition _generate_daily_sentiment_summary (sentiment_df : list SentimentRecord)
  : M (list DailyRecord) :=
  match sentiment_df with
  | [] => raise (KeyError "date")
  | _ :: _ =>
      let groups := groupby_date sentiment_df in
      let column {A} (f : list SentimentRecord -> A) : list A :=
        map (fun g => f (snd g)) groups in
      let combined g := map combined_sentiment g in
      let mean_ := column (fun g => round4 (mean (combined g))) in
      let std_ := column (fun g => fround4 (std np_sqrt (combined g))) in
      let sentiment_momentum := rolling_mean 5 mean_ in
      let sentiment_volatility := rolling_mean_skipna 20 std_ in
      mret (imap (fun i g =>
        let rows := snd g in
        let m := round4 (mean (combined rows)) in
        {| daily_date := fst g;
           combined_sentiment_mean := m;
           combined_sentiment_std := fround4 (std np_sqrt (combined rows));
           combined_sentiment_count := length rows;
           combined_sentiment_min := round4 (series_min (combined rows));
           combined_sentiment_max := round4 (series_max (combined rows));
           textblob_sentiment_mean := round4 (mean (map textblob_sentiment rows));
           keyword_sentiment_mean := round4 (mean (map keyword_sentiment rows));
           confidence_mean := round4 (mean (map confidence rows));
           intensity_mean := round4 (mean (map intensity rows));
           positive_keywords_sum := foldr Z.add 0 (map positive_keywords rows);
           negative_keywords_sum := foldr Z.add 0 (map negative_keywords rows);
           total_keywords_sum := foldr Z.add 0 (map total_keywords rows);
           sentiment_momentum := at_ sentiment_momentum i;
           sentiment_volatility := at_ sentiment_volatility i;
           sentiment_regime :=
             pd_cut m [-1; -(2 # 10); 2 # 10; 1]%Q
                    ["Bearish"; "Neutral"; "Bullish"]%string |}) groups)
  end.

End Summary.

(** ** API keys

    The class attributes of [APIKeys], read from the environment when the
    module is loaded. What [validate_keys] prints is not modelled. *)

Record APIKeys := {
  ALPHA_VANTAGE_KEY : string;
  FRED_API_KEY : string;
  NEWS_API_KEY : string;
  GNEWS_API_KEY : string;
  REDDIT_CLIENT_ID : string;
  REDDIT_CLIENT_SECRET : string;
  REDDIT_USER_AGENT : string;
  TWITTER_BEARER_TOKEN : string;
  DATABASE_URL : string;
  REDIS_URL : string
}.

(** The truth value of a string: it is not empty. *)
Definition py_bool (s : string) : bool := negb (String.eqb s EmptyString).

(** [s.startswith(prefix)]. *)
Definition startswith (s prefix : string) : bool := String.prefix prefix s.

Definition validation_results (cls : APIKeys) : list (string * bool) :=
  [ ("alpha_vantage"%string,
     py_bool (ALPHA_VANTAGE_KEY cls)
     && negb (startswith (ALPHA_VANTAGE_KEY cls) "your_"%string));
    ("fred"%string,
     py_bool (FRED_API_KEY cls) && negb (startswith (FRED_API_KEY cls) "your_"%string));
    ("newsapi"%string,
     py_bool (NEWS_API_KEY cls) && negb (startswith (NEWS_API_KEY cls) "your_"%string));
    ("gnews"%string,
     py_bool (GNEWS_API_KEY cls) && negb (startswith (GNEWS_API_KEY cls) "your_"%string));
    ("reddit"%string,
     py_bool (REDDIT_CLIENT_ID cls) && py_bool (REDDIT_CLIENT_SECRET cls)
     && negb (startswith (REDDIT_CLIENT_ID cls) "your_"%string)
     && negb (startswith (REDDIT_CLIENT_SECRET cls) "your_"%string)) ].

Definition validate_keys (cls : APIKeys) : bool :=
  let validation_results := validation_results cls in
  let configured_count :=
    foldr Z.add 0 (map (fun kv : string * bool => if snd kv then 1 else 0)
                      validation_results) in
  if 3 <=? configured_count then true
  else 0 <? configured_count.

Definition get_available_apis (cls : APIKeys) : list string :=
  let available := [] in
  let available :=
    if py_bool (ALPHA_VANTAGE_KEY cls)
       && negb (startswith (ALPHA_VANTAGE_KEY cls) "your_"%string)
    then available ++ ["alpha_vantage"%string] else available in
  let available :=
    if py_bool (FRED_API_KEY cls) && negb (startswith (FRED_API_KEY cls) "your_"%string)
    then available ++ ["fred"%string] else available in
  let available :=
    if py_bool (NEWS_API_KEY cls) && negb (startswith (NEWS_API_KEY cls) "your_"%string)
    then available ++ ["newsapi"%string] else available in
  let available :=
    if py_bool (GNEWS_API_KEY cls) && negb (startswith (GNEWS_API_KEY cls) "your_"%string)
    then available ++ ["gnews"%string] else available in
  let available :=
    if py_bool (REDDIT_CLIENT_ID cls) && py_bool (REDDIT_CLIENT_SECRET cls)
       && negb (startswith (REDDIT_CLIENT_ID cls) "your_"%string)
       && negb (startswith (REDDIT_CLIENT_SECRET cls) "your_"%string)
    then available ++ ["reddit"%string] else available in
  available.

(** ** Rational stand-ins for evaluation

    Concrete instances of the parameters, used only to run the model on
    examples: Newton's iteration for the square root, truncated series for
    the logarithm and the exponential, and a linear congruential stream. *)

Module Sample.

(** Twelve decimals are kept at each step. *)
Definition chop (x : Q) : Q :=
  Qfloor (x * 1000000000000) # 1000000000000.

Fixpoint newton (n : nat) (x g : Q) : Q :=
  match n with
  | O => g
  | S k => newton k x (chop ((g + x / g) / 2))
  end.

Definition sqrt (x : Q) : Q :=
  if Qle_bool x 0 then 0%Q else newton 30 (chop x) (Qmax (chop x) 1).

Definition log (x : Q) : Q :=
  let y := chop ((x - 1) / (x + 1)) in
  chop (2 * (y + y * y * y / 3 + y * y * y * y * y / 5)).

Definition exp (x : Q) : Q :=
  let y := chop x in
  chop (1 + y + y * y / 2 + y * y * y / 6 + y * y * y * y / 24).

Definition stream (s : Z) (n : nat) : Q :=
  (((Z.of_nat n + 1) * (1103515245 * s + 12345)) mod 2003 # 500) - 2.

(** A state whose first raw draws are listed, followed by zeros. *)
Definition state_of (draws : list Q) : RandomState :=
  {| entropy := fun n => nth n draws 0%Q; position := 0 |}.

End Sample.

(** * Specification vocabulary and sample inputs *)

(** ** Outcomes of a computation *)

(** [wp m Q st]: from state [st] the computation [m] returns, with a
    result and a final state that satisfy [Q]. *)
Definition wp {A} (m : M A) (Q : A -> RandomState -> Prop) (st : RandomState)
  : Prop :=
  match m st with
  | Returns a st' => Q a st'
  | Raises _ _ => False
  end.

(** [raises e m st]: from [st] the computation [m] raises [e]. *)
Definition raises {A} (e : exn) (m : M A) (st : RandomState) : Prop :=
  exists st', m st = Raises e st'.

(** ** The price panel *)

(** The compounding of the price list, without the list surgery. *)
Fixpoint compound (price : Q) (returns : list Q) : list Q :=
  match returns with
  | [] => []
  | r :: tl => (price * (1 + r))%Q :: compound (price * (1 + r))%Q tl
  end.

Definition unit_interval (u : Q) : Prop := (0 <= u /\ u < 1)%Q.

(** The offset of High above (and of Low below) the close: a uniform draw
    from 0 to the daily range, itself a uniform fraction of the close. *)
Definition range_offset (close u v : Q) : Q :=
  (0 + (close * ((5 # 1000) + ((4 # 100) - (5 # 1000)) * u) - 0) * v)%Q.

Definition row_spec (symbol : string) (sp : SectorParams)
    (initial_price : Q) (prices returns : list Q)
    (i : nat) (date : Z) (r : StockRecord) : Prop :=
  exists close open_price ret_i u up down v,
    prices !! i = Some close /\ returns !! i = Some ret_i /\
    match i with
    | O => open_price = close
    | S j => prices !! j = Some open_price
    end /\
    unit_interval u /\ unit_interval up /\ unit_interval down /\
    unit_interval v /\
    Date r = date /\ Symbol r = symbol /\
    Open r = round2 open_price /\
    High r = round2 (close + range_offset close u up) /\
    Low r = round2 (close - range_offset close u down) /\
    Close r = round2 close /\
    Volume r = py_int (inject_Z (avg_volume sp) * (1 + Qabs ret_i * 10)
                       * ((1 # 2) + (2 - (1 # 2)) * v)) /\
    Return r = ret_i.

Definition single_stock_post (symbol : string) (date_range : list Z)
    (st : RandomState) (rows : list PanelRow) : Prop :=
  exists initial_price returns,
    (exists st1, uniform 50 500 st = Returns initial_price st1) /\
    (50 <= initial_price /\ initial_price < 500)%Q /\
    length returns = length date_range /\
    Forall2 (fun p row =>
               row_spec symbol (_get_sector_parameters symbol) initial_price
                 (price_path initial_price returns) returns (fst p) (snd p)
                 (record row))
            (zip (seq 0 (length date_range)) date_range) rows.

Definition one_year : Config := {|
  START_DATE := ymd 2015 1 1;
  END_DATE := ymd 2015 12 31;
  EXPECTED_TRADING_DAYS := 2518;
  TARGET_STOCK_COUNT := 300;
  EXPECTED_NEWS_COUNT := 15000;
  SP500_TOP_300_STOCKS := default_symbols
|}.

Definition with_targets (cfg : Config) (stocks news : Z) : Config :=
  {| START_DATE := START_DATE cfg;
     END_DATE := END_DATE cfg;
     EXPECTED_TRADING_DAYS := EXPECTED_TRADING_DAYS cfg;
     TARGET_STOCK_COUNT := stocks;
     EXPECTED_NEWS_COUNT := news;
     SP500_TOP_300_STOCKS := SP500_TOP_300_STOCKS cfg |}.

Definition three_days : Config := {|
  START_DATE := ymd 2024 1 1;
  END_DATE := ymd 2024 1 3;
  EXPECTED_TRADING_DAYS := 2518;
  TARGET_STOCK_COUNT := 0;
  EXPECTED_NEWS_COUNT := 0;
  SP500_TOP_300_STOCKS := ["AAPL"; "JPM"]%string
|}.

(** Three trading days from 2024-01-01, outside the event windows. *)
Definition january_days : list Z := [19723; 19724; 19725].

(** An ordinary run: a draw of 1/2 for the initial price, then standard
    normal draws of 1 and 0 for the market and the instrument. *)
Definition calm_state : RandomState :=
  Sample.state_of [1 # 2; 1; 0; 1 # 2; 1 # 2; 1 # 2; 1 # 2]%Q.



(** ** RSI *)

Definition increasing (prices : list Q) : Prop :=
  forall i a b, prices !! i = Some a -> prices !! S i = Some b -> (a < b)%Q.

(** The value of the RSI from the two averages. *)
Definition rsi_value (gain loss : fval) : fval :=
  fsub (Fin 100) (fdiv (Fin 100) (fadd (Fin 1) (fdiv gain loss))).

Definition rising_series : list Q :=
  map (fun k => inject_Z (100 + Z.of_nat k)) (seq 0 20).

Definition in_unit_band (x : Q) : Prop := (-1 <= x /\ x <= 1)%Q.

(** A stand-in for the optional scorer: polarity 1 when the text mentions
    "strong", -1 when it mentions "concern", else 0. *)
Definition toy_blob (text : string) : Q * Q :=
  if contains "strong" text then (1, 1)%Q
  else if contains "concern" text then (-1, 1)%Q
  else (0, 0)%Q.

Definition sample_news : list NewsRecord :=
  [ {| news_Date := 19723; publishedAt := 28401600;
       title := "Apple Beats Earnings Expectations";
       description := "Apple reported quarterly earnings that exceeded analyst expectations, driven by strong revenue growth and improved operational efficiency.";
       source_name := "Reuters"; company_mentioned := "Apple";
       category := "earnings_positive"; sentiment_hint := "positive";
       url := "https://example.com/news/0";
       api_source := "comprehensive_generator" |};
    {| news_Date := 19723; publishedAt := 28401700;
       title := "Tesla Downgraded on Growth Concerns";
       description := "Analysts downgraded Tesla citing concerns over slowing growth and increased market competition.";
       source_name := "CNBC"; company_mentioned := "Tesla";
       category := "analyst_downgrades"; sentiment_hint := "negative";
       url := "https://example.com/news/1";
       api_source := "comprehensive_generator" |} ].

(** ** Macro indicators *)

(** The declared band of each indicator. *)
Definition macro_bands : list (string * (Q * Q)) :=
  [ ("GDP_Growth", (-5, 8)); ("Inflation_Rate", (-1, 10));
    ("Unemployment_Rate", (2, 15)); ("Federal_Funds_Rate", (0, 6));
    ("VIX_Index", (10, 80)); ("Dollar_Index", (80, 120));
    ("Oil_Price", (20, 150)); ("Ten_Year_Treasury", (5 # 10, 6)) ]%Q.

Definition within_band (values : gmap string Q) (name : string) (lo hi : Q)
  : Prop :=
  exists v, values !! name = Some v /\ (lo <= v /\ v <= hi)%Q.

Definition has_indicators (values : gmap string Q) : Prop :=
  forall name, name ∈ MACRO_INDICATORS -> is_Some (values !! name).

Definition within_bands (values : gmap string Q) : Prop :=
  Forall (fun b => within_band values (fst b) (fst (snd b)) (snd (snd b)))
         macro_bands.

(** ** The news corpus *)


(** ** Further vocabulary *)

(** ** Counting draws *)

(** The state after [k] more draws. *)
Definition advance (k : nat) (st : RandomState) : RandomState :=
  {| entropy := entropy st; position := (position st + k)%nat |}.

(** [runs m k P st]: from [st] the computation [m] returns a result that
    satisfies [P], after exactly [k] draws. *)
Definition runs {A} (m : M A) (k : nat) (P : A -> Prop) (st : RandomState)
  : Prop :=
  exists a, m st = Returns a (advance k st) /\ P a.

(** The shift that an event window applies to a return. *)
Definition shifted (loc scale r r' : Q) : Prop :=
  exists z, r' = (r + (loc + scale * z))%Q.

(** The two windows of [_add_market_events]: March and April 2020, and
    the year 2022. *)
Definition covid_window : Z -> bool :=
  in_window (ymd 2020 3 1) (ymd 2020 4 30).
Definition inflation_window : Z -> bool :=
  in_window (ymd 2022 1 1) (ymd 2022 12 31).

(** Draws of one instrument: the initial price, two shocks per day, one
    shock per day of an event window, and four uniform draws per record. *)
Definition draws_per_instrument (date_range : list Z) : nat :=
  (1 + (length date_range
        + (length date_range
           + (length (List.filter covid_window date_range)
              + length (List.filter inflation_window date_range)
              + length date_range * 4))))%nat.

(** ** Indicators *)

Definition decreasing (prices : list Q) : Prop :=
  forall i a b, prices !! i = Some a -> prices !! S i = Some b -> (b < a)%Q.

(** Twenty closes that fall by one a day, from 100. *)
Definition falling_series : list Q :=
  map (fun k => inject_Z (100 - Z.of_nat k)) (seq 0 20).

Definition between (lo hi x : Q) : Prop := (lo <= x /\ x <= hi)%Q.

(** Three records on consecutive days, with closes 100, 101 and 102. *)
Definition toy_records : list StockRecord :=
  map (fun k =>
         {| Date := 19723 + Z.of_nat k; Symbol := "AAPL";
            Open := 100; High := 101; Low := 99;
            Close := inject_Z (100 + Z.of_nat k);
            Volume := 1000; Return := 1 # 100; Log_Return := NaN |})
      (seq 0 3).

(** ** Macro indicators in the event windows *)

Definition at_most (values : gmap string Q) (name : string) (c : Q) : Prop :=
  exists v, values !! name = Some v /\ (v <= c)%Q.

Definition at_least (values : gmap string Q) (name : string) (c : Q) : Prop :=
  exists v, values !! name = Some v /\ (c <= v)%Q.

(** What the event windows add to the declared bands. *)
Definition event_caps (date : Z) (values : gmap string Q) : Prop :=
  (in_window (ymd 2020 3 1) (ymd 2020 12 31) date = true ->
     at_least values "Federal_Funds_Rate" (1 # 10)) /\
  (in_window (ymd 2022 1 1) (ymd 2023 12 31) date = true ->
     at_most values "Inflation_Rate" 9 /\
     at_most values "Federal_Funds_Rate" (55 # 10) /\
     at_most values "Ten_Year_Treasury" 5).

(** ** Fundamentals *)

(** A record holds exactly the fifteen indicators, each at least 0.01. *)
Definition floored (values : gmap string Q) : Prop :=
  forall key,
    match values !! key with
    | Some v => key ∈ FUNDAMENTAL_INDICATORS /\ (1 # 100 <= v)%Q
    | None => key ∉ FUNDAMENTAL_INDICATORS
    end.

(** ** Articles of the daily loop *)

(** Every template of the library names the company in its title and in
    its description, for every company of the list. *)
Definition templates_mention_company : bool :=
  forallb (fun kv =>
    forallb (fun t =>
      forallb (fun c => contains c (format_company 0 c (t_title t))
                        && contains c (format_company 0 c (t_description t)))
              _get_news_companies) (snd kv))
    _get_comprehensive_news_templates.

(** An article of the daily loop for the day [d]. *)
Definition article_of_day (d : Z) (r : NewsRecord) : Prop :=
  news_Date r = d /\
  d * 1440 + 6 * 60 <= publishedAt r < d * 1440 + 22 * 60 /\
  company_mentioned r ∈ _get_news_companies /\
  source_name r ∈ _get_news_sources /\
  (exists templates template,
      (category r, templates) ∈ _get_comprehensive_news_templates /\
      template ∈ templates /\
      title r = format_company 0 (company_mentioned r) (t_title template) /\
      description r
        = format_company 0 (company_mentioned r) (t_description template) /\
      sentiment_hint r = t_sentiment template) /\
  contains (company_mentioned r) (title r) = true /\
  contains (company_mentioned r) (description r) = true /\
  api_source r = "comprehensive_generator"%string.

Definition numbered (first : nat) (news : list NewsRecord) : Prop :=
  forall j r, news !! j = Some r ->
    url r = ("https://example.com/news/" +:+ pretty (first + j)%nat)%string.

(** An interval that holds a Saturday and a Sunday only. *)
Definition weekend_only : Config := {|
  START_DATE := ymd 2024 1 6;
  END_DATE := ymd 2024 1 7;
  EXPECTED_TRADING_DAYS := 2518;
  TARGET_STOCK_COUNT := 300;
  EXPECTED_NEWS_COUNT := 15000;
  SP500_TOP_300_STOCKS := default_symbols
|}.

(** ** The daily summary *)

(** The regime label against the rounded daily mean. *)
Definition regime_spec (m : Q) (label : option string) : Prop :=
  match label with
  | Some l =>
      (l = "Bearish"%string /\ (-1 < m /\ m <= -(2 # 10))%Q) \/
      (l = "Neutral"%string /\ (-(2 # 10) < m /\ m <= 2 # 10)%Q) \/
      (l = "Bullish"%string /\ (2 # 10 < m /\ m <= 1)%Q)
  | None => (m <= -1 \/ 1 < m)%Q
  end.

(** An article whose words are all on the negative list. *)
Definition gloomy_news : list NewsRecord :=
  [ {| news_Date := 19723; publishedAt := 28401600;
       title := "Tesla Misses Earnings Estimates";
       description := "Tesla reported disappointing quarterly results.";
       source_name := "Reuters"; company_mentioned := "Tesla";
       category := "earnings_negative"; sentiment_hint := "negative";
       url := "https://example.com/news/0";
       api_source := "comprehensive_generator" |} ].

(** ** API keys *)

(** The environment of a fresh checkout: only the defaults. *)
Definition default_keys : APIKeys := {|
  ALPHA_VANTAGE_KEY := ""; FRED_API_KEY := ""; NEWS_API_KEY := "";
  GNEWS_API_KEY := ""; REDDIT_CLIENT_ID := ""; REDDIT_CLIENT_SECRET := "";
  REDDIT_USER_AGENT := "AssetPricingBot/1.0"; TWITTER_BEARER_TOKEN := "";
  DATABASE_URL := "sqlite:///asset_pricing.db";
  REDIS_URL := "redis://localhost:6379/0"
|}.

(** * Properties *)

(** ** The generator monad *)

Lemma Qltb_true (x y : Q) : Qltb x y = true <-> (x < y)%Q.
Proof.
  unfold Qltb. rewrite negb_true_iff. split; intros H.
  - apply Qnot_le_lt. intros Hle. apply Qle_bool_iff in Hle. congruence.
  - destruct (Qle_bool y x) eqn:E; [|reflexivity].
    apply Qle_bool_iff in E. exfalso. revert H. apply Qle_not_lt, E.
Qed.

Lemma Qltb_false (x y : Q) : Qltb x y = false <-> (y <= x)%Q.
Proof.
  unfold Qltb. rewrite negb_false_iff. apply Qle_bool_iff.
Qed.

Lemma wp_ret {A} (a : A) Q st : Q a st -> wp (mret a) Q st.
Proof. intros H. exact H. Qed.

Lemma wp_bind {A B} (m : M A) (f : A -> M B) Q st :
  wp m (fun a st' => wp (f a) Q st') st -> wp (m ≫= f) Q st.
Proof.
  unfold wp, mbind, M_bind. destruct (m st); [tauto | intros []].
Qed.

Lemma wp_mono {A} (m : M A) (Q Q' : A -> RandomState -> Prop) st :
  (forall a st', Q a st' -> Q' a st') -> wp m Q st -> wp m Q' st.
Proof.
  unfold wp. intros H. destruct (m st); [apply H | tauto].
Qed.

Lemma wp_returns {A} (m : M A) Q st :
  wp m Q st <-> exists a st', m st = Returns a st' /\ Q a st'.
Proof.
  unfold wp. split.
  - destruct (m st) as [a st'|]; [eauto | intros []].
  - intros (a & st' & -> & H). exact H.
Qed.

Lemma Qfrac_range (q : Q) :
  (0 <= q - inject_Z (Qfloor q) /\ q - inject_Z (Qfloor q) < 1)%Q.
Proof.
  pose proof (Qfloor_le q) as Hlo. pose proof (Qlt_floor q) as Hhi.
  rewrite inject_Z_plus in Hhi. change (inject_Z 1) with 1%Q in Hhi.
  split; lra.
Qed.

Lemma wp_random_sample Q st :
  (forall u st', (0 <= u)%Q -> (u < 1)%Q -> Q u st') -> wp random_sample Q st.
Proof.
  intros H. unfold random_sample. apply wp_bind. unfold wp, next_raw.
  apply wp_ret. apply H; apply Qfrac_range.
Qed.

Lemma wp_uniform low high Q st :
  (forall u st', (0 <= u)%Q -> (u < 1)%Q -> Q (low + (high - low) * u)%Q st') ->
  wp (uniform low high) Q st.
Proof.
  intros H. unfold uniform. apply wp_bind, wp_random_sample.
  intros u st' H0 H1. apply wp_ret. now apply H.
Qed.

Lemma wp_normal loc scale Q st :
  (forall z st', Q (loc + scale * z)%Q st') -> wp (normal loc scale) Q st.
Proof.
  intros H. unfold normal. apply wp_bind. unfold wp, standard_normal, next_raw.
  apply wp_ret, H.
Qed.

Lemma wp_repeatM {A} (m : M A) (P : A -> Prop) n st :
  (forall st', wp m (fun a _ => P a) st') ->
  wp (repeatM n m) (fun xs _ => length xs = n /\ Forall P xs) st.
Proof.
  intros Hm. revert st. induction n as [|n IH]; intros st; simpl.
  - apply wp_ret. split; [reflexivity | constructor].
  - apply wp_bind. eapply wp_mono; [|apply Hm]. intros a st1 Pa. simpl.
    apply wp_bind. eapply wp_mono; [|apply IH]. intros xs st2 [Hlen Hall].
    simpl. apply wp_ret. simpl. split; [congruence | now constructor].
Qed.

Lemma wp_normal_n loc scale n st :
  wp (normal_n loc scale n) (fun xs _ => length xs = n) st.
Proof.
  unfold normal_n. eapply wp_mono; [|apply (wp_repeatM _ (fun _ => True))].
  - intros xs st' [H _]. exact H.
  - intros st'. apply wp_normal. intros. exact I.
Qed.

Lemma wp_index {A} (xs : list A) i x Q st :
  xs !! i = Some x -> Q x st -> wp (index xs i) Q st.
Proof.
  intros Hx HQ. unfold index. rewrite Hx. now apply wp_ret.
Qed.

(** ** The price path *)

Lemma last_snoc {A} (xs : list A) (x d : A) : List.last (xs ++ [x]) d = x.
Proof.
  induction xs as [|y ys IH]; [reflexivity|].
  simpl. destruct (ys ++ [x]) eqn:E; [|exact IH].
  destruct ys; discriminate.
Qed.

Lemma price_fold_compound (returns : list Q) : forall (acc : list Q) (p : Q),
  fold_left (fun prices ret => prices ++ [(List.last prices 0 * (1 + ret))%Q])
            returns (acc ++ [p])
  = acc ++ p :: compound p returns.
Proof.
  induction returns as [|r tl IH]; intros acc p; simpl.
  - reflexivity.
  - rewrite last_snoc.
    change (acc ++ p :: (p * (1 + r))%Q :: compound (p * (1 + r))%Q tl)
      with (acc ++ [p] ++ (p * (1 + r))%Q :: compound (p * (1 + r))%Q tl).
    rewrite app_assoc. apply IH.
Qed.

Lemma price_path_compound (initial_price : Q) (returns : list Q) :
  price_path initial_price returns = compound initial_price returns.
Proof.
  unfold price_path.
  change [initial_price] with ([] ++ [initial_price]).
  rewrite price_fold_compound. reflexivity.
Qed.

Lemma length_compound (returns : list Q) : forall p,
  length (compound p returns) = length returns.
Proof. induction returns; intros p; simpl; [reflexivity | now rewrite IHreturns]. Qed.

Lemma length_price_path (initial_price : Q) (returns : list Q) :
  length (price_path initial_price returns) = length returns.
Proof. rewrite price_path_compound. apply length_compound. Qed.

Lemma compound_step (returns : list Q) : forall p t q r,
  compound p returns !! t = Some q -> returns !! S t = Some r ->
  compound p returns !! S t = Some (q * (1 + r))%Q.
Proof.
  induction returns as [|r0 tl IH]; intros p t q r Hq Hr; [discriminate|].
  destruct t as [|t]; simpl in *.
  - injection Hq as <-. destruct tl as [|r1 tl']; [discriminate|].
    simpl in *. now injection Hr as <-.
  - eapply IH; eassumption.
Qed.

(** ** Sorting a frame whose dates already increase *)

Lemma sort_values_Date_sorted (rows : list StockRecord) :
  Sorted Z.lt (map Date rows) -> sort_values_Date rows = rows.
Proof.
  induction rows as [|r tl IH]; intros Hs; [reflexivity|].
  simpl in *. inversion Hs as [|? ? Htl Hhd]; subst.
  unfold sort_values_Date in *. simpl. rewrite (IH Htl).
  destruct tl as [|x tl']; [reflexivity|].
  simpl. inversion Hhd; subst.
  destruct (Date r <=? Date x) eqn:E; [reflexivity|].
  apply Z.leb_gt in E. lia.
Qed.

(** ** Loops *)

Lemma wp_for_enumerate {A B} (f : nat -> A -> M B) (R : nat -> A -> B -> Prop)
    (xs : list A) : forall i0 st,
  (forall j x st', xs !! j = Some x ->
     wp (f (i0 + j)%nat x) (fun y _ => R (i0 + j)%nat x y) st') ->
  wp (for_enumerate f i0 xs)
     (fun ys _ => Forall2 (fun p y => R (fst p) (snd p) y)
                          (zip (seq i0 (length xs)) xs) ys) st.
Proof.
  induction xs as [|x tl IH]; intros i0 st Hf; simpl.
  - apply wp_ret. constructor.
  - apply wp_bind. eapply wp_mono.
    2:{ specialize (Hf 0%nat x st eq_refl). rewrite Nat.add_0_r in Hf. exact Hf. }
    intros y st1 Hy. simpl. apply wp_bind. eapply wp_mono; [|apply IH].
    + intros ys st2 Hys. simpl. apply wp_ret. constructor; assumption.
    + intros j x' st' Hx'. specialize (Hf (S j) x' st' Hx').
      rewrite Nat.add_succ_r in Hf. exact Hf.
Qed.

Lemma wp_for_each {A B} (f : A -> M B) (R : A -> B -> Prop) (xs : list A) :
  forall st,
  (forall x st', x ∈ xs -> wp (f x) (fun y _ => R x y) st') ->
  wp (for_each f xs) (fun ys _ => Forall2 R xs ys) st.
Proof.
  induction xs as [|x tl IH]; intros st Hf; simpl.
  - apply wp_ret. constructor.
  - apply wp_bind. eapply wp_mono; [|apply Hf; left].
    intros y st1 Hy. simpl. apply wp_bind. eapply wp_mono; [|apply IH].
    + intros ys st2 Hys. simpl. apply wp_ret. now constructor.
    + intros x' st' Hx'. apply Hf. now right.
Qed.

(** ** Event overlays keep the length of the return series *)

Lemma length_add_masked (returns : list Q) : forall mask shocks,
  length (add_masked returns mask shocks) = length returns.
Proof.
  induction returns as [|r rs IH]; intros mask shocks.
  - destruct mask; reflexivity.
  - destruct mask as [|[] ms]; [reflexivity| |]; simpl.
    + destruct shocks; simpl; now rewrite IH.
    + now rewrite IH.
Qed.

Lemma wp_add_market_events (returns : list Q) (date_range : list Z) st :
  wp (_add_market_events returns date_range)
     (fun rs _ => length rs = length returns) st.
Proof.
  unfold _add_market_events. apply wp_bind.
  apply (wp_mono _ (fun rs _ => length rs = length returns)).
  - intros rs1 st1 H1. simpl. apply wp_bind.
    apply (wp_mono _ (fun rs _ => length rs = length returns)).
    + intros rs2 st2 H2. now apply wp_ret.
    + destruct (existsb _ _).
      * apply wp_bind. eapply wp_mono; [|apply wp_normal_n].
        intros sh st' _. simpl. apply wp_ret.
        now rewrite length_add_masked.
      * now apply wp_ret.
  - destruct (existsb _ _).
    + apply wp_bind. eapply wp_mono; [|apply wp_normal_n].
      intros sh st' _. simpl. apply wp_ret. apply length_add_masked.
    + now apply wp_ret.
Qed.

(** ** The single-stock generator *)

Lemma wp_uniform_run low high Q st :
  (forall u st', (0 <= u)%Q -> (u < 1)%Q ->
     uniform low high st = Returns (low + (high - low) * u)%Q st' ->
     Q (low + (high - low) * u)%Q st') ->
  wp (uniform low high) Q st.
Proof.
  intros H. unfold wp.
  pose proof (Qfrac_range (entropy st (position st))) as [H0 H1].
  specialize (H _ _ H0 H1 eq_refl). exact H.
Qed.

Lemma wp_ohlc_record np_log symbol sp initial_price prices returns i date st :
  (i < length prices)%nat -> (i < length returns)%nat ->
  wp (ohlc_record np_log symbol sp initial_price prices returns i date)
     (fun r _ => row_spec symbol sp initial_price prices returns i date r) st.
Proof.
  intros Hp Hr.
  destruct (lookup_lt_is_Some_2 prices i Hp) as [close Hclose].
  destruct (lookup_lt_is_Some_2 returns i Hr) as [ret_i Hret].
  assert (Hopen : exists open_price,
    match i with O => open_price = close | S j => prices !! j = Some open_price end).
  { destruct i as [|j]; [now exists close|].
    apply lookup_lt_is_Some_2. lia. }
  destruct Hopen as [open_price Hopen].
  unfold ohlc_record.
  apply wp_bind. eapply wp_index; [exact Hclose|]. simpl.
  apply wp_bind, wp_uniform. intros u st1 Hu0 Hu1. simpl.
  apply wp_bind, wp_uniform. intros up st2 Hup0 Hup1. simpl.
  apply wp_bind, wp_uniform. intros down st3 Hd0 Hd1. simpl.
  apply wp_bind.
  apply (wp_mono _ (fun o _ => o = open_price)).
  2:{ destruct i as [|j]; simpl.
      - apply wp_ret. now symmetry.
      - rewrite Nat.sub_0_r. eapply wp_index; [exact Hopen | reflexivity]. }
  intros o st4 ->. simpl.
  apply wp_bind. eapply wp_index; [exact Hret|]. simpl.
  apply wp_bind, wp_uniform. intros v st5 Hv0 Hv1. simpl.
  apply wp_bind.
  apply (wp_mono _ (fun _ _ => True)).
  2:{ destruct i as [|j]; simpl.
      - now apply wp_ret.
      - rewrite Nat.sub_0_r. eapply wp_index; [exact Hopen | exact I]. }
  intros prev st6 _. simpl. apply wp_ret.
  exists close, open_price, ret_i, u, up, down, v.
  unfold unit_interval, range_offset. simpl. tauto.
Qed.

Lemma Forall2_imap_record {A} (g : nat -> StockRecord -> PanelRow)
    (P : A -> StockRecord -> Prop) (xs : list A) (rs : list StockRecord) :
  (forall i r, record (g i r) = r) ->
  Forall2 P xs rs ->
  Forall2 (fun x row => P x (record row)) xs (imap g rs).
Proof.
  intros Hg H. revert g Hg. induction H as [|x r xs rs Hxr _ IH]; intros g Hg.
  - constructor.
  - simpl. constructor.
    + now rewrite Hg.
    + apply IH. intros i r'. apply Hg.
Qed.

Lemma Forall2_enumerate_dates {B} (P : nat -> Z -> B -> Prop)
    (date_range : list Z) (ys : list B) (proj : B -> Z) : forall i0,
  Forall2 (fun p y => P (fst p) (snd p) y) (zip (seq i0 (length date_range)) date_range) ys ->
  (forall i d y, P i d y -> proj y = d) ->
  map proj ys = date_range.
Proof.
  revert ys. induction date_range as [|d tl IH]; intros ys i0 H Hp; simpl in *.
  - inversion H. reflexivity.
  - inversion H as [|? y ? ys' Hy Hys]; subst. simpl.
    f_equal; [eapply Hp; exact Hy | eapply IH; eassumption].
Qed.

Lemma single_stock_spec np_sqrt np_log symbol date_range st :
  date_range <> [] -> Sorted Z.lt date_range ->
  wp (_generate_single_stock_data np_sqrt np_log symbol date_range)
     (fun rows _ => single_stock_post symbol date_range st rows) st.
Proof.
  intros Hne Hsorted. unfold _generate_single_stock_data.
  apply wp_bind, wp_uniform_run. intros u0 st1 Hu0 Hu1 Hdraw. simpl.
  set (initial_price := (50 + (500 - 50) * u0)%Q) in *.
  apply wp_bind. eapply wp_mono; [|apply wp_normal_n].
  intros market st2 Hm. simpl.
  apply wp_bind. eapply wp_mono; [|apply wp_normal_n].
  intros idio st3 Hi. simpl.
  apply wp_bind. eapply wp_mono; [|apply wp_add_market_events].
  intros returns st4 Hlen. simpl.
  rewrite length_zip_with, Hm, Hi, Nat.min_id in Hlen.
  apply wp_bind. eapply wp_mono.
  2:{ apply (wp_for_enumerate _
        (row_spec symbol (_get_sector_parameters symbol) initial_price
                  (price_path initial_price returns) returns)).
      intros j d st' Hd. simpl. apply lookup_lt_Some in Hd.
      apply wp_ohlc_record; [rewrite length_price_path|]; lia. }
  intros records st5 Hrec. simpl.
  assert (Hdates : map Date records = date_range).
  { eapply Forall2_enumerate_dates; [exact Hrec|].
    intros i d y (? & ? & ? & ? & ? & ? & ? & H). tauto. }
  unfold _calculate_technical_indicators.
  destruct records as [|r0 records'].
  { destruct date_range; [congruence | discriminate]. }
  apply wp_ret. rewrite sort_values_Date_sorted by (rewrite Hdates; exact Hsorted).
  exists initial_price, returns. repeat split.
  - exists st1. exact Hdraw.
  - unfold initial_price. lra.
  - unfold initial_price. lra.
  - exact Hlen.
  - apply (Forall2_imap_record _
      (fun p r =>
         row_spec symbol (_get_sector_parameters symbol) initial_price
           (price_path initial_price returns) returns (fst p) (snd p) r)).
    + reflexivity.
    + exact Hrec.
Qed.

(** ** Rounding and truncation *)

Lemma rint_bounds (x : Q) : Qfloor x <= rint x <= Qfloor x + 1.
Proof.
  unfold rint. destruct (Qltb _ _); [lia|].
  destruct (Qltb _ _); [lia|]. destruct (Z.even _); lia.
Qed.

Lemma rint_mono (x y : Q) : (x <= y)%Q -> rint x <= rint y.
Proof.
  intros Hxy. pose proof (Qfloor_resp_le x y Hxy) as Hf.
  destruct (Z.eq_dec (Qfloor x) (Qfloor y)) as [E|NE].
  - unfold rint. rewrite <- E.
    destruct (Qltb (x - inject_Z (Qfloor x)) (1 # 2)) eqn:X1;
    destruct (Qltb (y - inject_Z (Qfloor x)) (1 # 2)) eqn:Y1;
    destruct (Qltb (1 # 2) (x - inject_Z (Qfloor x))) eqn:X2;
    destruct (Qltb (1 # 2) (y - inject_Z (Qfloor x))) eqn:Y2;
    destruct (Z.even (Qfloor x));
    try lia;
    repeat match goal with
           | H : Qltb _ _ = true |- _ => apply Qltb_true in H
           | H : Qltb _ _ = false |- _ => apply Qltb_false in H
           end; lra.
  - pose proof (rint_bounds x). pose proof (rint_bounds y). lia.
Qed.


Lemma py_int_pos (q : Q) : (1 <= q)%Q -> 0 < py_int q.
Proof.
  unfold Qle, py_int. simpl. intros H.
  apply Z.quot_str_pos. lia.
Qed.

Lemma avg_volume_lower_bound (symbol : string) :
  5000000 <= avg_volume (_get_sector_parameters symbol).
Proof.
  unfold _get_sector_parameters.
  repeat (destruct (py_in _ _); [simpl; lia|]). simpl. lia.
Qed.

Lemma volume_pos (av : Z) (ret_i v : Q) :
  5000000 <= av -> unit_interval v ->
  0 < py_int (inject_Z av * (1 + Qabs ret_i * 10) * ((1 # 2) + (2 - (1 # 2)) * v)).
Proof.
  intros Hav [Hv0 Hv1]. apply py_int_pos.
  assert (HA : (5000000 <= inject_Z av)%Q).
  { change 5000000%Q with (inject_Z 5000000). now rewrite <- Zle_Qle. }
  pose proof (Qabs_nonneg ret_i) as Habs.
  assert (HB : (1 <= 1 + Qabs ret_i * 10)%Q) by lra.
  assert (HC : (1 # 2 <= (1 # 2) + (2 - (1 # 2)) * v)%Q) by lra.
  set (A := inject_Z av) in *. set (B := (1 + Qabs ret_i * 10)%Q) in *.
  set (C := ((1 # 2) + (2 - (1 # 2)) * v)%Q) in *.
  assert (HAB : (5000000 <= A * B)%Q).
  { apply (Qle_trans _ (5000000 * 1)%Q); [lra|].
    apply Qmult_le_compat_nonneg; split; lra. }
  assert (HABC : (5000000 * (1 # 2) <= A * B * C)%Q).
  { apply Qmult_le_compat_nonneg; split; lra. }
  lra.
Qed.



Lemma lookup_enumerate {A} (xs : list A) (i0 i : nat) (p : nat * A) :
  zip (seq i0 (length xs)) xs !! i = Some p ->
  fst p = (i0 + i)%nat /\ xs !! i = Some (snd p).
Proof.
  revert i0 i. induction xs as [|x tl IH]; intros i0 i H; [discriminate|].
  destruct i as [|i]; simpl in H.
  - injection H as <-. simpl. split; [lia | reflexivity].
  - apply IH in H. destruct H as [H1 H2]. split; [lia | exact H2].
Qed.

Lemma single_stock_post_rows symbol date_range st rows :
  single_stock_post symbol date_range st rows ->
  exists initial_price returns,
    (exists st1, uniform 50 500 st = Returns initial_price st1) /\
    (50 <= initial_price /\ initial_price < 500)%Q /\
    length returns = length date_range /\
    length rows = length date_range /\
    forall i row, rows !! i = Some row ->
      exists d, date_range !! i = Some d /\
        row_spec symbol (_get_sector_parameters symbol) initial_price
          (price_path initial_price returns) returns i d (record row).
Proof.
  intros (ip & rets & Hdraw & Hip & Hlen & Hall). exists ip, rets.
  split; [exact Hdraw|]. split; [exact Hip|]. split; [exact Hlen|]. split.
  - apply Forall2_length in Hall. rewrite <- Hall, length_zip, length_seq. lia.
  - intros i row Hrow.
    destruct (Forall2_lookup_r _ _ _ _ _ Hall Hrow) as (p & Hp & Hspec).
    apply lookup_enumerate in Hp. destruct Hp as [Hi Hd]. simpl in Hi.
    rewrite Hi in Hspec. exists (snd p). split; assumption.
Qed.

Lemma returns_of_rows symbol date_range rows initial_price returns :
  length returns = length date_range ->
  length rows = length date_range ->
  (forall i row, rows !! i = Some row ->
      exists d, date_range !! i = Some d /\
        row_spec symbol (_get_sector_parameters symbol) initial_price
          (price_path initial_price returns) returns i d (record row)) ->
  map (fun row => Return (record row)) rows = returns.
Proof.
  intros Hlen Hrows Hspec. apply list_eq. intros i.
  rewrite list_lookup_fmap.
  destruct (rows !! i) as [row|] eqn:E; simpl.
  - destruct (Hspec i row E) as (d & _ & (c & o & r & u & up & dn & v & H)).
    destruct H as (_ & Hr & _ & _ & _ & _ & _ & _ & _ & _ & _ & _ & _ & _ & Hret).
    rewrite Hr, Hret. reflexivity.
  - symmetry. apply lookup_ge_None. apply lookup_ge_None in E. lia.
Qed.

(** C9. Over a non-empty, increasing calendar of N days the single-stock
    generator returns exactly N rows; the Open of row 0 is its Close, the
    Open of every later row is the Close of the row before, and every
    Volume is strictly positive (every sector profile has an average
    volume of at least 5,000,000). *)
Theorem single_stock_rows_open_close_volume
    (np_sqrt np_log : Q -> Q) (symbol : string) (date_range : list Z)
    (st : RandomState) :
  date_range <> [] -> Sorted Z.lt date_range ->
  exists rows st',
    _generate_single_stock_data np_sqrt np_log symbol date_range st
      = Returns rows st' /\
    length rows = length date_range /\
    (forall r, rows !! 0%nat = Some r -> Open (record r) = Close (record r)) /\
    (forall i r r', rows !! i = Some r -> rows !! S i = Some r' ->
        Open (record r') = Close (record r)) /\
    (forall i r, rows !! i = Some r -> 0 < Volume (record r)).
Proof.
  intros Hne Hsorted.
  pose proof (single_stock_spec np_sqrt np_log symbol date_range st Hne Hsorted) as H.
  apply wp_returns in H. destruct H as (rows & st' & Hrun & Hpost).
  apply single_stock_post_rows in Hpost.
  destruct Hpost as (ip & rets & _ & _ & _ & Hlen & Hspec).
  exists rows, st'. split; [exact Hrun|]. split; [exact Hlen|].
  split; [|split].
  - intros r Hr. destruct (Hspec _ _ Hr) as (d & _ & Hrow).
    destruct Hrow as (c & o & ri & u & up & dn & v & _ & _ & Ho & _ & _ & _ & _
                      & _ & _ & HO & _ & _ & HC & _).
    simpl in Ho. subst o. congruence.
  - intros i r r' Hr Hr'.
    destruct (Hspec _ _ Hr) as (d & _ & Hrow).
    destruct (Hspec _ _ Hr') as (d' & _ & Hrow').
    destruct Hrow as (c & o & ri & u & up & dn & v & Hc & _ & _ & _ & _ & _ & _
                      & _ & _ & _ & _ & _ & HC & _).
    destruct Hrow' as (c' & o' & ri' & u' & up' & dn' & v' & _ & _ & Ho' & _ & _
                       & _ & _ & _ & _ & HO' & _).
    simpl in Ho'. rewrite Hc in Ho'. injection Ho' as <-. congruence.
  - intros i r Hr. destruct (Hspec _ _ Hr) as (d & _ & Hrow).
    destruct Hrow as (c & o & ri & u & up & dn & v & _ & _ & _ & _ & _ & _ & Hv
                      & _ & _ & _ & _ & _ & _ & HV & _).
    rewrite HV. apply volume_pos; [apply avg_volume_lower_bound | exact Hv].
Qed.

(** C2, as amended. With [initial_price] the uniform draw that opens the
    run, the price list behind the rows satisfies
    price[0] = initial_price * (1 + total_return[0]) and
    price[t+1] = price[t] * (1 + total_return[t+1]); the Close of row t is
    price[t] rounded, and the Return of row t is total_return[t]. The
    initial price itself is not a row: it is compounded by the first return
    before the first close is taken. *)
Theorem single_stock_price_recurrence
    (np_sqrt np_log : Q -> Q) (symbol : string) (date_range : list Z)
    (st : RandomState) :
  date_range <> [] -> Sorted Z.lt date_range ->
  exists rows st' initial_price st1,
    _generate_single_stock_data np_sqrt np_log symbol date_range st
      = Returns rows st' /\
    uniform 50 500 st = Returns initial_price st1 /\
    (50 <= initial_price /\ initial_price < 500)%Q /\
    let price := price_path initial_price (map (fun row => Return (record row)) rows) in
    (forall t row, rows !! t = Some row ->
        exists p, price !! t = Some p /\ Close (record row) = round2 p) /\
    (forall row, rows !! 0%nat = Some row ->
        price !! 0%nat = Some (initial_price * (1 + Return (record row)))%Q) /\
    (forall t p row, price !! t = Some p -> rows !! S t = Some row ->
        price !! S t = Some (p * (1 + Return (record row)))%Q).
Proof.
  intros Hne Hsorted.
  pose proof (single_stock_spec np_sqrt np_log symbol date_range st Hne Hsorted) as H.
  apply wp_returns in H. destruct H as (rows & st' & Hrun & Hpost).
  apply single_stock_post_rows in Hpost.
  destruct Hpost as (ip & rets & Hdraw & Hip & Hlr & Hlen & Hspec).
  pose proof (returns_of_rows _ _ _ _ _ Hlr Hlen Hspec) as Hrets.
  destruct Hdraw as [st1 Hdraw].
  exists rows, st', ip, st1. split; [exact Hrun|]. split; [exact Hdraw|].
  split; [exact Hip|].
  cbv zeta. rewrite Hrets. split; [|split].
  - intros t row Hrow. destruct (Hspec _ _ Hrow) as (d & _ & Hr).
    destruct Hr as (c & o & ri & u & up & dn & v & Hc & _ & _ & _ & _ & _ & _
                    & _ & _ & _ & _ & _ & HC & _).
    exists c. split; assumption.
  - intros row Hrow.
    assert (Hr0 : rets !! 0%nat = Some (Return (record row))).
    { rewrite <- Hrets, list_lookup_fmap, Hrow. reflexivity. }
    rewrite price_path_compound. destruct rets as [|r0 tl]; [discriminate|].
    simpl in *. injection Hr0 as ->. reflexivity.
  - intros t p row Hp Hrow.
    assert (Hr : rets !! S t = Some (Return (record row))).
    { rewrite <- Hrets, list_lookup_fmap, Hrow. reflexivity. }
    rewrite price_path_compound in *. eapply compound_step; eassumption.
Qed.

(** ** Calendars are increasing *)

Lemma StronglySorted_seq (a n : nat) : StronglySorted lt (seq a n).
Proof.
  revert a. induction n as [|n IH]; intros a; simpl; constructor.
  - apply IH.
  - apply Forall_forall. intros x Hx. apply elem_of_seq in Hx. lia.
Qed.

Lemma StronglySorted_seqZ (m len : Z) : StronglySorted Z.lt (seqZ m len).
Proof.
  unfold seqZ. eapply StronglySorted_fmap; [|apply StronglySorted_seq].
  intros x y Hxy. simpl in *. lia.
Qed.

Lemma StronglySorted_filter {A} (R : A -> A -> Prop) (f : A -> bool)
    (xs : list A) :
  StronglySorted R xs -> StronglySorted R (List.filter f xs).
Proof.
  induction 1 as [|x tl Htl IH Hx]; simpl; [constructor|].
  destruct (f x); [|exact IH]. constructor; [exact IH|].
  rewrite List.Forall_forall in *. intros y Hy.
  apply List.filter_In in Hy. apply Hx, Hy.
Qed.

Lemma StronglySorted_take {A} (R : A -> A -> Prop) (n : nat) (xs : list A) :
  StronglySorted R xs -> StronglySorted R (take n xs).
Proof.
  intros H. rewrite <- (take_drop n xs) in H.
  eapply StronglySorted_app_1_l, H.
Qed.

Lemma bdate_range_sorted (start_ end_ : Timestamp) :
  StronglySorted Z.lt (bdate_range start_ end_).
Proof. apply StronglySorted_filter, StronglySorted_seqZ. Qed.

Lemma stock_calendar_sorted (cfg : Config) : Sorted Z.lt (stock_calendar cfg).
Proof.
  apply StronglySorted_Sorted. unfold stock_calendar, py_slice_to.
  repeat match goal with |- context [if ?b then _ else _] => destruct b end;
    try apply StronglySorted_take; apply bdate_range_sorted.
Qed.

(** With a non-empty symbol list and a non-empty calendar the full-scale
    generator returns one row per instrument and day. *)
Lemma full_scale_returns (np_sqrt np_log : Q -> Q) (mt19937 : Z -> nat -> Q)
    (cfg : Config) (st : RandomState) :
  SP500_TOP_300_STOCKS cfg <> [] -> stock_calendar cfg <> [] ->
  exists rows st',
    _generate_full_scale_stock_data np_sqrt np_log mt19937 cfg st
      = Returns rows st' /\
    length rows
      = (length (SP500_TOP_300_STOCKS cfg) * length (stock_calendar cfg))%nat.
Proof.
  intros Hs Hc. apply wp_returns.
  unfold _generate_full_scale_stock_data. apply wp_bind. unfold wp at 1, seed.
  cbv beta iota. apply wp_bind. eapply wp_mono.
  2:{ apply (wp_for_each _
        (fun _ rows => length rows = length (stock_calendar cfg))).
      intros symbol st' _. eapply wp_mono;
        [|apply single_stock_spec; [exact Hc | apply stock_calendar_sorted]].
      intros rows st'' Hpost. apply single_stock_post_rows in Hpost.
      destruct Hpost as (_ & _ & _ & _ & _ & Hlen & _). exact Hlen. }
  intros frames st1 Hframes. cbv beta. unfold pd_concat.
  destruct frames as [|f0 frames'].
  { apply Forall2_length in Hframes.
    destruct (SP500_TOP_300_STOCKS cfg); [congruence | discriminate]. }
  apply wp_ret. generalize dependent (f0 :: frames'). clear.
  intros frames H. induction H as [|s f ss fs Hf _ IH]; [reflexivity|].
  simpl. rewrite length_app, Hf, IH. reflexivity.
Qed.

(** ** Calendar length *)

Lemma py_slice_to_length {A} (n : Z) (xs : list A) :
  0 <= n -> length (py_slice_to n xs) = Nat.min (Z.to_nat n) (length xs).
Proof.
  intros Hn. unfold py_slice_to.
  destruct (0 <=? n) eqn:E; [|lia]. apply length_take.
Qed.

(** C3 fails for a short interval: the business days of 2015 alone are 261,
    not the 2518 of the target. *)
Lemma calendar_not_padded :
  length (stock_calendar one_year) = 261%nat /\
  Z.of_nat (length (stock_calendar one_year)) <> EXPECTED_TRADING_DAYS one_year.
Proof. split; [vm_compute; reflexivity | vm_compute; discriminate]. Qed.

(** C3, as amended. For a non-negative target the trading calendar has
    min(B, target) days, B being the number of business days between the
    configured bounds: it is cut to the target when B is larger and equals
    the target exactly then, as for the shipped bounds; when B is smaller
    the business days are kept as they are, without padding. The news
    calendar has the same length. *)
Theorem calendar_length (cfg : Config) :
  0 <= EXPECTED_TRADING_DAYS cfg ->
  let business_days := bdate_range (START_DATE cfg) (END_DATE cfg) in
  Z.of_nat (length (stock_calendar cfg)) =
    Z.min (Z.of_nat (length business_days)) (EXPECTED_TRADING_DAYS cfg)
  /\ length (news_calendar cfg) = length (stock_calendar cfg)
  /\ (EXPECTED_TRADING_DAYS cfg <= Z.of_nat (length business_days) ->
      Z.of_nat (length (stock_calendar cfg)) = EXPECTED_TRADING_DAYS cfg)
  /\ (Z.of_nat (length business_days) < EXPECTED_TRADING_DAYS cfg ->
      stock_calendar cfg = business_days)
  /\ Z.of_nat (length (stock_calendar shipped)) = EXPECTED_TRADING_DAYS shipped.
Proof.
  intros Hn bd. unfold stock_calendar, news_calendar. fold bd.
  pose proof (py_slice_to_length (EXPECTED_TRADING_DAYS cfg) bd Hn) as Hs.
  destruct (EXPECTED_TRADING_DAYS cfg <? Z.of_nat (length bd)) eqn:E.
  - apply Z.ltb_lt in E.
    split; [lia|]. split; [reflexivity|]. split; [lia|]. split; [lia|].
    vm_compute; reflexivity.
  - apply Z.ltb_ge in E.
    split; [lia|]. split; [lia|]. split; [lia|]. split; [reflexivity|].
    vm_compute; reflexivity.
Qed.

Lemma calendar_length_witness :
  0 <= EXPECTED_TRADING_DAYS shipped /\
  Z.of_nat (length (stock_calendar shipped)) = 2518.
Proof.
  split; [vm_compute; discriminate|].
  exact (proj1 (proj2 (proj2 (calendar_length shipped ltac:(vm_compute; discriminate))))
          ltac:(vm_compute; discriminate)).
Defined.

Lemma shipped_calendar_length : length (stock_calendar shipped) = 2518%nat.
Proof. vm_compute. reflexivity. Qed.

(** Seeding comes first: the state in which the run starts is discarded. *)
Lemma full_scale_ignores_state (np_sqrt np_log : Q -> Q)
    (mt19937 : Z -> nat -> Q) (cfg : Config) (st1 st2 : RandomState) :
  _generate_full_scale_stock_data np_sqrt np_log mt19937 cfg st1
  = _generate_full_scale_stock_data np_sqrt np_log mt19937 cfg st2.
Proof. reflexivity. Qed.

(** C1. The full-scale generator seeds the global generator itself, so its
    outcome (the panel with every field of every row, or the exception) does
    not depend on the state the generator was in before: two runs over the
    same configuration give identical panels. For the shipped configuration
    both runs return the same panel, of one row per instrument and trading
    day. *)
Theorem full_scale_deterministic (np_sqrt np_log : Q -> Q)
    (mt19937 : Z -> nat -> Q) (cfg : Config) (st1 st2 : RandomState) :
  _generate_full_scale_stock_data np_sqrt np_log mt19937 cfg st1
  = _generate_full_scale_stock_data np_sqrt np_log mt19937 cfg st2
  /\ exists rows st',
       _generate_full_scale_stock_data np_sqrt np_log mt19937 shipped st1
         = Returns rows st' /\
       _generate_full_scale_stock_data np_sqrt np_log mt19937 shipped st2
         = Returns rows st' /\
       length rows
         = (length (SP500_TOP_300_STOCKS shipped)
            * length (stock_calendar shipped))%nat.
Proof.
  split; [apply full_scale_ignores_state|].
  destruct (full_scale_returns np_sqrt np_log mt19937 shipped st1)
    as (rows & st' & Hrun & Hlen).
  - discriminate.
  - intros H. pose proof shipped_calendar_length as L.
    rewrite H in L. discriminate.
  - exists rows, st'. split; [exact Hrun|]. split; [|exact Hlen].
    exact (eq_trans
             (full_scale_ignores_state np_sqrt np_log mt19937 shipped st2 st1)
             Hrun).
Qed.

Example shipped_symbols_length :
  length (SP500_TOP_300_STOCKS shipped) = 330%nat.
Proof. vm_compute. reflexivity. Qed.

(** C4, as amended. The configuration is never validated. An empty symbol
    list makes the synthetic generator fail in [pd.concat], after seeding
    and before any draw; an empty calendar makes it fail in the indicator
    stage of the first instrument, after that instrument's initial price
    was drawn; the target stock count and the target news count are not
    read by the generator, whatever their sign. *)
Theorem no_upfront_validation (np_sqrt np_log : Q -> Q)
    (mt19937 : Z -> nat -> Q) (cfg : Config) (st : RandomState) :
  (SP500_TOP_300_STOCKS cfg = [] ->
     exists st',
       _generate_full_scale_stock_data np_sqrt np_log mt19937 cfg st
         = Raises (ValueError "No objects to concatenate") st'
       /\ position st' = 0%nat)
  /\ (stock_calendar cfg = [] -> SP500_TOP_300_STOCKS cfg <> [] ->
     exists st',
       _generate_full_scale_stock_data np_sqrt np_log mt19937 cfg st
         = Raises (KeyError "Date") st'
       /\ position st' = 1%nat)
  /\ (forall stocks news,
       _generate_full_scale_stock_data np_sqrt np_log mt19937
         (with_targets cfg stocks news) st
       = _generate_full_scale_stock_data np_sqrt np_log mt19937 cfg st).
Proof.
  split; [|split].
  - intros Hs. unfold _generate_full_scale_stock_data. rewrite Hs.
    eexists. split; reflexivity.
  - intros Hc Hs. unfold _generate_full_scale_stock_data. rewrite Hc.
    destruct (SP500_TOP_300_STOCKS cfg) as [|s tl]; [congruence|].
    eexists. split; reflexivity.
  - intros stocks news. reflexivity.
Qed.

(** C4 fails for non-positive target counts: with both targets at 0 the
    generator returns the panel of two instruments over three days. *)
Lemma zero_targets_still_generate :
  TARGET_STOCK_COUNT three_days <= 0 /\ EXPECTED_NEWS_COUNT three_days <= 0 /\
  exists rows st',
    _generate_full_scale_stock_data Sample.sqrt Sample.log Sample.stream
      three_days (Sample.state_of []) = Returns rows st'
    /\ length rows = 6%nat.
Proof.
  split; [vm_compute; discriminate|]. split; [vm_compute; discriminate|].
  eexists. eexists. split; [vm_compute; reflexivity|].
  reflexivity.
Qed.

(** C2 fails on an ordinary run: the initial price drawn is 275.00 and the
    first close is 278.46. *)
Lemma first_close_is_not_initial_price :
  exists initial_price st1 rows st' row,
    uniform 50 500 calm_state = Returns initial_price st1 /\
    _generate_single_stock_data Sample.sqrt Sample.log "AAPL" [19723] calm_state
      = Returns rows st' /\
    rows !! 0%nat = Some row /\
    round2 initial_price == 275 /\
    Close (record row) == 27846 # 100 /\
    ~ Close (record row) == round2 initial_price.
Proof.
  do 5 eexists.
  split; [reflexivity|]. split; [vm_compute; reflexivity|].
  split; [reflexivity|]. split; [reflexivity|]. split; [reflexivity|].
  intros H. vm_compute in H. discriminate.
Qed.

Lemma single_stock_price_recurrence_witness :
  january_days <> [] /\ Sorted Z.lt january_days /\
  exists rows st' initial_price st1,
    _generate_single_stock_data Sample.sqrt Sample.log "AAPL" january_days
      calm_state = Returns rows st' /\
    uniform 50 500 calm_state = Returns initial_price st1 /\
    (50 <= initial_price /\ initial_price < 500)%Q /\
    let price :=
      price_path initial_price (map (fun row => Return (record row)) rows) in
    (forall t row, rows !! t = Some row ->
        exists p, price !! t = Some p /\ Close (record row) = round2 p) /\
    (forall row, rows !! 0%nat = Some row ->
        price !! 0%nat = Some (initial_price * (1 + Return (record row)))%Q) /\
    (forall t p row, price !! t = Some p -> rows !! S t = Some row ->
        price !! S t = Some (p * (1 + Return (record row)))%Q).
Proof.
  split; [discriminate|]. split; [repeat constructor|].
  apply (single_stock_price_recurrence Sample.sqrt Sample.log "AAPL"
           january_days calm_state).
  - discriminate.
  - repeat constructor.
Defined.

Lemma single_stock_rows_open_close_volume_witness :
  january_days <> [] /\ Sorted Z.lt january_days /\
  exists rows st',
    _generate_single_stock_data Sample.sqrt Sample.log "AAPL" january_days
      calm_state = Returns rows st' /\
    length rows = length january_days /\
    (forall r, rows !! 0%nat = Some r -> Open (record r) = Close (record r)) /\
    (forall i r r', rows !! i = Some r -> rows !! S i = Some r' ->
        Open (record r') = Close (record r)) /\
    (forall i r, rows !! i = Some r -> 0 < Volume (record r)).
Proof.
  split; [discriminate|]. split; [repeat constructor|].
  apply (single_stock_rows_open_close_volume Sample.sqrt Sample.log "AAPL"
           january_days calm_state).
  - discriminate.
  - repeat constructor.
Defined.





(** ** RSI *)

Lemma Qis_zero_true (q : Q) : Qis_zero q = true <-> q == 0.
Proof. unfold Qis_zero. apply Qeq_bool_iff. Qed.

Lemma Qis_zero_false (q : Q) : Qis_zero q = false <-> ~ q == 0.
Proof.
  unfold Qis_zero. split.
  - intros H E. apply Qeq_bool_iff in E. congruence.
  - intros H. destruct (Qeq_bool q 0) eqn:E; [|reflexivity].
    apply Qeq_bool_iff in E. contradiction.
Qed.

Lemma lookup_rolling (window : nat) (stat : list Q -> fval) (xs : list Q) (i : nat) :
  (i < length xs)%nat ->
  rolling window stat xs !! i =
    Some (if (S i <? window)%nat then NaN
          else stat (take window (drop (S i - window) xs))).
Proof.
  intros Hi. unfold rolling. rewrite list_lookup_fmap.
  rewrite lookup_seq_lt by exact Hi. reflexivity.
Qed.

Lemma length_rolling window stat xs : length (rolling window stat xs) = length xs.
Proof. unfold rolling. now rewrite length_map, length_seq. Qed.

Lemma length_diff (xs : list Q) : length (diff xs) = length xs.
Proof.
  destruct xs as [|x tl]; [reflexivity|]. unfold diff. cbn [length].
  rewrite length_zip_with. cbn [length]. lia.
Qed.

Lemma lookup_diff_S (xs : list Q) (i : nat) (a b : Q) :
  xs !! i = Some a -> xs !! S i = Some b ->
  diff xs !! S i = Some (Some (b - a)%Q).
Proof.
  intros Ha Hb. destruct xs as [|x tl]; [discriminate|].
  simpl in Hb. change (diff (x :: tl) !! S i)
    with (zip_with (fun prev cur => Some (cur - prev)%Q) (x :: tl) tl !! i).
  rewrite lookup_zip_with, Ha, Hb. reflexivity.
Qed.

Lemma Qsum_nonneg (xs : list Q) :
  Forall (fun x => (0 <= x)%Q) xs -> (0 <= Qsum xs)%Q.
Proof.
  unfold Qsum. induction 1 as [|x tl Hx _ IH]; simpl; lra.
Qed.

Lemma Qsum_pos (xs : list Q) (k : nat) (x : Q) :
  Forall (fun x => (0 <= x)%Q) xs -> xs !! k = Some x -> (0 < x)%Q ->
  (0 < Qsum xs)%Q.
Proof.
  intros Hall. revert k. induction Hall as [|y tl Hy Htl IH]; intros k Hk Hx.
  - discriminate.
  - pose proof (Qsum_nonneg tl Htl) as Hs. unfold Qsum in *. simpl.
    destruct k as [|k]; simpl in Hk.
    + injection Hk as ->. lra.
    + specialize (IH k Hk Hx). lra.
Qed.

Lemma Qsum_zero (xs : list Q) :
  Forall (fun x => x == 0) xs -> Qsum xs == 0.
Proof.
  unfold Qsum. induction 1 as [|x tl Hx _ IH]; simpl; [reflexivity|].
  rewrite Hx, IH. reflexivity.
Qed.

Lemma mean_pos (w : list Q) (k : nat) (x : Q) :
  Forall (fun x => (0 <= x)%Q) w -> w !! k = Some x -> (0 < x)%Q ->
  (0 < mean w)%Q.
Proof.
  intros Hall Hk Hx. unfold mean.
  pose proof (Qsum_pos w k x Hall Hk Hx) as Hs.
  assert (Hn : (0 < inject_Z (Z.of_nat (length w)))%Q).
  { apply lookup_lt_Some in Hk. change 0%Q with (inject_Z 0).
    rewrite <- Zlt_Qlt. lia. }
  apply Qlt_shift_div_l; [exact Hn | lra].
Qed.

Lemma mean_zero (w : list Q) : Forall (fun x => x == 0) w -> mean w == 0.
Proof.
  intros H. unfold mean. rewrite (Qsum_zero w H). unfold Qdiv. ring.
Qed.

Lemma lookup_calculate_rsi (prices : list Q) (window i : nat) (g l : fval) :
  rsi_gain prices window !! i = Some g ->
  rsi_loss prices window !! i = Some l ->
  _calculate_rsi prices window !! i = Some (rsi_value g l).
Proof.
  intros Hg Hl. unfold _calculate_rsi.
  rewrite list_lookup_fmap, lookup_zip_with, Hg, Hl. reflexivity.
Qed.

Lemma rsi_value_zero_loss (g l : Q) :
  l == 0 ->
  rsi_value (Fin g) (Fin l) = (if Qis_zero g then NaN else Fin 100).
Proof.
  intros Hl. apply Qis_zero_true in Hl. unfold rsi_value, fdiv at 2.
  rewrite Hl. destruct (Qis_zero g); [reflexivity|].
  destruct (Qltb g 0); reflexivity.
Qed.

Lemma gain_inputs_nonneg (delta : list (option Q)) :
  Forall (fun x => (0 <= x)%Q) (map (where_ (fun d => Qltb 0 d) 0%Q) delta).
Proof.
  apply Forall_lookup. intros i x Hx. rewrite list_lookup_fmap in Hx.
  destruct (delta !! i) as [d|]; [|discriminate].
  simpl in Hx. injection Hx as <-. destruct d as [q|]; simpl; [|lra].
  destruct (Qltb 0 q) eqn:E; [|lra]. apply Qltb_true in E. lra.
Qed.

Lemma loss_inputs_zero (prices : list Q) :
  increasing prices ->
  Forall (fun x => x == 0)
    (map (fun d => (- where_ (fun d => Qltb d 0) 0 d)%Q) (diff prices)).
Proof.
  intros Hinc. apply Forall_lookup. intros i x Hx.
  rewrite list_lookup_fmap in Hx.
  destruct (diff prices !! i) as [d|] eqn:Hd; [|discriminate].
  simpl in Hx. injection Hx as <-.
  destruct d as [q|]; simpl; [|reflexivity].
  destruct (Qltb q 0) eqn:E; [|reflexivity].
  exfalso. apply Qltb_true in E.
  destruct i as [|i].
  - destruct prices; discriminate.
  - pose proof (lookup_lt_Some _ _ _ Hd) as Hlen. rewrite length_diff in Hlen.
    destruct (lookup_lt_is_Some_2 prices i ltac:(lia)) as [a Ha].
    destruct (lookup_lt_is_Some_2 prices (S i) Hlen) as [b Hb].
    rewrite (lookup_diff_S prices i a b Ha Hb) in Hd. injection Hd as <-.
    pose proof (Hinc i a b Ha Hb). lra.
Qed.

Lemma window_length {A} (w i : nat) (xs : list A) :
  (w <= S i)%nat -> (i < length xs)%nat ->
  length (take w (drop (S i - w) xs)) = w.
Proof. intros. rewrite length_take, length_drop. lia. Qed.

Lemma window_last {A} (w i : nat) (xs : list A) :
  (0 < w)%nat -> (w <= S i)%nat ->
  take w (drop (S i - w) xs) !! (w - 1)%nat = xs !! i.
Proof.
  intros Hw Hi. rewrite lookup_take_lt by lia. rewrite lookup_drop.
  f_equal. lia.
Qed.

(** C5. At every row where the 14-day window is full the two averages are
    finite numbers; when the average loss is zero the RSI is 100 or NaN (no
    exception: the function is total); and on a strictly increasing series
    of at least 15 closes it is exactly 100. *)
Theorem rsi_zero_average_loss (prices : list Q) (i : nat) :
  (13 <= i < length prices)%nat ->
  (exists g l,
      rsi_gain prices 14 !! i = Some (Fin g) /\
      rsi_loss prices 14 !! i = Some (Fin l) /\
      (l == 0 ->
         _calculate_rsi prices 14 !! i = Some (Fin 100) \/
         _calculate_rsi prices 14 !! i = Some NaN))
  /\ ((15 <= length prices)%nat -> increasing prices ->
      _calculate_rsi prices 14 !! i = Some (Fin 100)).
Proof.
  intros [Hi Hlen].
  set (gains := map (where_ (fun d => Qltb 0 d) 0%Q) (diff prices)).
  set (losses := map (fun d => (- where_ (fun d => Qltb d 0) 0 d)%Q) (diff prices)).
  assert (Hlg : length gains = length prices)
    by (unfold gains; now rewrite length_map, length_diff).
  assert (Hll : length losses = length prices)
    by (unfold losses; now rewrite length_map, length_diff).
  assert (Hg : rsi_gain prices 14 !! i
               = Some (Fin (mean (take 14 (drop (S i - 14) gains))))).
  { unfold rsi_gain, rolling_mean. fold gains.
    rewrite lookup_rolling by lia.
    destruct (S i <? 14)%nat eqn:E; [apply Nat.ltb_lt in E; lia | reflexivity]. }
  assert (Hl : rsi_loss prices 14 !! i
               = Some (Fin (mean (take 14 (drop (S i - 14) losses))))).
  { unfold rsi_loss, rolling_mean. fold losses.
    rewrite lookup_rolling by lia.
    destruct (S i <? 14)%nat eqn:E; [apply Nat.ltb_lt in E; lia | reflexivity]. }
  split.
  - eexists. eexists. split; [exact Hg|]. split; [exact Hl|].
    intros Hzero. rewrite (lookup_calculate_rsi _ _ _ _ _ Hg Hl).
    rewrite (rsi_value_zero_loss _ _ Hzero).
    destruct (Qis_zero _); [right | left]; reflexivity.
  - intros _ Hinc. rewrite (lookup_calculate_rsi _ _ _ _ _ Hg Hl).
    rewrite rsi_value_zero_loss.
    + assert (Hpos : (0 < mean (take 14 (drop (S i - 14) gains)))%Q).
      { destruct (lookup_lt_is_Some_2 prices (i - 1) ltac:(lia)) as [a Ha].
        destruct (lookup_lt_is_Some_2 prices i Hlen) as [b Hb].
        assert (Hab : (a < b)%Q).
        { apply (Hinc (i - 1)%nat); [exact Ha|].
          replace (S (i - 1)) with i by lia. exact Hb. }
        apply (mean_pos _ 13 (b - a)%Q).
        - apply Forall_take, Forall_drop, gain_inputs_nonneg.
        - change 13%nat with (14 - 1)%nat. rewrite window_last by lia.
          unfold gains. rewrite list_lookup_fmap.
          replace i with (S (i - 1)) at 1 by lia.
          rewrite (lookup_diff_S prices (i - 1) a b Ha)
            by (replace (S (i - 1)) with i by lia; exact Hb).
          simpl. assert (E : Qltb 0 (b - a) = true) by (apply Qltb_true; lra).
          rewrite E. reflexivity.
        - lra. }
      destruct (Qis_zero _) eqn:E; [|reflexivity].
      apply Qis_zero_true in E. lra.
    + apply mean_zero, Forall_take, Forall_drop, loss_inputs_zero, Hinc.
Qed.

Lemma rising_series_increasing : increasing rising_series.
Proof.
  intros i a b Ha Hb. unfold rising_series in *.
  rewrite list_lookup_fmap in Ha, Hb.
  destruct (seq 0 20 !! i) as [k|] eqn:Ek; [|discriminate].
  destruct (seq 0 20 !! S i) as [k'|] eqn:Ek'; [|discriminate].
  apply lookup_seq in Ek, Ek'. simpl in Ha, Hb.
  injection Ha as <-. injection Hb as <-.
  rewrite <- Zlt_Qlt. lia.
Qed.

Lemma rsi_zero_average_loss_witness :
  (13 <= 19 < length rising_series)%nat /\
  (15 <= length rising_series)%nat /\
  _calculate_rsi rising_series 14 !! 19%nat = Some (Fin 100).
Proof.
  assert (H : (13 <= 19 < length rising_series)%nat) by (vm_compute; lia).
  split; [exact H|]. split; [vm_compute; lia|].
  apply (proj2 (rsi_zero_average_loss rising_series 19 H)).
  - vm_compute; lia.
  - exact rising_series_increasing.
Defined.

Example rsi_rising_all :
  drop 13 (_calculate_rsi rising_series 14) = repeat (Fin 100) 7
  /\ take 13 (_calculate_rsi rising_series 14) = repeat NaN 13.
Proof. split; vm_compute; reflexivity. Qed.

Example rsi_flat :
  _calculate_rsi (repeat 100%Q 15) 14 !! 14%nat = Some NaN.
Proof. vm_compute. reflexivity. Qed.

(** ** Sentiment scores *)

Lemma keyword_count_nonneg (words : list string) (text : string) :
  0 <= keyword_count words text.
Proof. unfold keyword_count. lia. Qed.

Lemma keyword_ratio_bounded (p n : Z) :
  0 <= p -> 0 <= n -> 0 < p + n ->
  (-1 <= inject_Z (p - n) / inject_Z (p + n) /\
   inject_Z (p - n) / inject_Z (p + n) <= 1)%Q.
Proof.
  intros Hp Hn Hpn.
  assert (Hd : (0 < inject_Z (p + n))%Q).
  { change 0%Q with (inject_Z 0). now rewrite <- Zlt_Qlt. }
  split.
  - apply Qle_shift_div_l; [exact Hd|].
    unfold Qle, Qmult, inject_Z. simpl. lia.
  - apply Qle_shift_div_r; [exact Hd|].
    unfold Qle, Qmult, inject_Z. simpl. lia.
Qed.

Lemma analyze_article_bounded (textblob : option (string -> Q * Q))
    (idx : nat) (row : NewsRecord) :
  (forall blob text, textblob = Some blob -> in_unit_band (fst (blob text))) ->
  in_unit_band (keyword_sentiment (analyze_article textblob idx row)) /\
  in_unit_band (combined_sentiment (analyze_article textblob idx row)).
Proof.
  intros Hblob. unfold analyze_article.
  set (text := lower _).
  set (p := keyword_count financial_positive_words text).
  set (n := keyword_count financial_negative_words text).
  pose proof (keyword_count_nonneg financial_positive_words text) as Hp.
  pose proof (keyword_count_nonneg financial_negative_words text) as Hn.
  fold p in Hp. fold n in Hn.
  assert (Hk : in_unit_band
                 (if 0 <? p + n
                  then inject_Z (p - n) / inject_Z (p + n) else 0)%Q).
  { destruct (0 <? p + n) eqn:E.
    - apply Z.ltb_lt in E. apply keyword_ratio_bounded; assumption.
    - unfold in_unit_band. lra. }
  destruct textblob as [blob|].
  - specialize (Hblob blob text eq_refl).
    destruct (blob text) as [polarity subjectivity]. simpl in *.
    split; [exact Hk|]. unfold in_unit_band in *. lra.
  - simpl. split; exact Hk.
Qed.

(** C6. When the polarity that the optional scorer returns lies in [-1, 1]
    (the range of a polarity), the keyword score and the combined score of
    every article lie in [-1, 1], with or without the scorer. *)
Theorem combined_sentiment_bounded (textblob : option (string -> Q * Q))
    (news_df : list NewsRecord) :
  (forall blob text, textblob = Some blob ->
     (-1 <= fst (blob text) /\ fst (blob text) <= 1)%Q) ->
  Forall (fun r =>
            (-1 <= keyword_sentiment r /\ keyword_sentiment r <= 1)%Q /\
            (-1 <= combined_sentiment r /\ combined_sentiment r <= 1)%Q)
         (analyze_news_sentiment textblob news_df).
Proof.
  intros Hblob. unfold analyze_news_sentiment.
  apply Forall_lookup. intros i r Hr.
  apply list_lookup_imap_Some in Hr. destruct Hr as (row & _ & ->).
  apply analyze_article_bounded. exact Hblob.
Qed.

Lemma toy_blob_bounded (blob : string -> Q * Q) (text : string) :
  Some toy_blob = Some blob ->
  (-1 <= fst (blob text) /\ fst (blob text) <= 1)%Q.
Proof.
  intros [= <-]. unfold toy_blob.
  destruct (contains "strong" text); [simpl; lra|].
  destruct (contains "concern" text); simpl; lra.
Qed.

Lemma combined_sentiment_bounded_witness :
  Forall (fun r =>
            (-1 <= keyword_sentiment r /\ keyword_sentiment r <= 1)%Q /\
            (-1 <= combined_sentiment r /\ combined_sentiment r <= 1)%Q)
         (analyze_news_sentiment (Some toy_blob) sample_news).
Proof.
  apply (combined_sentiment_bounded (Some toy_blob) sample_news).
  exact toy_blob_bounded.
Defined.

Example sample_scores :
  map (fun r => (positive_keywords r, negative_keywords r,
                 Qred (keyword_sentiment r), Qred (combined_sentiment r)))
      (analyze_news_sentiment (Some toy_blob) sample_news)
  = [(4, 0, 1%Q, 1%Q); (1, 2, (-1 # 3)%Q, (-11 # 15)%Q)].
Proof. vm_compute. reflexivity. Qed.

(** ** Macro indicators *)

Lemma np_clip_bounds (v lo hi : Q) :
  (lo <= hi)%Q -> (lo <= np_clip v lo hi /\ np_clip v lo hi <= hi)%Q.
Proof.
  intros H. unfold np_clip. split.
  - apply Q.min_glb; [apply Q.le_max_r | exact H].
  - apply Q.le_min_r.
Qed.

Lemma has_indicators_insert (values : gmap string Q) (key : string) (v : Q) :
  has_indicators values -> has_indicators (<[key := v]> values).
Proof.
  intros H name Hname. destruct (decide (key = name)) as [->|Hne].
  - rewrite lookup_insert_eq. eauto.
  - rewrite lookup_insert_ne by exact Hne. apply H, Hname.
Qed.

Lemma wp_getitem {V} (d : gmap string V) (key : string) (v : V) Q st :
  d !! key = Some v -> Q v st -> wp (getitem d key) Q st.
Proof. intros Hv HQ. unfold getitem. rewrite Hv. exact HQ. Qed.

Lemma wp_update_item (values : gmap string Q) (key : string) (f : Q -> Q)
    (v : Q) Q st :
  values !! key = Some v -> Q (<[key := f v]> values) st ->
  wp (update_item values key f) Q st.
Proof.
  intros Hv HQ. unfold update_item. apply wp_bind.
  eapply wp_getitem; [exact Hv|]. exact HQ.
Qed.

Lemma wp_update_keeps (values : gmap string Q) (key : string) (f : Q -> Q) st :
  has_indicators values -> key ∈ MACRO_INDICATORS ->
  wp (update_item values key f) (fun m _ => has_indicators m) st.
Proof.
  intros H Hkey. destruct (H key Hkey) as [v Hv].
  eapply wp_update_item; [exact Hv|]. now apply has_indicators_insert.
Qed.

Lemma wp_clip (values : gmap string Q) (key : string) (lo hi : Q) st :
  has_indicators values -> key ∈ MACRO_INDICATORS -> (lo <= hi)%Q ->
  wp (update_item values key (fun v => np_clip v lo hi))
     (fun m _ =>
        has_indicators m /\ within_band m key lo hi /\
        forall name lo' hi', name <> key ->
          within_band values name lo' hi' -> within_band m name lo' hi') st.
Proof.
  intros H Hkey Hb. destruct (H key Hkey) as [v Hv].
  eapply wp_update_item; [exact Hv|]. split; [|split].
  - now apply has_indicators_insert.
  - exists (np_clip v lo hi). rewrite lookup_insert_eq.
    split; [reflexivity | now apply np_clip_bounds].
  - intros name lo' hi' Hne (w & Hw & Hr). exists w.
    rewrite lookup_insert_ne by congruence. split; assumption.
Qed.

Lemma wp_add_shocks (indicators : list string) : forall values st,
  Forall (fun name => name ∈ MACRO_INDICATORS /\ is_Some (volatilities !! name))
         indicators ->
  has_indicators values ->
  wp (add_shocks indicators values) (fun m _ => has_indicators m) st.
Proof.
  induction indicators as [|name tl IH]; intros values st Hall H; simpl.
  - now apply wp_ret.
  - inversion Hall as [|? ? [Hname [vol Hvol]] Htl]; subst.
    apply wp_bind. eapply wp_getitem; [exact Hvol|].
    apply wp_bind, wp_normal. intros z st1. simpl.
    apply wp_bind. eapply wp_mono; [|apply wp_update_keeps; assumption].
    intros m st2 Hm. simpl. now apply IH.
Qed.

Ltac indicator_mem :=
  unfold MACRO_INDICATORS;
  repeat first [ apply list_elem_of_here | apply list_elem_of_further ].

Lemma macro_indicators_have_volatility :
  Forall (fun name => name ∈ MACRO_INDICATORS /\ is_Some (volatilities !! name))
         MACRO_INDICATORS.
Proof.
  unfold MACRO_INDICATORS at 2.
  repeat (apply Forall_cons; split;
          [split; [indicator_mem | vm_compute; eauto]|]).
  constructor.
Qed.

Ltac keep_step :=
  apply wp_bind; eapply wp_mono;
  [| apply wp_update_keeps; [assumption | indicator_mem]];
  let m := fresh "m" in let st := fresh "st" in let H := fresh "Hm" in
  intros m st H; simpl.

Lemma wp_update_macro_values (np_exp : Q -> Q) (values : gmap string Q)
    (date : Z) (index : nat) st :
  has_indicators values ->
  wp (_update_macro_values np_exp values date index)
     (fun m _ => has_indicators m /\ within_bands m) st.
Proof.
  intros H. unfold _update_macro_values.
  apply wp_bind. eapply wp_mono;
    [| apply wp_add_shocks; [apply macro_indicators_have_volatility | exact H]].
  intros m0 st0 H0. simpl.
  apply wp_bind. apply (wp_mono _ (fun m _ => has_indicators m)).
  2:{ destruct (in_window _ _ date).
      - do 3 keep_step. apply wp_update_keeps; [assumption | indicator_mem].
      - now apply wp_ret. }
  intros m1 st1 H1. simpl.
  apply wp_bind. apply (wp_mono _ (fun m _ => has_indicators m)).
  2:{ destruct (in_window _ _ date).
      - do 2 keep_step. apply wp_update_keeps; [assumption | indicator_mem].
      - now apply wp_ret. }
  intros m2 st2 H2. simpl.
  apply wp_bind. eapply wp_mono;
    [| apply (wp_clip m2 "GDP_Growth" (-5) 8); [assumption | indicator_mem | lra]].
  intros a1 s1 (Ha1 & B1 & K1). simpl.
  apply wp_bind. eapply wp_mono;
    [| apply (wp_clip a1 "Inflation_Rate" (-1) 10); [assumption | indicator_mem | lra]].
  intros a2 s2 (Ha2 & B2 & K2). simpl.
  apply wp_bind. eapply wp_mono;
    [| apply (wp_clip a2 "Unemployment_Rate" 2 15); [assumption | indicator_mem | lra]].
  intros a3 s3 (Ha3 & B3 & K3). simpl.
  apply wp_bind. eapply wp_mono;
    [| apply (wp_clip a3 "Federal_Funds_Rate" 0 6); [assumption | indicator_mem | lra]].
  intros a4 s4 (Ha4 & B4 & K4). simpl.
  apply wp_bind. eapply wp_mono;
    [| apply (wp_clip a4 "VIX_Index" 10 80); [assumption | indicator_mem | lra]].
  intros a5 s5 (Ha5 & B5 & K5). simpl.
  apply wp_bind. eapply wp_mono;
    [| apply (wp_clip a5 "Dollar_Index" 80 120); [assumption | indicator_mem | lra]].
  intros a6 s6 (Ha6 & B6 & K6). simpl.
  apply wp_bind. eapply wp_mono;
    [| apply (wp_clip a6 "Oil_Price" 20 150); [assumption | indicator_mem | lra]].
  intros a7 s7 (Ha7 & B7 & K7). simpl.
  apply wp_bind. eapply wp_mono;
    [| apply (wp_clip a7 "Ten_Year_Treasury" (5 # 10) 6); [assumption | indicator_mem | lra]].
  intros a8 s8 (Ha8 & B8 & K8). simpl.
  apply wp_ret. split; [exact Ha8|].
  unfold within_bands, macro_bands.
  repeat (apply Forall_cons; split;
    [ simpl;
      repeat first
        [ assumption
        | apply K8; [discriminate|] | apply K7; [discriminate|]
        | apply K6; [discriminate|] | apply K5; [discriminate|]
        | apply K4; [discriminate|] | apply K3; [discriminate|]
        | apply K2; [discriminate|] ] |]).
  constructor.
Qed.

Lemma wp_macro_loop (np_exp : Q -> Q) (date_range : list Z) :
  forall values i st,
  has_indicators values ->
  wp (macro_loop np_exp values i date_range)
     (fun records _ =>
        map fst records = date_range /\
        Forall (fun rec => within_bands (snd rec)) records) st.
Proof.
  induction date_range as [|d tl IH]; intros values i st H; simpl.
  - apply wp_ret. split; [reflexivity | constructor].
  - apply wp_bind. eapply wp_mono; [|apply wp_update_macro_values, H].
    intros m st1 [Hm Hb]. simpl.
    apply wp_bind. eapply wp_mono; [|apply IH, Hm].
    intros rest st2 [Hd Hall]. simpl. apply wp_ret. simpl.
    split; [now rewrite Hd | now constructor].
Qed.

Lemma initial_macro_values_complete : has_indicators initial_macro_values.
Proof.
  intros name Hname. unfold MACRO_INDICATORS in Hname.
  repeat (apply elem_of_cons in Hname;
          destruct Hname as [->|Hname]; [vm_compute; eauto|]).
  apply elem_of_nil in Hname. contradiction.
Qed.

(** C7. Every indicator has a declared band, and in every monthly record
    that [collect_macro_economic_data] emits every indicator is present
    with a value inside its band, for every stream of shocks. *)
Theorem macro_values_within_bands (np_exp : Q -> Q) (mt19937 : Z -> nat -> Q)
    (cfg : Config) (st : RandomState) :
  map fst macro_bands = MACRO_INDICATORS /\
  exists records st',
    collect_macro_economic_data np_exp mt19937 cfg st = Returns records st' /\
    map fst records = month_end_range (START_DATE cfg) (END_DATE cfg) /\
    forall month values name lo hi,
      (month, values) ∈ records -> (name, (lo, hi)) ∈ macro_bands ->
      exists v, values !! name = Some v /\ (lo <= v /\ v <= hi)%Q.
Proof.
  split; [reflexivity|].
  assert (H : wp (collect_macro_economic_data np_exp mt19937 cfg)
                (fun records _ =>
                   map fst records = month_end_range (START_DATE cfg) (END_DATE cfg) /\
                   Forall (fun rec => within_bands (snd rec)) records) st).
  { unfold collect_macro_economic_data. apply wp_bind. unfold wp at 1, seed.
    apply wp_macro_loop, initial_macro_values_complete. }
  apply wp_returns in H. destruct H as (records & st' & Hrun & Hdates & Hall).
  exists records, st'. split; [exact Hrun|]. split; [exact Hdates|].
  intros month values name lo hi Hrec Hband.
  rewrite Forall_forall in Hall. specialize (Hall _ Hrec). simpl in Hall.
  unfold within_bands in Hall. rewrite Forall_forall in Hall.
  exact (Hall _ Hband).
Qed.

Example shipped_macro_months :
  length (month_end_range (START_DATE shipped) (END_DATE shipped)) = 120%nat.
Proof. vm_compute. reflexivity. Qed.

(** ** The news corpus *)

Lemma raises_bind {A B} (e : exn) (m : M A) (f : A -> M B) st :
  wp m (fun a st' => raises e (f a) st') st -> raises e (m ≫= f) st.
Proof.
  unfold wp, raises, mbind, M_bind. destruct (m st); [tauto | intros []].
Qed.

Lemma raises_bind_l {A B} (e : exn) (m : M A) (f : A -> M B) st :
  raises e m st -> raises e (m ≫= f) st.
Proof.
  unfold raises, mbind, M_bind. intros [st' ->]. eauto.
Qed.

Lemma wp_randint (low high : Z) Q st :
  low < high ->
  (forall j st', low <= j < high -> Q j st') ->
  wp (randint low high) Q st.
Proof.
  intros Hlt H. unfold randint.
  destruct (low <? high) eqn:E; [|apply Z.ltb_ge in E; lia].
  apply wp_bind. unfold wp at 1, next_raw. apply wp_ret. apply H.
  pose proof (Z.mod_pos_bound (Qfloor (entropy st (position st))) (high - low)).
  lia.
Qed.

Lemma wp_choice {A} (xs : list A) Q st :
  xs <> [] ->
  (forall x st', x ∈ xs -> Q x st') ->
  wp (choice xs) Q st.
Proof.
  intros Hne H. unfold choice. destruct xs as [|x0 tl]; [congruence|].
  apply wp_bind, wp_randint; [simpl; lia|].
  intros j st' Hj. simpl.
  destruct (lookup_lt_is_Some_2 (x0 :: tl) (Z.to_nat j) ltac:(simpl in *; lia))
    as [x Hx].
  rewrite Hx. apply wp_ret. apply H. eapply list_elem_of_lookup_2, Hx.
Qed.

Lemma wp_poisson (lam : Q) Q st :
  (0 <= lam)%Q -> (forall k st', Q k st') -> wp (poisson lam) Q st.
Proof.
  intros Hlam H. unfold poisson.
  destruct (Qltb lam 0) eqn:E; [apply Qltb_true in E; lra|].
  destruct (Qis_zero lam); [apply wp_ret, H|].
  apply wp_bind. unfold wp at 1, next_raw. apply wp_ret, H.
Qed.

Lemma templates_of_category (template_category : string) :
  template_category ∈ map fst _get_comprehensive_news_templates ->
  exists templates,
    List.find (fun kv => String.eqb (fst kv) template_category)
              _get_comprehensive_news_templates
      = Some (template_category, templates)
    /\ templates <> [].
Proof.
  intros H. unfold _get_comprehensive_news_templates in H. simpl in H.
  repeat (apply elem_of_cons in H;
          destruct H as [->|H]; [eexists; split; [reflexivity | discriminate]|]).
  apply elem_of_nil in H. contradiction.
Qed.

Lemma wp_dict_get_templates (template_category : string) Q st :
  template_category ∈ map fst _get_comprehensive_news_templates ->
  (forall templates st', templates <> [] -> Q templates st') ->
  wp (dict_get _get_comprehensive_news_templates template_category) Q st.
Proof.
  intros Hin H. destruct (templates_of_category _ Hin) as (ts & Hfind & Hne).
  unfold dict_get. rewrite Hfind. apply wp_ret. simpl. now apply H.
Qed.

Lemma wp_daily_article (o : Z) (total_generated : nat) st :
  wp (daily_article _get_comprehensive_news_templates _get_news_companies
        _get_news_sources (PdTimestamp o) total_generated)
     (fun _ _ => True) st.
Proof.
  unfold daily_article.
  apply wp_bind, wp_choice; [discriminate|]. intros cat st1 Hcat. cbv beta.
  apply wp_bind, wp_dict_get_templates; [exact Hcat|]. intros ts st2 Hts. cbv beta.
  apply wp_bind, wp_choice; [exact Hts|]. intros t st3 _. cbv beta.
  apply wp_bind, wp_choice; [discriminate|]. intros c st4 _. cbv beta.
  apply wp_bind, wp_choice; [discriminate|]. intros s st5 _. cbv beta.
  apply wp_bind, wp_randint; [lia|]. intros h st6 _. cbv beta.
  apply wp_bind, wp_randint; [lia|]. intros mi st7 _. cbv beta.
  exact I.
Qed.

Lemma wp_daily_articles (o : Z) (daily_count : nat) :
  forall news_data total_generated st,
  wp (daily_articles _get_comprehensive_news_templates _get_news_companies
        _get_news_sources (PdTimestamp o) daily_count news_data total_generated)
     (fun r _ => length (fst r) = (length news_data + daily_count)%nat) st.
Proof.
  induction daily_count as [|k IH]; intros news_data total_generated st; simpl.
  - apply wp_ret. simpl. lia.
  - apply wp_bind. eapply wp_mono; [|apply wp_daily_article].
    intros r st1 _. simpl. eapply wp_mono; [|apply IH].
    intros [news n] st2 H. simpl in *. rewrite H, length_app. simpl. lia.
Qed.

Lemma wp_daily_loop (daily_news_count : Q) (business_days : list Z) :
  (0 <= daily_news_count)%Q ->
  forall news_data total_generated st,
  wp (daily_loop daily_news_count _get_comprehensive_news_templates
        _get_news_companies _get_news_sources business_days
        news_data total_generated)
     (fun r _ => (length news_data + length business_days <= length (fst r))%nat)
     st.
Proof.
  intros Hlam. induction business_days as [|d tl IH];
    intros news_data total_generated st; simpl.
  - apply wp_ret. simpl. lia.
  - apply wp_bind, wp_poisson; [exact Hlam|]. intros k st1. simpl.
    apply wp_bind. eapply wp_mono; [|apply wp_daily_articles].
    intros [news n] st2 H. simpl in *. eapply wp_mono; [|apply IH].
    intros [news' n'] st3 H'. simpl in *. lia.
Qed.

Lemma wp_generate_daily_news (mt19937 : Z -> nat -> Q) (cfg : Config) st :
  0 <= EXPECTED_NEWS_COUNT cfg -> news_calendar cfg <> [] ->
  wp (generate_daily_news mt19937 cfg)
     (fun news _ => (length (news_calendar cfg) <= length news)%nat) st.
Proof.
  intros HT Hcal. unfold generate_daily_news.
  destruct (news_calendar cfg) as [|d0 tl] eqn:E; [congruence|].
  apply wp_bind, wp_ret. cbv beta. apply wp_bind. unfold wp at 1, seed.
  cbv beta iota.
  apply wp_bind. eapply wp_mono; [|apply wp_daily_loop].
  - intros [news n] st1 H. cbn [fst length Nat.add] in H. apply wp_ret.
    cbn [length]. lia.
  - apply Qle_shift_div_l.
    + change 0%Q with (inject_Z 0). rewrite <- Zlt_Qlt. cbn [length]. lia.
    + unfold Qle, Qmult, inject_Z. simpl. lia.
Qed.

Lemma additional_article_raises (business_days : list Z) (i : nat) st :
  business_days <> [] ->
  raises (AttributeError "date")
    (additional_article business_days _get_comprehensive_news_templates
       _get_news_companies _get_news_sources i) st.
Proof.
  intros Hne. unfold additional_article.
  apply raises_bind, wp_choice.
  { destruct business_days; [congruence | discriminate]. }
  intros date st0 Hdate. cbv beta.
  apply list_elem_of_fmap in Hdate. destruct Hdate as (o & -> & _).
  apply raises_bind, wp_choice; [discriminate|]. intros cat st1 Hcat. cbv beta.
  apply raises_bind, wp_dict_get_templates; [exact Hcat|]. intros ts st2 Hts. cbv beta.
  apply raises_bind, wp_choice; [exact Hts|]. intros t st3 _. cbv beta.
  apply raises_bind, wp_choice; [discriminate|]. intros c st4 _. cbv beta.
  apply raises_bind, wp_choice; [discriminate|]. intros s st5 _. cbv beta.
  apply raises_bind, wp_randint; [lia|]. intros h st6 _. cbv beta.
  apply raises_bind, wp_randint; [lia|]. intros mi st7 _. cbv beta.
  apply raises_bind_l. eexists. reflexivity.
Qed.

Lemma generate_additional_news_raises (count : Z) (business_days : list Z) st :
  business_days <> [] -> 0 < count ->
  raises (AttributeError "date")
    (_generate_additional_news count business_days
       _get_comprehensive_news_templates _get_news_companies
       _get_news_sources) st.
Proof.
  intros Hne Hc. unfold _generate_additional_news.
  destruct (Z.to_nat count) as [|n] eqn:E; [lia|].
  simpl. apply raises_bind_l. now apply additional_article_raises.
Qed.

Lemma top_up_raises (fuel : nat) (target : Z) (business_days : list Z)
    (news_df : list NewsRecord) st :
  business_days <> [] -> (0 < fuel)%nat -> Z.of_nat (length news_df) < target ->
  raises (AttributeError "date")
    (top_up fuel target business_days _get_comprehensive_news_templates
       _get_news_companies _get_news_sources news_df) st.
Proof.
  intros Hne Hfuel Hlt. destruct fuel as [|fuel]; [lia|]. simpl.
  destruct (Z.of_nat (length news_df) <? target) eqn:E;
    [|apply Z.ltb_ge in E; lia].
  apply raises_bind_l. apply generate_additional_news_raises; [exact Hne | lia].
Qed.

Lemma top_up_enough (fuel : nat) (target : Z) (business_days : list Z)
    (news_df : list NewsRecord) st :
  target <= Z.of_nat (length news_df) ->
  top_up fuel target business_days _get_comprehensive_news_templates
    _get_news_companies _get_news_sources news_df st
  = Returns (Some news_df) st.
Proof.
  intros Hge.
  assert (E : (Z.of_nat (length news_df) <? target) = false)
    by (apply Z.ltb_ge; lia).
  destruct fuel; simpl; rewrite E; reflexivity.
Qed.

(** *** Down-sampling *)

Lemma wp_shuffle (bound : nat) (i : nat) : forall (xs : list nat) st,
  (i < length xs \/ i = 0)%nat -> Forall (fun k => (k < bound)%nat) xs ->
  wp (shuffle i xs)
     (fun p _ => length p = length xs /\ Forall (fun k => (k < bound)%nat) p) st.
Proof.
  induction i as [|k IH]; intros xs st Hi Hall; simpl.
  - apply wp_ret. split; [reflexivity | exact Hall].
  - destruct Hi as [Hi|Hi]; [|discriminate].
    apply wp_bind, wp_randint; [lia|]. intros j st1 Hj. simpl.
    destruct (lookup_lt_is_Some_2 xs (S k) Hi) as [xi Hxi].
    destruct (lookup_lt_is_Some_2 xs (Z.to_nat j) ltac:(lia)) as [xj Hxj].
    apply wp_bind. eapply wp_index; [exact Hxi|]. simpl.
    apply wp_bind. eapply wp_index; [exact Hxj|]. simpl.
    rewrite Forall_lookup in Hall.
    eapply wp_mono; [|apply IH].
    + intros p st2 [Hlen Hp]. split; [|exact Hp].
      rewrite Hlen, !length_insert. reflexivity.
    + rewrite !length_insert. left. lia.
    + apply Forall_insert; [apply Forall_insert|].
      * apply Forall_lookup. exact Hall.
      * eapply Hall, Hxi.
      * eapply Hall, Hxj.
Qed.

Lemma wp_sample {A} (mt19937 : Z -> nat -> Q) (n random_state : Z)
    (df : list A) st :
  0 <= n <= Z.of_nat (length df) ->
  wp (sample mt19937 n random_state df)
     (fun rows _ => Z.of_nat (length rows) = n) st.
Proof.
  intros Hn. unfold sample.
  destruct (n <? 0) eqn:E1; [apply Z.ltb_lt in E1; lia|].
  destruct (Z.of_nat (length df) <? n) eqn:E2; [apply Z.ltb_lt in E2; lia|].
  pose proof (wp_shuffle (length df) (length df - 1) (seq 0 (length df))
                {| entropy := mt19937 random_state; position := 0 |}) as Hs.
  rewrite length_seq in Hs.
  assert (Hseq : Forall (fun k => (k < length df)%nat) (seq 0 (length df))).
  { apply Forall_seq. intros j Hj. lia. }
  specialize (Hs ltac:(lia) Hseq). unfold wp in Hs.
  destruct (shuffle _ _ _) as [perm st0|]; [|contradiction].
  destruct Hs as [Hlen Hperm].
  eapply wp_mono.
  2:{ apply (wp_for_each _ (fun _ _ => True)). intros k st' Hk.
      assert (Hk' : (k < length df)%nat).
      { rewrite Forall_forall in Hperm. apply Hperm.
        apply elem_of_take in Hk. destruct Hk as (i & Hi & _).
        eapply list_elem_of_lookup_2, Hi. }
      destruct (lookup_lt_is_Some_2 df k Hk') as [x Hx].
      eapply wp_index; [exact Hx | exact I]. }
  intros rows st' H. apply Forall2_length in H.
  rewrite <- H, length_take, Hlen. lia.
Qed.

(** The two outcomes of the final step, in terms of the size of the corpus
    that the daily loop produced. *)
Lemma collect_news_cases (mt19937 : Z -> nat -> Q) (fuel : nat) (cfg : Config)
    (st : RandomState) :
  0 <= EXPECTED_NEWS_COUNT cfg -> news_calendar cfg <> [] ->
  exists news st1,
    generate_daily_news mt19937 cfg st = Returns news st1 /\
    (length (news_calendar cfg) <= length news)%nat /\
    (Z.of_nat (length news) < EXPECTED_NEWS_COUNT cfg -> (0 < fuel)%nat ->
       raises (AttributeError "date")
         (collect_news_sentiment_data mt19937 fuel cfg) st) /\
    (0 < EXPECTED_NEWS_COUNT cfg <= Z.of_nat (length news) ->
       exists news_df st',
         collect_news_sentiment_data mt19937 fuel cfg st
           = Returns (Some news_df) st' /\
         Z.of_nat (length news_df) = EXPECTED_NEWS_COUNT cfg).
Proof.
  intros HT Hcal.
  pose proof (wp_generate_daily_news mt19937 cfg st HT Hcal) as H.
  apply wp_returns in H. destruct H as (news & st1 & Hrun & Hlen).
  exists news, st1. split; [exact Hrun|]. split; [exact Hlen|]. split.
  - intros Hlt Hfuel. unfold collect_news_sentiment_data.
    apply raises_bind. unfold wp. rewrite Hrun.
    apply raises_bind_l. now apply top_up_raises.
  - intros [Hpos Hge].
    assert (Hwp : wp (collect_news_sentiment_data mt19937 fuel cfg)
                    (fun r _ => exists news_df, r = Some news_df /\
                       Z.of_nat (length news_df) = EXPECTED_NEWS_COUNT cfg) st).
    { unfold collect_news_sentiment_data. apply wp_bind. unfold wp at 1.
      rewrite Hrun. apply wp_bind. unfold wp at 1.
      rewrite top_up_enough by exact Hge.
      destruct (EXPECTED_NEWS_COUNT cfg <? Z.of_nat (length news)) eqn:E.
      - apply wp_bind. eapply wp_mono; [|apply wp_sample; lia].
        intros rows st2 Hrows. simpl.
        destruct rows as [|r0 rows']; [simpl in Hrows; lia|].
        apply wp_bind, wp_ret. apply wp_ret. eauto.
      - apply Z.ltb_ge in E. apply wp_bind, wp_ret.
        destruct news as [|r0 news']; [simpl in *; lia|].
        apply wp_bind, wp_ret. apply wp_ret. exists (r0 :: news').
        split; [reflexivity | lia]. }
    apply wp_returns in Hwp.
    destruct Hwp as (r & st' & Hr & news_df & -> & Hsize). eauto.
Qed.


(** * Further properties of the code *)

(** ** The trading calendar *)

Lemma elem_of_bdate_range (start_ end_ : Timestamp) (d : Z) :
  d ∈ bdate_range start_ end_ <->
  to_ordinal start_ <= d <= to_ordinal end_ /\ weekday d < 5.
Proof.
  unfold bdate_range. rewrite list_elem_of_In, List.filter_In.
  rewrite <- list_elem_of_In, elem_of_seqZ. unfold is_business_day.
  rewrite Z.ltb_lt. lia.
Qed.

Lemma py_slice_to_prefix {A} (n : Z) (xs : list A) :
  exists k, py_slice_to n xs = take k xs.
Proof. unfold py_slice_to. destruct (0 <=? n); eauto. Qed.

Lemma stock_calendar_prefix (cfg : Config) :
  exists k, stock_calendar cfg
            = take k (bdate_range (START_DATE cfg) (END_DATE cfg)).
Proof.
  unfold stock_calendar. destruct (_ <? _).
  - apply py_slice_to_prefix.
  - exists (length (bdate_range (START_DATE cfg) (END_DATE cfg))).
    now rewrite take_ge.
Qed.

(** X1. For every configuration the trading calendar increases strictly,
    and each of its dates is a Monday-to-Friday date between the configured
    start and end dates. *)
Theorem trading_calendar_business_days (cfg : Config) :
  StronglySorted Z.lt (stock_calendar cfg) /\
  Forall (fun d => to_ordinal (START_DATE cfg) <= d <= to_ordinal (END_DATE cfg)
                   /\ 0 <= weekday d <= 4)
         (stock_calendar cfg).
Proof.
  destruct (stock_calendar_prefix cfg) as [k ->]. split.
  - apply StronglySorted_take, bdate_range_sorted.
  - apply Forall_take, Forall_forall. intros d Hd.
    apply elem_of_bdate_range in Hd. unfold weekday in *.
    pose proof (Z.mod_pos_bound (d + 3) 7). lia.
Qed.

(** X2. The calendar of the news collector is the calendar of the price
    generator, for every configuration: the length guard that only the
    price generator has changes nothing. *)
Theorem news_calendar_is_stock_calendar (cfg : Config) :
  news_calendar cfg = stock_calendar cfg.
Proof.
  unfold news_calendar, stock_calendar.
  destruct (_ <? _) eqn:E; [reflexivity|]. apply Z.ltb_ge in E.
  unfold py_slice_to. destruct (0 <=? _) eqn:E0.
  - apply take_ge. lia.
  - apply Z.leb_gt in E0. lia.
Qed.

(** X3. When the target number of trading days is at least the number of
    business days of the interval, no day is dropped: every
    Monday-to-Friday date between the start and end dates is a trading
    day. *)
Theorem trading_calendar_complete (cfg : Config) (d : Z) :
  Z.of_nat (length (bdate_range (START_DATE cfg) (END_DATE cfg)))
    <= EXPECTED_TRADING_DAYS cfg ->
  to_ordinal (START_DATE cfg) <= d <= to_ordinal (END_DATE cfg) ->
  weekday d <= 4 ->
  d ∈ stock_calendar cfg.
Proof.
  intros Hn Hd Hw. unfold stock_calendar.
  destruct (_ <? _) eqn:E; [apply Z.ltb_lt in E; lia|].
  apply elem_of_bdate_range. lia.
Qed.

Lemma trading_calendar_complete_witness : 19724 ∈ stock_calendar three_days.
Proof.
  apply trading_calendar_complete; vm_compute; try discriminate; split; discriminate.
Defined.

(** ** Layout of the panel *)

Lemma row_spec_key symbol sp ip prices returns i d r :
  row_spec symbol sp ip prices returns i d r -> Symbol r = symbol /\ Date r = d.
Proof.
  intros (? & ? & ? & ? & ? & ? & ? & H). tauto.
Qed.

Lemma single_stock_keys symbol date_range st rows :
  single_stock_post symbol date_range st rows ->
  map (fun row => (Symbol (record row), Date (record row))) rows
  = map (pair symbol) date_range.
Proof.
  intros H. apply single_stock_post_rows in H.
  destruct H as (ip & rets & _ & _ & _ & Hlen & Hrows).
  apply list_eq. intros i. rewrite !list_lookup_fmap.
  destruct (rows !! i) as [row|] eqn:E; simpl.
  - destruct (Hrows i row E) as (d & Hd & Hspec).
    apply row_spec_key in Hspec. destruct Hspec as [-> ->].
    now rewrite Hd.
  - apply lookup_ge_None in E.
    rewrite (proj2 (lookup_ge_None date_range i)) by lia. reflexivity.
Qed.

(** X4. With a non-empty symbol list and a non-empty calendar the panel
    lists the instruments in the order of the symbol list and, within an
    instrument, the days in calendar order: its (Symbol, Date) columns are
    the product of the two lists. *)
Theorem full_scale_panel_layout (np_sqrt np_log : Q -> Q)
    (mt19937 : Z -> nat -> Q) (cfg : Config) (st : RandomState) :
  SP500_TOP_300_STOCKS cfg <> [] -> stock_calendar cfg <> [] ->
  exists rows st',
    _generate_full_scale_stock_data np_sqrt np_log mt19937 cfg st
      = Returns rows st' /\
    map (fun row => (Symbol (record row), Date (record row))) rows
      = list_prod (SP500_TOP_300_STOCKS cfg) (stock_calendar cfg).
Proof.
  intros Hs Hc. apply wp_returns.
  unfold _generate_full_scale_stock_data. apply wp_bind. unfold wp at 1, seed.
  cbv beta iota. apply wp_bind. eapply wp_mono.
  2:{ apply (wp_for_each _
        (fun symbol rows =>
           map (fun row => (Symbol (record row), Date (record row))) rows
           = map (pair symbol) (stock_calendar cfg))).
      intros symbol st' _. eapply wp_mono;
        [|apply single_stock_spec; [exact Hc | apply stock_calendar_sorted]].
      intros rows st'' Hpost. eapply single_stock_keys, Hpost. }
  intros frames st1 Hframes. cbv beta. unfold pd_concat.
  destruct frames as [|f0 frames'].
  { apply Forall2_length in Hframes.
    destruct (SP500_TOP_300_STOCKS cfg); [congruence | discriminate]. }
  apply wp_ret. generalize dependent (f0 :: frames'). clear.
  intros frames H. induction H as [|s f ss fs Hf _ IH]; [reflexivity|].
  simpl. rewrite map_app, Hf, IH. reflexivity.
Qed.

Lemma full_scale_panel_layout_witness :
  exists rows st',
    _generate_full_scale_stock_data Sample.sqrt Sample.log Sample.stream
      three_days (Sample.state_of []) = Returns rows st' /\
    map (fun row => (Symbol (record row), Date (record row))) rows
      = [ ("AAPL", 19723); ("AAPL", 19724); ("AAPL", 19725);
          ("JPM", 19723); ("JPM", 19724); ("JPM", 19725) ]%string.
Proof.
  apply (full_scale_panel_layout Sample.sqrt Sample.log Sample.stream
           three_days (Sample.state_of [])); vm_compute; discriminate.
Defined.

(** ** Volume *)

Lemma avg_volume_even (symbol : string) :
  avg_volume (_get_sector_parameters symbol)
  = 2 * (avg_volume (_get_sector_parameters symbol) / 2)
  /\ 0 < avg_volume (_get_sector_parameters symbol).
Proof.
  unfold _get_sector_parameters.
  repeat (destruct (py_in _ _); [simpl; split; [reflexivity | lia]|]).
  simpl. split; [reflexivity | lia].
Qed.

Lemma py_int_floor (q : Q) : (0 <= q)%Q -> py_int q = Qfloor q.
Proof.
  destruct q as [n d]. unfold Qle, py_int, Qfloor. simpl. intros H.
  apply Z.quot_div_nonneg; lia.
Qed.

Lemma volume_bounds (av : Z) (ret_i v : Q) :
  0 < av -> unit_interval v ->
  let volume :=
    py_int (inject_Z av * (1 + Qabs ret_i * 10) * ((1 # 2) + (2 - (1 # 2)) * v)) in
  av / 2 <= volume /\
  (inject_Z volume < 2 * inject_Z av * (1 + 10 * Qabs ret_i))%Q.
Proof.
  intros Hav [Hv0 Hv1].
  assert (HA : (0 < inject_Z av)%Q).
  { change 0%Q with (inject_Z 0). now rewrite <- Zlt_Qlt. }
  pose proof (Qabs_nonneg ret_i) as Habs.
  set (A := inject_Z av) in *. set (B := (1 + Qabs ret_i * 10)%Q).
  set (C := ((1 # 2) + (2 - (1 # 2)) * v)%Q).
  assert (HB : (1 <= B)%Q) by (unfold B; lra).
  assert (HC : (1 # 2 <= C /\ C < 2)%Q) by (unfold C; split; lra).
  assert (HAB : (A <= A * B)%Q).
  { apply (Qle_trans _ (A * 1)%Q); [lra|].
    apply Qmult_le_compat_nonneg; split; lra. }
  assert (HABC : (A * (1 # 2) <= A * B * C)%Q).
  { apply Qmult_le_compat_nonneg; split; lra. }
  assert (HABC2 : (A * B * C < A * B * 2)%Q).
  { apply Qmult_lt_l; lra. }
  cbv zeta. rewrite py_int_floor by lra. split.
  - apply Qfloor_resp_le in HABC.
    eapply Z.le_trans; [|exact HABC].
    unfold A, Qfloor, Qmult, inject_Z. simpl.
    rewrite Z.mul_1_r. reflexivity.
  - pose proof (Qfloor_le (A * B * C)). unfold B in *. lra.
Qed.

(** X5. Every Volume of a generated instrument is at least half the
    average volume of its sector profile, and below twice that average
    scaled by 1 + 10 |Return|. *)
Theorem single_stock_volume_bounds
    (np_sqrt np_log : Q -> Q) (symbol : string) (date_range : list Z)
    (st : RandomState) :
  date_range <> [] -> Sorted Z.lt date_range ->
  exists rows st',
    _generate_single_stock_data np_sqrt np_log symbol date_range st
      = Returns rows st' /\
    Forall (fun row =>
              let r := record row in
              let av := avg_volume (_get_sector_parameters symbol) in
              av <= 2 * Volume r /\
              (inject_Z (Volume r) < 2 * inject_Z av * (1 + 10 * Qabs (Return r)))%Q)
           rows.
Proof.
  intros Hne Hs. apply wp_returns. eapply wp_mono; [|now apply single_stock_spec].
  intros rows st' Hpost. apply single_stock_post_rows in Hpost.
  destruct Hpost as (ip & rets & _ & _ & _ & _ & Hrows).
  apply Forall_lookup. intros i row Hrow.
  destruct (Hrows i row Hrow) as (d & _ & Hspec).
  destruct Hspec as (c & o & r & u & up & dn & v & H).
  destruct H as (_ & _ & _ & _ & _ & _ & Hv & _ & _ & _ & _ & _ & _ & Hvol & Hret).
  cbv zeta. rewrite Hvol, Hret.
  destruct (avg_volume_even symbol) as [Heven Hpos].
  pose proof (volume_bounds _ r v Hpos Hv) as [Hlo Hhi]. cbv zeta in Hlo, Hhi.
  split; [|exact Hhi]. rewrite Heven at 1. lia.
Qed.

Lemma single_stock_volume_bounds_witness :
  exists rows st',
    _generate_single_stock_data Sample.sqrt Sample.log "AAPL" january_days
      calm_state = Returns rows st' /\
    Forall (fun row =>
              let r := record row in
              let av := avg_volume (_get_sector_parameters "AAPL") in
              av <= 2 * Volume r /\
              (inject_Z (Volume r) < 2 * inject_Z av * (1 + 10 * Qabs (Return r)))%Q)
           rows.
Proof.
  apply (single_stock_volume_bounds Sample.sqrt Sample.log "AAPL" january_days
           calm_state).
  - discriminate.
  - repeat constructor.
Defined.

(** ** Counting draws *)

Lemma advance_0 st : advance 0 st = st.
Proof. destruct st. unfold advance. simpl. f_equal. lia. Qed.

Lemma advance_advance j k st : advance k (advance j st) = advance (j + k) st.
Proof. unfold advance. simpl. f_equal. lia. Qed.

Lemma runs_ret {A} (a : A) (P : A -> Prop) st : P a -> runs (mret a) 0 P st.
Proof. intros H. exists a. rewrite advance_0. split; [reflexivity | exact H]. Qed.

Lemma runs_bind {A B} (m : M A) (f : A -> M B) j k (P : A -> Prop)
    (Q : B -> Prop) st :
  runs m j P st -> (forall a, P a -> runs (f a) k Q (advance j st)) ->
  runs (m ≫= f) (j + k) Q st.
Proof.
  intros (a & Hm & Pa) Hf. destruct (Hf a Pa) as (b & Hb & Qb).
  exists b. unfold mbind, M_bind. rewrite Hm, Hb, advance_advance. tauto.
Qed.

Lemma runs_mono {A} (m : M A) k (P P' : A -> Prop) st :
  (forall a, P a -> P' a) -> runs m k P st -> runs m k P' st.
Proof. intros H (a & Hm & Pa). exists a. split; [exact Hm | apply H, Pa]. Qed.

Lemma runs_eq {A} (m : M A) j k (P : A -> Prop) st :
  j = k -> runs m j P st -> runs m k P st.
Proof. now intros ->. Qed.

Lemma runs_next_raw st : runs next_raw 1 (fun _ => True) st.
Proof.
  eexists. split; [|exact I]. unfold next_raw, advance. f_equal. f_equal. lia.
Qed.

Lemma runs_uniform low high st :
  runs (uniform low high) 1
       (fun x => exists u, unit_interval u /\ x = (low + (high - low) * u)%Q) st.
Proof.
  eexists. split.
  - unfold uniform, random_sample, next_raw, advance, mbind, M_bind, mret, M_ret.
    f_equal. f_equal. lia.
  - eexists. split; [|reflexivity]. apply Qfrac_range.
Qed.

Lemma runs_normal loc scale st :
  runs (normal loc scale) 1 (fun x => exists z, x = (loc + scale * z)%Q) st.
Proof.
  eexists. split.
  - unfold normal, standard_normal, next_raw, advance, mbind, M_bind, mret, M_ret.
    f_equal. f_equal. lia.
  - eexists. reflexivity.
Qed.

Lemma runs_repeatM {A} (m : M A) (P : A -> Prop) j n : forall st,
  (forall st', runs m j P st') ->
  runs (repeatM n m) (n * j) (fun xs => length xs = n /\ Forall P xs) st.
Proof.
  intros st Hm. revert st. induction n as [|n IH]; intros st; simpl.
  - apply runs_ret. split; [reflexivity | constructor].
  - eapply runs_bind; [apply Hm|]. intros a Pa.
    eapply (runs_eq _ (n * j + 0)); [lia|].
    eapply runs_bind; [apply IH|]. intros xs [Hlen Hall].
    apply runs_ret. simpl. split; [congruence | now constructor].
Qed.

Lemma runs_normal_n loc scale n st :
  runs (normal_n loc scale n) n
       (fun xs => length xs = n /\
                  Forall (fun x => exists z, x = (loc + scale * z)%Q) xs) st.
Proof.
  unfold normal_n. eapply (runs_eq _ (n * 1)); [lia|].
  apply runs_repeatM. intros st'. apply runs_normal.
Qed.

Lemma runs_index {A} (xs : list A) (i : nat) (x : A) st :
  xs !! i = Some x -> runs (index xs i) 0 (fun y => y = x) st.
Proof. intros Hx. unfold index. rewrite Hx. now apply runs_ret. Qed.

(** ** Event overlays *)

Lemma lookup_add_masked (loc scale : Q) (returns : list Q) :
  forall (mask : list bool) (shocks : list Q) (i : nat) (r : Q) (b : bool),
  (mask_sum mask <= length shocks)%nat ->
  Forall (fun s => exists z, s = (loc + scale * z)%Q) shocks ->
  returns !! i = Some r -> mask !! i = Some b ->
  exists r', add_masked returns mask shocks !! i = Some r' /\
             if b then shifted loc scale r r' else r' = r.
Proof.
  induction returns as [|r0 rs IH]; intros mask shocks i r b Hlen Hall Hr Hb;
    [discriminate|].
  destruct mask as [|b0 ms]; [discriminate|].
  destruct i as [|i].
  - simpl in Hr, Hb. injection Hr as ->. injection Hb as ->.
    destruct b; simpl.
    + destruct shocks as [|s ss]; [unfold mask_sum in Hlen; simpl in Hlen; lia|].
      inversion Hall as [|? ? [z ->] _]; subst.
      eexists. split; [reflexivity|]. now exists z.
    + eexists. split; reflexivity.
  - simpl in Hr, Hb. destruct b0; simpl.
    + destruct shocks as [|s ss]; [unfold mask_sum in Hlen; simpl in Hlen; lia|].
      inversion Hall; subst. simpl. eapply IH; eauto.
      unfold mask_sum in *. simpl in Hlen. lia.
    + eapply IH; eauto.
Qed.

Lemma mask_sum_date_mask lo hi date_range :
  mask_sum (date_mask lo hi date_range)
  = length (List.filter (in_window lo hi) date_range).
Proof.
  unfold mask_sum, date_mask, in_window.
  induction date_range as [|d tl IH]; [reflexivity|]. simpl.
  destruct (_ && _); simpl; now rewrite IH.
Qed.

Lemma existsb_mask_sum mask : existsb (fun b => b) mask = false -> mask_sum mask = 0%nat.
Proof.
  unfold mask_sum. induction mask as [|[] ms IH]; simpl; [reflexivity|discriminate|exact IH].
Qed.

Lemma existsb_mask_lookup mask i b :
  existsb (fun b => b) mask = false -> mask !! i = Some b -> b = false.
Proof.
  revert i. induction mask as [|b0 ms IH]; intros i H Hb; [discriminate|].
  simpl in H. apply orb_false_iff in H. destruct H as [-> H].
  destruct i; simpl in Hb; [congruence | eauto].
Qed.

(** One overlay: the days of the window are shifted, the others kept. *)
Lemma runs_overlay (loc scale : Q) (lo hi : Timestamp) (returns : list Q)
    (date_range : list Z) st :
  length returns = length date_range ->
  let mask := date_mask lo hi date_range in
  runs (if existsb (fun b => b) mask
        then shocks ← normal_n loc scale (mask_sum mask);
             mret (add_masked returns mask shocks)
        else mret returns)
       (length (List.filter (in_window lo hi) date_range))
       (fun rs =>
          length rs = length returns /\
          forall i d r, date_range !! i = Some d -> returns !! i = Some r ->
            exists r', rs !! i = Some r' /\
              if in_window lo hi d then shifted loc scale r r' else r' = r)
       st.
Proof.
  intros Hlen mask. rewrite <- mask_sum_date_mask. fold mask.
  assert (Hmask : forall i d, date_range !! i = Some d ->
                    mask !! i = Some (in_window lo hi d)).
  { intros i d Hd. unfold mask, date_mask. rewrite list_lookup_fmap, Hd.
    reflexivity. }
  destruct (existsb _ mask) eqn:E.
  - eapply (runs_eq _ (mask_sum mask + 0)); [lia|].
    eapply runs_bind; [apply runs_normal_n|]. intros shocks [Hs Hall].
    apply runs_ret. split; [apply length_add_masked|].
    intros i d r Hd Hr. eapply lookup_add_masked; eauto. lia.
  - rewrite (existsb_mask_sum _ E). apply runs_ret. split; [reflexivity|].
    intros i d r Hd Hr. exists r. split; [exact Hr|].
    rewrite (existsb_mask_lookup _ _ _ E (Hmask i d Hd)). reflexivity.
Qed.

Lemma windows_disjoint (d : Z) :
  covid_window d = true -> inflation_window d = true -> False.
Proof.
  unfold covid_window, inflation_window, in_window.
  rewrite !andb_true_iff, !Z.leb_le.
  change (to_ordinal (ymd 2020 4 30)) with 18382.
  change (to_ordinal (ymd 2022 1 1)) with 18993. lia.
Qed.

Lemma runs_add_market_events (returns : list Q) (date_range : list Z) st :
  length returns = length date_range ->
  runs (_add_market_events returns date_range)
       (length (List.filter covid_window date_range)
        + length (List.filter inflation_window date_range))
       (fun rs =>
          length rs = length returns /\
          forall i d r, date_range !! i = Some d -> returns !! i = Some r ->
            exists r', rs !! i = Some r' /\
              if covid_window d then shifted (- (2 # 100)) (5 # 100) r r'
              else if inflation_window d
                   then shifted (- (5 # 1000)) (2 # 100) r r'
                   else r' = r)
       st.
Proof.
  intros Hlen. unfold _add_market_events.
  eapply (runs_eq _ (_ + (_ + 0))); [rewrite Nat.add_0_r; reflexivity|].
  eapply runs_bind.
  { apply (runs_overlay (- (2 # 100)) (5 # 100) (ymd 2020 3 1) (ymd 2020 4 30)
             returns date_range st Hlen). }
  intros rs1 [Hlen1 Hrs1]. cbv beta.
  eapply runs_bind.
  { apply (runs_overlay (- (5 # 1000)) (2 # 100) (ymd 2022 1 1) (ymd 2022 12 31)
             rs1 date_range). congruence. }
  intros rs2 [Hlen2 Hrs2]. cbv beta. apply runs_ret.
  split; [congruence|]. intros i d r Hd Hr.
  destruct (Hrs1 i d r Hd Hr) as (r1 & Hr1 & H1).
  destruct (Hrs2 i d r1 Hd Hr1) as (r2 & Hr2 & H2).
  exists r2. split; [exact Hr2|].
  fold (covid_window d) in H1. fold (inflation_window d) in H2.
  pose proof (windows_disjoint d) as Hdis.
  destruct (covid_window d), (inflation_window d); try (exfalso; now apply Hdis).
  - now subst r2.
  - now subst r1.
  - congruence.
Qed.

(** X6. On a return series as long as the calendar the event overlay
    returns a series of the same length. A return dated outside March-April
    2020 and outside 2022 is unchanged; one dated inside a window is shifted
    by one normal draw (mean -2%, deviation 5% in the first window; mean
    -0.5%, deviation 2% in the second). One draw is consumed per day that
    lies in a window. *)
Theorem market_events_touch_only_their_windows (returns : list Q)
    (date_range : list Z) (st : RandomState) :
  length returns = length date_range ->
  exists rs st',
    _add_market_events returns date_range st = Returns rs st' /\
    entropy st' = entropy st /\
    position st'
      = (position st + length (List.filter covid_window date_range)
         + length (List.filter inflation_window date_range))%nat /\
    length rs = length returns /\
    forall i d r, date_range !! i = Some d -> returns !! i = Some r ->
      exists r', rs !! i = Some r' /\
        if covid_window d then shifted (- (2 # 100)) (5 # 100) r r'
        else if inflation_window d then shifted (- (5 # 1000)) (2 # 100) r r'
        else r' = r.
Proof.
  intros Hlen.
  destruct (runs_add_market_events returns date_range st Hlen)
    as (rs & Hrun & Hl & Hrs).
  eexists rs, _. split; [exact Hrun|].
  split; [reflexivity|]. split; [simpl; lia|]. split; assumption.
Qed.

Lemma market_events_touch_only_their_windows_witness :
  exists rs st',
    _add_market_events [0; 0; 0]%Q [18322; 18323; 19723]
      (Sample.state_of [1; -1]%Q) = Returns rs st' /\
    entropy st' = entropy (Sample.state_of [1; -1]%Q) /\
    position st' = 2%nat /\
    length rs = 3%nat /\
    forall i d r, [18322; 18323; 19723] !! i = Some d ->
      [0; 0; 0]%Q !! i = Some r ->
      exists r', rs !! i = Some r' /\
        if covid_window d then shifted (- (2 # 100)) (5 # 100) r r'
        else if inflation_window d then shifted (- (5 # 1000)) (2 # 100) r r'
        else r' = r.
Proof.
  apply (market_events_touch_only_their_windows [0; 0; 0]%Q
           [18322; 18323; 19723] (Sample.state_of [1; -1]%Q)).
  reflexivity.
Defined.

Lemma runs_ohlc_record np_log symbol sp initial_price (prices returns : list Q)
    (i : nat) (date : Z) st :
  (i < length prices)%nat -> (i < length returns)%nat ->
  runs (ohlc_record np_log symbol sp initial_price prices returns i date) 4
       (fun _ => True) st.
Proof.
  intros Hp Hr.
  destruct (lookup_lt_is_Some_2 prices i Hp) as [close Hclose].
  destruct (lookup_lt_is_Some_2 returns i Hr) as [ret_i Hret].
  assert (Hprev : forall (dflt : Q) st',
            runs (if (0 <? i)%nat then index prices (i - 1) else mret dflt)
                 0 (fun _ => True) st').
  { intros dflt st'. destruct i as [|j]; simpl.
    - now apply runs_ret.
    - rewrite Nat.sub_0_r.
      destruct (lookup_lt_is_Some_2 prices j ltac:(lia)) as [p Hj].
      eapply runs_mono; [|apply (runs_index _ _ _ _ Hj)]. auto. }
  unfold ohlc_record.
  apply (runs_bind _ _ 0 4 (fun _ => True)).
  { eapply runs_mono; [|apply (runs_index _ _ _ _ Hclose)]. auto. }
  intros c _. cbv beta.
  apply (runs_bind _ _ 1 3 (fun _ => True)).
  { eapply runs_mono; [|apply runs_uniform]. auto. }
  intros u _. cbv beta.
  apply (runs_bind _ _ 1 2 (fun _ => True)).
  { eapply runs_mono; [|apply runs_uniform]. auto. }
  intros up _. cbv beta.
  apply (runs_bind _ _ 1 1 (fun _ => True)).
  { eapply runs_mono; [|apply runs_uniform]. auto. }
  intros down _. cbv beta.
  apply (runs_bind _ _ 0 1 (fun _ => True)); [apply Hprev|].
  intros o _. cbv beta.
  apply (runs_bind _ _ 0 1 (fun _ => True)).
  { eapply runs_mono; [|apply (runs_index _ _ _ _ Hret)]. auto. }
  intros r _. cbv beta.
  apply (runs_bind _ _ 1 0 (fun _ => True)).
  { eapply runs_mono; [|apply runs_uniform]. auto. }
  intros v _. cbv beta.
  apply (runs_bind _ _ 0 0 (fun _ => True)); [apply Hprev|].
  intros prev _. cbv beta. now apply runs_ret.
Qed.

Lemma runs_for_enumerate {A B} (f : nat -> A -> M B) (c : nat) (xs : list A) :
  forall i0 st,
  (forall j x st', xs !! j = Some x ->
     runs (f (i0 + j)%nat x) c (fun _ => True) st') ->
  runs (for_enumerate f i0 xs) (length xs * c)
       (fun ys => length ys = length xs) st.
Proof.
  induction xs as [|x tl IH]; intros i0 st Hf; simpl.
  - now apply runs_ret.
  - eapply runs_bind.
    { specialize (Hf 0%nat x st eq_refl). rewrite Nat.add_0_r in Hf. exact Hf. }
    intros y _. cbv beta.
    eapply (runs_eq _ (length tl * c + 0)); [lia|].
    eapply runs_bind.
    { apply IH. intros j x' st' Hx'. specialize (Hf (S j) x' st' Hx').
      rewrite Nat.add_succ_r in Hf. exact Hf. }
    intros ys Hys. cbv beta. apply runs_ret. simpl. congruence.
Qed.

Lemma runs_single_stock np_sqrt np_log symbol (date_range : list Z) st :
  date_range <> [] ->
  runs (_generate_single_stock_data np_sqrt np_log symbol date_range)
       (draws_per_instrument date_range)
       (fun rows => length rows = length date_range) st.
Proof.
  intros Hne. unfold _generate_single_stock_data, draws_per_instrument.
  eapply runs_bind; [apply runs_uniform|]. intros ip _. cbv beta zeta.
  eapply runs_bind; [apply runs_normal_n|]. intros market [Hm _]. cbv beta.
  eapply runs_bind; [apply runs_normal_n|]. intros idio [Hi _]. cbv beta.
  eapply runs_bind.
  { apply runs_add_market_events.
    rewrite length_zip_with, Hm, Hi. apply Nat.min_id. }
  intros returns [Hlen _]. cbv beta.
  rewrite length_zip_with, Hm, Hi, Nat.min_id in Hlen.
  eapply (runs_eq _ (length date_range * 4 + 0)); [lia|].
  eapply runs_bind.
  { apply runs_for_enumerate. intros j d st' Hd. apply lookup_lt_Some in Hd.
    apply runs_ohlc_record; [rewrite length_price_path|]; lia. }
  intros records Hrec. cbv beta.
  unfold _calculate_technical_indicators.
  destruct records as [|r0 records'].
  { destruct date_range; [congruence | discriminate]. }
  apply runs_ret. rewrite length_imap.
  assert (Hsort : forall rows, length (sort_values_Date rows) = length rows).
  { clear. unfold sort_values_Date.
    assert (Hins : forall r rows, length (insert_by_date r rows) = S (length rows)).
    { intros r rows. induction rows as [|x tl IH]; [reflexivity|]. simpl.
      destruct (_ <=? _); simpl; [reflexivity | now rewrite IH]. }
    induction rows as [|r tl IH]; [reflexivity|]. simpl. now rewrite Hins, IH. }
  now rewrite Hsort.
Qed.

Lemma runs_for_each_blocks {A B} (f : A -> M (list B)) (c n : nat)
    (xs : list A) :
  (forall x st', runs (f x) c (fun rows => length rows = n) st') ->
  forall st,
  runs (for_each f xs) (length xs * c)
       (fun frames =>
          Forall (fun rows => length rows = n) frames /\
          forall k x, xs !! k = Some x ->
            exists rows, f x (advance (k * c) st)
                         = Returns rows (advance c (advance (k * c) st))
                         /\ frames !! k = Some rows)
       st.
Proof.
  intros Hf. induction xs as [|x tl IH]; intros st; simpl.
  - apply runs_ret. split; [constructor | intros k x H; discriminate].
  - destruct (Hf x st) as (rows0 & Hrun0 & Hlen0).
    eapply (runs_bind _ _ _ _ (fun rows => rows = rows0 )).
    { exists rows0. split; [exact Hrun0 | reflexivity]. }
    intros ? ->. cbv beta.
    eapply (runs_eq _ (length tl * c + 0)); [lia|].
    eapply runs_bind; [apply IH|]. intros frames [Hall Hblocks]. cbv beta.
    apply runs_ret. split; [now constructor|].
    intros [|k] x' Hx'; simpl in Hx'.
    + injection Hx' as <-. exists rows0. simpl. rewrite advance_0.
      split; [exact Hrun0 | reflexivity].
    + destruct (Hblocks k x' Hx') as (rows & Hrun & Hk).
      exists rows. rewrite advance_advance in Hrun.
      replace (S k * c)%nat with (c + k * c)%nat by lia.
      split; [exact Hrun | exact Hk].
Qed.

Lemma concat_block {B} (n : nat) (frames : list (list B)) : forall k rows,
  Forall (fun rows => length rows = n) frames ->
  frames !! k = Some rows ->
  take n (drop (k * n) (concat frames)) = rows.
Proof.
  induction frames as [|f0 tl IH]; intros k rows Hall Hk; [discriminate|].
  inversion Hall as [|? ? H0 Htl]; subst.
  destruct k as [|k]; simpl in *.
  - injection Hk as ->. now apply take_app_length'.
  - rewrite drop_app_add' by (now symmetry). apply IH; assumption.
Qed.

(** X7. Every instrument consumes the same number of draws: 1 + 6 N plus
    the number of event days, for a calendar of N days. So the rows of the
    k-th instrument of the panel are what the single-stock generator
    returns for its symbol from offset k times that number of the seed-42
    stream: they do not depend on the other symbols of the list. *)
Theorem instrument_block_independent (np_sqrt np_log : Q -> Q)
    (mt19937 : Z -> nat -> Q) (cfg : Config) (st : RandomState)
    (k : nat) (symbol : string) :
  stock_calendar cfg <> [] ->
  SP500_TOP_300_STOCKS cfg !! k = Some symbol ->
  let calendar := stock_calendar cfg in
  let offset := (k * draws_per_instrument calendar)%nat in
  exists rows st' block st'',
    _generate_full_scale_stock_data np_sqrt np_log mt19937 cfg st
      = Returns rows st' /\
    _generate_single_stock_data np_sqrt np_log symbol calendar
      {| entropy := mt19937 42; position := offset |} = Returns block st'' /\
    position st'' = (offset + draws_per_instrument calendar)%nat /\
    take (length calendar) (drop (k * length calendar) rows) = block.
Proof.
  intros Hc Hk calendar offset.
  pose (st0 := {| entropy := mt19937 42; position := 0 |}).
  pose proof (runs_for_each_blocks
                (fun symbol => _generate_single_stock_data np_sqrt np_log symbol calendar)
                (draws_per_instrument calendar) (length calendar)
                (SP500_TOP_300_STOCKS cfg)
                (fun x st' => runs_single_stock np_sqrt np_log x calendar st' Hc)
                st0) as (frames & Hrun & Hall & Hblocks).
  destruct (Hblocks k symbol Hk) as (block & Hblock & Hframe).
  exists (concat frames), (advance (length (SP500_TOP_300_STOCKS cfg)
                                   * draws_per_instrument calendar) st0),
         block, (advance (draws_per_instrument calendar) (advance offset st0)).
  split; [|split; [|split]].
  - unfold _generate_full_scale_stock_data, mbind, M_bind, seed.
    fold calendar. fold st0. rewrite Hrun. unfold pd_concat.
    destruct frames; [discriminate | reflexivity].
  - exact Hblock.
  - reflexivity.
  - eapply concat_block; eassumption.
Qed.

Lemma instrument_block_independent_witness :
  exists rows st' block st'',
    _generate_full_scale_stock_data Sample.sqrt Sample.log Sample.stream
      three_days (Sample.state_of []) = Returns rows st' /\
    _generate_single_stock_data Sample.sqrt Sample.log "JPM"
      (stock_calendar three_days)
      {| entropy := Sample.stream 42;
         position := (1 * draws_per_instrument (stock_calendar three_days))%nat |}
      = Returns block st'' /\
    position st''
      = (1 * draws_per_instrument (stock_calendar three_days)
         + draws_per_instrument (stock_calendar three_days))%nat /\
    take (length (stock_calendar three_days))
         (drop (1 * length (stock_calendar three_days)) rows) = block.
Proof.
  apply (instrument_block_independent Sample.sqrt Sample.log Sample.stream
           three_days (Sample.state_of []) 1 "JPM").
  - vm_compute. discriminate.
  - reflexivity.
Defined.

(** ** Averages stay within the range of their inputs *)

Lemma Qsum_between (lo hi : Q) (xs : list Q) :
  Forall (between lo hi) xs ->
  (inject_Z (Z.of_nat (length xs)) * lo <= Qsum xs
   /\ Qsum xs <= inject_Z (Z.of_nat (length xs)) * hi)%Q.
Proof.
  unfold Qsum. induction 1 as [|x tl [Hlo Hhi] _ IH].
  - cbn [length fold_right]. change (inject_Z (Z.of_nat 0)) with 0%Q. lra.
  - cbn [length fold_right]. rewrite Nat2Z.inj_succ. unfold Z.succ.
    rewrite inject_Z_plus. change (inject_Z 1) with 1%Q. lra.
Qed.

Lemma mean_between (lo hi : Q) (w : list Q) :
  w <> [] -> Forall (between lo hi) w -> between lo hi (mean w).
Proof.
  intros Hne Hall. pose proof (Qsum_between lo hi w Hall) as [H1 H2].
  assert (Hn : (0 < inject_Z (Z.of_nat (length w)))%Q).
  { change 0%Q with (inject_Z 0). rewrite <- Zlt_Qlt.
    destruct w; [congruence | simpl; lia]. }
  unfold mean, between. split.
  - apply Qle_shift_div_l; [exact Hn | lra].
  - apply Qle_shift_div_r; [exact Hn | lra].
Qed.

(** X8. A moving average has the length of its input; its first
    window - 1 entries are NaN, and every later entry is a number between
    the bounds of the input values. *)
Theorem moving_average_within_range (window : nat) (xs : list Q) (lo hi : Q) :
  (0 < window)%nat -> Forall (between lo hi) xs ->
  length (rolling_mean window xs) = length xs /\
  forall i v, rolling_mean window xs !! i = Some v ->
    if (S i <? window)%nat then v = NaN
    else exists m, v = Fin m /\ between lo hi m.
Proof.
  intros Hw Hall. split; [apply length_rolling|]. intros i v Hv.
  pose proof (lookup_lt_Some _ _ _ Hv) as Hi.
  unfold rolling_mean in *. rewrite length_rolling in Hi.
  rewrite lookup_rolling in Hv by exact Hi.
  destruct (S i <? window)%nat eqn:E; [congruence|].
  apply Nat.ltb_ge in E. injection Hv as <-. eexists. split; [reflexivity|].
  apply mean_between.
  - intros Hnil. apply (f_equal length) in Hnil.
    rewrite window_length in Hnil by lia. simpl in Hnil. lia.
  - apply Forall_take, Forall_drop, Hall.
Qed.

Lemma moving_average_within_range_witness :
  length (rolling_mean 5 rising_series) = length rising_series /\
  forall i v, rolling_mean 5 rising_series !! i = Some v ->
    if (S i <? 5)%nat then v = NaN
    else exists m, v = Fin m /\ between 100 119 m.
Proof.
  apply (moving_average_within_range 5 rising_series 100 119); [lia|].
  unfold rising_series. apply Forall_fmap, Forall_seq. intros j Hj.
  unfold between. change 100%Q with (inject_Z 100).
  change 119%Q with (inject_Z 119). unfold compose. rewrite <- !Zle_Qle. lia.
Defined.

(** ** Exponentially weighted means *)

Lemma ewm_from_between (lo hi alpha : Q) (xs : list Q) : forall num den,
  (0 < alpha /\ alpha <= 1)%Q ->
  (0 <= den)%Q -> (lo * den <= num /\ num <= hi * den)%Q ->
  Forall (between lo hi) xs ->
  Forall (between lo hi) (ewm_from alpha num den xs).
Proof.
  induction xs as [|x tl IH]; intros num den Ha Hden Hnum Hall; [constructor|].
  inversion Hall as [|? ? [Hx1 Hx2] Htl]; subst. simpl.
  set (b := (1 - alpha)%Q) in *.
  assert (Hb : (0 <= b)%Q) by (unfold b; lra).
  assert (Hbd : (0 <= b * den)%Q) by (apply Qmult_le_0_compat; assumption).
  assert (Hlo : (lo * (b * den) <= b * num)%Q).
  { assert (E : lo * (b * den) == b * (lo * den)) by ring. rewrite E.
    destruct Hnum as [Hn _]. revert Hb Hn. generalize (lo * den)%Q. clear.
    intros q Hb Hn. nra. }
  assert (Hhi : (b * num <= hi * (b * den))%Q).
  { assert (E : hi * (b * den) == b * (hi * den)) by ring. rewrite E.
    destruct Hnum as [_ Hn]. revert Hb Hn. generalize (hi * den)%Q. clear.
    intros q Hb Hn. nra. }
  constructor.
  - split.
    + apply Qle_shift_div_l; lra.
    + apply Qle_shift_div_r; lra.
  - apply IH; [exact Ha | lra | lra | exact Htl].
Qed.

Lemma length_ewm_from (alpha : Q) (xs : list Q) : forall num den,
  length (ewm_from alpha num den xs) = length xs.
Proof. induction xs; intros; simpl; [reflexivity | now rewrite IHxs]. Qed.

(** X9. For a span of at least 1 the exponentially weighted mean has the
    length of its input, and each of its values lies between the bounds of
    the input values. *)
Theorem ewm_mean_within_range (span : Z) (xs : list Q) (lo hi : Q) :
  1 <= span -> Forall (between lo hi) xs ->
  length (ewm_mean span xs) = length xs /\
  Forall (between lo hi) (ewm_mean span xs).
Proof.
  intros Hspan Hall. unfold ewm_mean. split; [apply length_ewm_from|].
  apply ewm_from_between; [| lra | lra | exact Hall].
  assert (Hs : (2 <= inject_Z span + 1)%Q).
  { change 2%Q with (inject_Z 1 + 1)%Q. apply Qplus_le_l.
    rewrite <- Zle_Qle. exact Hspan. }
  split.
  - apply Qlt_shift_div_l; lra.
  - apply Qle_shift_div_r; lra.
Qed.

Lemma ewm_mean_within_range_witness :
  length (ewm_mean 12 rising_series) = length rising_series /\
  Forall (between 100 119) (ewm_mean 12 rising_series).
Proof.
  apply (ewm_mean_within_range 12 rising_series 100 119); [lia|].
  unfold rising_series. apply Forall_fmap, Forall_seq. intros j Hj.
  unfold between. change 100%Q with (inject_Z 100).
  change 119%Q with (inject_Z 119). unfold compose. rewrite <- !Zle_Qle. lia.
Defined.

(** ** The range of the RSI *)

Lemma mean_nonneg (w : list Q) :
  Forall (fun x => (0 <= x)%Q) w -> (0 <= mean w)%Q.
Proof.
  intros H. pose proof (Qsum_nonneg w H) as Hs. unfold mean, Qdiv.
  apply Qmult_le_0_compat; [exact Hs|]. apply Qinv_le_0_compat.
  change 0%Q with (inject_Z 0). rewrite <- Zle_Qle. lia.
Qed.

Lemma loss_inputs_nonneg (delta : list (option Q)) :
  Forall (fun x => (0 <= x)%Q)
         (map (fun d => (- where_ (fun d => Qltb d 0) 0 d)%Q) delta).
Proof.
  apply Forall_lookup. intros i x Hx. rewrite list_lookup_fmap in Hx.
  destruct (delta !! i) as [d|]; [|discriminate].
  simpl in Hx. injection Hx as <-. destruct d as [q|]; simpl; [|lra].
  destruct (Qltb q 0) eqn:E; [|lra]. apply Qltb_true in E. lra.
Qed.

Lemma rsi_value_range (g l : Q) :
  (0 <= g)%Q -> (0 <= l)%Q ->
  rsi_value (Fin g) (Fin l) = NaN \/
  exists q, rsi_value (Fin g) (Fin l) = Fin q /\ between 0 100 q.
Proof.
  intros Hg Hl. destruct (Qis_zero l) eqn:El.
  - apply Qis_zero_true in El. rewrite (rsi_value_zero_loss g l El).
    destruct (Qis_zero g); [now left | right].
    exists 100%Q. split; [reflexivity | unfold between; lra].
  - right. assert (Hl' : (0 < l)%Q).
    { apply Qis_zero_false in El. destruct (Qlt_le_dec 0 l) as [H|H]; [exact H|].
      exfalso. apply El. lra. }
    assert (Hr : (0 <= g / l)%Q) by (apply Qle_shift_div_l; lra).
    unfold rsi_value. unfold fdiv at 2. rewrite El. cbn [fadd]. unfold fdiv.
    assert (Ez : Qis_zero (1 + g / l) = false) by (apply Qis_zero_false; lra).
    rewrite Ez. cbn [fsub fneg fadd].
    eexists. split; [reflexivity|].
    assert (H1 : (0 <= 100 / (1 + g / l))%Q) by (apply Qle_shift_div_l; lra).
    assert (H2 : (100 / (1 + g / l) <= 100)%Q) by (apply Qle_shift_div_r; lra).
    unfold between. lra.
Qed.

Lemma lookup_rsi_gain (prices : list Q) (window i : nat) :
  (i < length prices)%nat ->
  rsi_gain prices window !! i
  = Some (if (S i <? window)%nat then NaN
          else Fin (mean (take window (drop (S i - window)
                 (map (where_ (fun d => Qltb 0 d) 0%Q) (diff prices)))))).
Proof.
  intros Hi. unfold rsi_gain, rolling_mean.
  rewrite lookup_rolling by (now rewrite length_map, length_diff).
  reflexivity.
Qed.

Lemma lookup_rsi_loss (prices : list Q) (window i : nat) :
  (i < length prices)%nat ->
  rsi_loss prices window !! i
  = Some (if (S i <? window)%nat then NaN
          else Fin (mean (take window (drop (S i - window)
                 (map (fun d => (- where_ (fun d => Qltb d 0) 0 d)%Q)
                      (diff prices)))))).
Proof.
  intros Hi. unfold rsi_loss, rolling_mean.
  rewrite lookup_rolling by (now rewrite length_map, length_diff).
  reflexivity.
Qed.

Lemma length_calculate_rsi (prices : list Q) (window : nat) :
  length (_calculate_rsi prices window) = length prices.
Proof.
  unfold _calculate_rsi, rsi_gain, rsi_loss, rolling_mean.
  rewrite length_map, length_zip_with, !length_rolling, !length_map, length_diff.
  apply Nat.min_id.
Qed.

(** X10. The RSI column has the length of the price series; its first
    window - 1 entries are NaN, and every later entry is NaN or a number
    between 0 and 100. *)
Theorem rsi_between_0_and_100 (prices : list Q) (window : nat) :
  length (_calculate_rsi prices window) = length prices /\
  forall i v, _calculate_rsi prices window !! i = Some v ->
    if (S i <? window)%nat then v = NaN
    else v = NaN \/ exists q, v = Fin q /\ between 0 100 q.
Proof.
  split; [apply length_calculate_rsi|]. intros i v Hv.
  pose proof (lookup_lt_Some _ _ _ Hv) as Hi. rewrite length_calculate_rsi in Hi.
  rewrite (lookup_calculate_rsi prices window i _ _
             (lookup_rsi_gain prices window i Hi)
             (lookup_rsi_loss prices window i Hi)) in Hv.
  injection Hv as <-.
  destruct (S i <? window)%nat; [reflexivity|].
  destruct (rsi_value_range
              (mean (take window (drop (S i - window)
                 (map (where_ (fun d => Qltb 0 d) 0%Q) (diff prices)))))
              (mean (take window (drop (S i - window)
                 (map (fun d => (- where_ (fun d => Qltb d 0) 0 d)%Q)
                      (diff prices)))))) as [H|H].
  - apply mean_nonneg, Forall_take, Forall_drop, gain_inputs_nonneg.
  - apply mean_nonneg, Forall_take, Forall_drop, loss_inputs_nonneg.
  - now left.
  - now right.
Qed.

(** ** A falling series *)

Lemma gain_inputs_zero (prices : list Q) :
  decreasing prices ->
  Forall (fun x => x == 0)
    (map (where_ (fun d => Qltb 0 d) 0%Q) (diff prices)).
Proof.
  intros Hdec. apply Forall_lookup. intros i x Hx.
  rewrite list_lookup_fmap in Hx.
  destruct (diff prices !! i) as [d|] eqn:Hd; [|discriminate].
  simpl in Hx. injection Hx as <-.
  destruct d as [q|]; simpl; [|reflexivity].
  destruct (Qltb 0 q) eqn:E; [|reflexivity].
  exfalso. apply Qltb_true in E.
  destruct i as [|i].
  - destruct prices; discriminate.
  - pose proof (lookup_lt_Some _ _ _ Hd) as Hlen. rewrite length_diff in Hlen.
    destruct (lookup_lt_is_Some_2 prices i ltac:(lia)) as [a Ha].
    destruct (lookup_lt_is_Some_2 prices (S i) Hlen) as [b Hb].
    rewrite (lookup_diff_S prices i a b Ha Hb) in Hd. injection Hd as <-.
    pose proof (Hdec i a b Ha Hb). lra.
Qed.

(** X11. On a strictly decreasing price series the RSI is 0 at every row
    where the window (of at least 2 rows) is full. *)
Theorem rsi_of_falling_series (prices : list Q) (window i : nat) :
  decreasing prices -> (2 <= window)%nat ->
  (window <= S i)%nat -> (i < length prices)%nat ->
  exists q, _calculate_rsi prices window !! i = Some (Fin q) /\ q == 0.
Proof.
  intros Hdec Hw Hi Hlen.
  rewrite (lookup_calculate_rsi prices window i _ _
             (lookup_rsi_gain prices window i Hlen)
             (lookup_rsi_loss prices window i Hlen)).
  destruct (S i <? window)%nat eqn:E; [apply Nat.ltb_lt in E; lia|].
  set (g := mean _). set (l := mean _).
  assert (Hg : g == 0).
  { apply mean_zero, Forall_take, Forall_drop, gain_inputs_zero, Hdec. }
  assert (Hl : (0 < l)%Q).
  { destruct (lookup_lt_is_Some_2 prices (i - 1) ltac:(lia)) as [a Ha].
    destruct (lookup_lt_is_Some_2 prices i Hlen) as [b Hb].
    assert (Hab : (b < a)%Q).
    { apply (Hdec (i - 1)%nat); [exact Ha|].
      replace (S (i - 1)) with i by lia. exact Hb. }
    apply (mean_pos _ (window - 1) (- (b - a))%Q).
    - apply Forall_take, Forall_drop, loss_inputs_nonneg.
    - rewrite window_last by lia. rewrite list_lookup_fmap.
      replace i with (S (i - 1)) at 1 by lia.
      rewrite (lookup_diff_S prices (i - 1) a b Ha)
        by (replace (S (i - 1)) with i by lia; exact Hb).
      simpl. assert (E' : Qltb (b - a) 0 = true) by (apply Qltb_true; lra).
      rewrite E'. reflexivity.
    - lra. }
  unfold rsi_value. unfold fdiv at 2.
  assert (El : Qis_zero l = false) by (apply Qis_zero_false; lra).
  rewrite El. cbn [fadd]. unfold fdiv.
  assert (H1 : 1 + g / l == 1) by (rewrite Hg; unfold Qdiv; ring).
  assert (Ez : Qis_zero (1 + g / l) = false).
  { apply Qis_zero_false. rewrite H1. intros H. lra. }
  rewrite Ez. cbn [fsub fneg fadd]. eexists. split; [reflexivity|].
  rewrite H1. vm_compute. reflexivity.
Qed.

Lemma falling_series_decreasing : decreasing falling_series.
Proof.
  intros i a b Ha Hb. unfold falling_series in *.
  rewrite list_lookup_fmap in Ha, Hb.
  destruct (seq 0 20 !! i) as [k|] eqn:Ek; [|discriminate].
  destruct (seq 0 20 !! S i) as [k'|] eqn:Ek'; [|discriminate].
  apply lookup_seq in Ek, Ek'. simpl in Ha, Hb.
  injection Ha as <-. injection Hb as <-.
  rewrite <- Zlt_Qlt. lia.
Qed.

Lemma rsi_of_falling_series_witness :
  exists q, _calculate_rsi falling_series 14 !! 19%nat = Some (Fin q) /\ q == 0.
Proof.
  apply (rsi_of_falling_series falling_series 14 19).
  - exact falling_series_decreasing.
  - lia.
  - lia.
  - vm_compute. lia.
Defined.

(** ** The indicators of a row use no later row *)

Lemma rolling_take (window : nat) (stat : list Q -> fval) (xs : list Q) (n : nat) :
  rolling window stat (take n xs) = take n (rolling window stat xs).
Proof.
  apply list_eq. intros i.
  destruct (decide (i < n)%nat) as [Hn|Hn].
  2:{ rewrite lookup_take_ge by lia. apply lookup_ge_None.
      rewrite length_rolling, length_take. lia. }
  rewrite lookup_take_lt by exact Hn.
  destruct (decide (i < length xs)%nat) as [Hi|Hi].
  2:{ rewrite (proj2 (lookup_ge_None _ _)) by (rewrite length_rolling, length_take; lia).
      symmetry. apply lookup_ge_None. rewrite length_rolling. lia. }
  rewrite !lookup_rolling by (rewrite ?length_take; lia).
  destruct (S i <? window)%nat eqn:E; [reflexivity|].
  apply Nat.ltb_ge in E. do 2 f_equal.
  apply list_eq. intros j.
  destruct (decide (j < window)%nat) as [Hj|Hj].
  - rewrite !lookup_take_lt by exact Hj. rewrite !lookup_drop.
    apply lookup_take_lt. lia.
  - rewrite !lookup_take_ge by lia. reflexivity.
Qed.

Lemma zip_with_take_le {A B C} (f : A -> B -> C) (xs : list A) (ys : list B)
    (m n : nat) :
  (n <= m)%nat ->
  zip_with f (take m xs) (take n ys) = take n (zip_with f xs ys).
Proof.
  intros Hnm. apply list_eq. intros i. rewrite lookup_zip_with.
  destruct (decide (i < n)%nat) as [Hn|Hn].
  - rewrite !lookup_take_lt by lia. now rewrite lookup_zip_with.
  - rewrite (lookup_take_ge (zip_with f xs ys)) by lia.
    rewrite (lookup_take_ge ys) by lia.
    destruct (take m xs !! i); reflexivity.
Qed.

Lemma zip_with_take_both {A B C} (f : A -> B -> C) (xs : list A) (ys : list B)
    (n : nat) :
  zip_with f (take n xs) (take n ys) = take n (zip_with f xs ys).
Proof. now apply zip_with_take_le. Qed.

Lemma diff_take (xs : list Q) (n : nat) : diff (take n xs) = take n (diff xs).
Proof.
  destruct xs as [|x tl]; [destruct n; reflexivity|].
  destruct n as [|n]; [reflexivity|].
  change (diff (take (S n) (x :: tl)))
    with (None :: zip_with (fun prev cur => Some (cur - prev)%Q)
                    (take (S n) (x :: tl)) (take n tl)).
  rewrite zip_with_take_le by lia. reflexivity.
Qed.

Lemma calculate_rsi_take (prices : list Q) (window n : nat) :
  _calculate_rsi (take n prices) window = take n (_calculate_rsi prices window).
Proof.
  unfold _calculate_rsi, rsi_gain, rsi_loss, rolling_mean.
  rewrite diff_take, <- !firstn_map, !rolling_take, zip_with_take_both.
  symmetry. apply firstn_map.
Qed.

Lemma pct_change_take (k : nat) (xs : list Q) (n : nat) :
  pct_change k (take n xs) = take n (pct_change k xs).
Proof.
  apply list_eq. intros i. unfold pct_change.
  destruct (decide (i < n)%nat) as [Hn|Hn].
  2:{ rewrite lookup_take_ge by lia. apply lookup_ge_None.
      rewrite length_map, length_seq, length_take. lia. }
  rewrite lookup_take_lt by exact Hn. rewrite !list_lookup_fmap.
  destruct (decide (i < length xs)%nat) as [Hi|Hi].
  - rewrite !lookup_seq_lt by (rewrite ?length_take; lia). simpl.
    rewrite !lookup_take_lt by lia. reflexivity.
  - rewrite !lookup_seq_ge by (rewrite ?length_take; lia). reflexivity.
Qed.

Lemma ewm_from_take (alpha : Q) (xs : list Q) : forall num den n,
  ewm_from alpha num den (take n xs) = take n (ewm_from alpha num den xs).
Proof.
  induction xs as [|x tl IH]; intros num den [|n]; simpl; try reflexivity.
  now rewrite IH.
Qed.

Lemma ewm_mean_take (span : Z) (xs : list Q) (n : nat) :
  ewm_mean span (take n xs) = take n (ewm_mean span xs).
Proof. apply ewm_from_take. Qed.

Lemma at_take (col : list fval) (n i : nat) :
  (i < n)%nat -> at_ (take n col) i = at_ col i.
Proof. intros Hi. unfold at_. now rewrite lookup_take_lt. Qed.

Lemma Sorted_take_dates (records : list StockRecord) (n : nat) :
  Sorted Z.lt (map Date records) -> Sorted Z.lt (map Date (take n records)).
Proof.
  intros H. rewrite <- firstn_map. apply StronglySorted_Sorted, StronglySorted_take.
  apply Sorted_StronglySorted; [|exact H]. intros x y z. lia.
Qed.

(** X12. The indicators of a row use no later row: on a frame whose dates
    increase, the result for the first n records is the first n rows of the
    result for the whole frame. *)
Theorem indicators_ignore_later_rows (np_sqrt : Q -> Q)
    (records : list StockRecord) (n : nat) (st st' : RandomState)
    (rows : list PanelRow) :
  Sorted Z.lt (map Date records) -> (0 < n)%nat ->
  _calculate_technical_indicators np_sqrt records st = Returns rows st' ->
  _calculate_technical_indicators np_sqrt (take n records) st
    = Returns (take n rows) st.
Proof.
  intros Hs Hn Hrun. unfold _calculate_technical_indicators in *.
  destruct records as [|r0 tl] eqn:Er; [discriminate|]. rewrite <- Er in *.
  destruct (take n records) as [|p0 ptl] eqn:Ep.
  { destruct n; [lia|]. subst records. discriminate. }
  rewrite <- Ep. clear Ep p0 ptl.
  rewrite (sort_values_Date_sorted (take n records))
    by (now apply Sorted_take_dates).
  rewrite (sort_values_Date_sorted records Hs) in Hrun.
  unfold mret, M_ret in *. injection Hrun as <- _. f_equal.
  apply list_eq. intros i.
  destruct (decide (i < n)%nat) as [Hi|Hi].
  2:{ rewrite lookup_take_ge by lia. apply lookup_ge_None.
      rewrite length_imap, length_take. lia. }
  rewrite lookup_take_lt by exact Hi. rewrite !list_lookup_imap.
  rewrite lookup_take_lt by exact Hi.
  destruct (records !! i) as [r|]; [|reflexivity]. simpl.
  unfold rolling_mean, rolling_std.
  repeat first
    [ rewrite <- firstn_map | rewrite rolling_take | rewrite calculate_rsi_take
    | rewrite ewm_mean_take | rewrite pct_change_take
    | rewrite zip_with_take_both ].
  rewrite !at_take by exact Hi. reflexivity.
Qed.

Lemma indicators_ignore_later_rows_witness :
  exists rows,
    _calculate_technical_indicators Sample.sqrt toy_records (Sample.state_of [])
      = Returns rows (Sample.state_of []) /\
    _calculate_technical_indicators Sample.sqrt (take 2 toy_records)
      (Sample.state_of []) = Returns (take 2 rows) (Sample.state_of []).
Proof.
  eexists. split; [reflexivity|].
  eapply indicators_ignore_later_rows; [|lia|reflexivity].
  repeat constructor.
Defined.

(** ** Sorting keeps every record *)

Lemma insert_by_date_perm (r : StockRecord) (rows : list StockRecord) :
  insert_by_date r rows ≡ₚ r :: rows.
Proof.
  induction rows as [|x tl IH]; [reflexivity|]. simpl.
  destruct (_ <=? _); [reflexivity|]. rewrite IH. apply Permutation_swap.
Qed.

Lemma sort_values_Date_perm (rows : list StockRecord) :
  sort_values_Date rows ≡ₚ rows.
Proof.
  unfold sort_values_Date. induction rows as [|r tl IH]; [reflexivity|].
  simpl. rewrite insert_by_date_perm. now rewrite IH.
Qed.

Lemma insert_by_date_sorted (r : StockRecord) (rows : list StockRecord) :
  Sorted Z.le (map Date rows) -> Sorted Z.le (map Date (insert_by_date r rows)).
Proof.
  induction rows as [|x tl IH]; intros Hs; simpl.
  - repeat constructor.
  - destruct (Date r <=? Date x) eqn:E.
    + apply Z.leb_le in E. simpl. constructor; [exact Hs | now constructor].
    + apply Z.leb_gt in E. simpl in *. inversion Hs as [|? ? Htl Hhd]; subst.
      constructor; [now apply IH|].
      destruct tl as [|y tl']; simpl.
      * constructor. lia.
      * destruct (Date r <=? Date y); simpl; constructor; [lia|].
        inversion Hhd; subst. assumption.
Qed.

Lemma sort_values_Date_ordered (rows : list StockRecord) :
  Sorted Z.le (map Date (sort_values_Date rows)).
Proof.
  unfold sort_values_Date. induction rows as [|r tl IH]; simpl.
  - constructor.
  - now apply insert_by_date_sorted.
Qed.

Lemma imap_record (f : nat -> StockRecord -> PanelRow) (rows : list StockRecord) :
  (forall i r, record (f i r) = r) -> map record (imap f rows) = rows.
Proof.
  intros Hf. apply list_eq. intros i.
  rewrite list_lookup_fmap, list_lookup_imap.
  destruct (rows !! i); simpl; [now rewrite Hf | reflexivity].
Qed.

(** X13. On a non-empty frame the indicator step returns without
    consuming a draw; its rows carry the input records unchanged, each
    once, in non-decreasing date order. *)
Theorem indicators_keep_every_record (np_sqrt : Q -> Q)
    (records : list StockRecord) (st : RandomState) :
  records <> [] ->
  exists rows,
    _calculate_technical_indicators np_sqrt records st = Returns rows st /\
    map record rows ≡ₚ records /\
    Sorted Z.le (map (fun row => Date (record row)) rows).
Proof.
  intros Hne. unfold _calculate_technical_indicators.
  destruct records as [|r0 tl] eqn:E; [congruence|]. rewrite <- E. clear E Hne.
  eexists. split; [reflexivity|].
  rewrite <- (map_map record Date), imap_record by reflexivity. split.
  - apply sort_values_Date_perm.
  - apply sort_values_Date_ordered.
Qed.

Lemma indicators_keep_every_record_witness :
  exists rows,
    _calculate_technical_indicators Sample.sqrt (reverse toy_records)
      (Sample.state_of []) = Returns rows (Sample.state_of []) /\
    map record rows ≡ₚ reverse toy_records /\
    Sorted Z.le (map (fun row => Date (record row)) rows).
Proof.
  apply (indicators_keep_every_record Sample.sqrt (reverse toy_records)).
  discriminate.
Defined.

(** ** Macro indicators in the event windows *)

Lemma py_min_le_l (a b : Q) : (py_min a b <= a)%Q.
Proof.
  unfold py_min. destruct (Qltb b a) eqn:E; [|lra]. apply Qltb_true in E. lra.
Qed.

Lemma py_max_ge_l (a b : Q) : (a <= py_max a b)%Q.
Proof.
  unfold py_max. destruct (Qltb a b) eqn:E; [|lra]. apply Qltb_true in E. lra.
Qed.

Lemma np_clip_le (v lo hi c : Q) : (v <= c)%Q -> (lo <= c)%Q -> (np_clip v lo hi <= c)%Q.
Proof.
  intros Hv Hlo. unfold np_clip.
  eapply Qle_trans; [apply Q.le_min_l|]. now apply Q.max_lub.
Qed.

Lemma np_clip_ge (v lo hi c : Q) : (c <= v)%Q -> (c <= hi)%Q -> (c <= np_clip v lo hi)%Q.
Proof.
  intros Hv Hhi. unfold np_clip. apply Q.min_glb; [|exact Hhi].
  eapply Qle_trans; [exact Hv | apply Q.le_max_l].
Qed.

(** An assignment to one key: the new value of the key, the others kept. *)
Lemma wp_update_exact (values : gmap string Q) (key : string) (f : Q -> Q) st :
  has_indicators values -> key ∈ MACRO_INDICATORS ->
  wp (update_item values key f)
     (fun m _ =>
        has_indicators m /\
        (exists v, values !! key = Some v /\ m !! key = Some (f v)) /\
        forall name, name <> key -> m !! name = values !! name) st.
Proof.
  intros H Hkey. destruct (H key Hkey) as [v Hv].
  eapply wp_update_item; [exact Hv|]. split; [|split].
  - now apply has_indicators_insert.
  - exists v. split; [exact Hv | apply lookup_insert_eq].
  - intros name Hne. apply lookup_insert_ne. congruence.
Qed.

Ltac exact_step m H V K :=
  apply wp_bind; eapply wp_mono;
  [| apply wp_update_exact; [assumption | indicator_mem]];
  let st := fresh "st" in
  intros m st (H & V & K); cbv beta.

Lemma wp_update_macro_caps (np_exp : Q -> Q) (values : gmap string Q)
    (date : Z) (index : nat) st :
  has_indicators values ->
  wp (_update_macro_values np_exp values date index)
     (fun m _ => has_indicators m /\ event_caps date m) st.
Proof.
  intros H. unfold _update_macro_values.
  apply wp_bind. eapply wp_mono;
    [| apply wp_add_shocks; [apply macro_indicators_have_volatility | exact H]].
  intros m0 st0 H0. cbv beta.
  (* first window *)
  apply wp_bind.
  apply (wp_mono _ (fun m _ =>
           has_indicators m /\
           (in_window (ymd 2020 3 1) (ymd 2020 12 31) date = true ->
              at_least m "Federal_Funds_Rate" (1 # 10)))).
  2:{ destruct (in_window (ymd 2020 3 1) (ymd 2020 12 31) date).
      - exact_step a1 Ha1 V1 K1. exact_step a2 Ha2 V2 K2.
        exact_step a3 Ha3 V3 K3.
        eapply wp_mono; [| apply wp_update_exact; [assumption | indicator_mem]].
        intros a4 ? (Ha4 & (v & _ & V4) & K4).
        split; [exact Ha4|]. intros _. eexists. split; [exact V4|].
        apply py_max_ge_l.
      - apply wp_ret. split; [exact H0 | discriminate]. }
  intros m1 st1 [H1 C1]. cbv beta.
  (* second window *)
  apply wp_bind.
  apply (wp_mono _ (fun m _ =>
           has_indicators m /\
           (in_window (ymd 2020 3 1) (ymd 2020 12 31) date = true ->
              at_least m "Federal_Funds_Rate" (1 # 10)) /\
           (in_window (ymd 2022 1 1) (ymd 2023 12 31) date = true ->
              at_most m "Inflation_Rate" 9 /\
              at_most m "Federal_Funds_Rate" (55 # 10) /\
              at_most m "Ten_Year_Treasury" 5))).
  2:{ destruct (in_window (ymd 2022 1 1) (ymd 2023 12 31) date) eqn:E2.
      - exact_step b1 Hb1 W1 L1. exact_step b2 Hb2 W2 L2.
        eapply wp_mono; [| apply wp_update_exact; [assumption | indicator_mem]].
        intros b3 ? (Hb3 & W3 & L3).
        split; [exact Hb3|]. split.
        + intros E1. exfalso. revert E1 E2. unfold in_window.
          rewrite !andb_true_iff, !Z.leb_le.
          change (to_ordinal (ymd 2020 12 31)) with 18627.
          change (to_ordinal (ymd 2022 1 1)) with 18993. lia.
        + intros _. destruct W1 as (v1 & _ & W1), W2 as (v2 & _ & W2),
            W3 as (v3 & _ & W3).
          split; [|split].
          * eexists. split; [|apply py_min_le_l].
            rewrite L3, L2 by discriminate. exact W1.
          * eexists. split; [|apply py_min_le_l].
            rewrite L3 by discriminate. exact W2.
          * eexists. split; [exact W3 | apply py_min_le_l].
      - apply wp_ret. split; [exact H1|]. split; [exact C1 | discriminate]. }
  intros m2 st2 (H2 & C2 & D2). cbv beta.
  exact_step c1 Hc1 X1 M1. exact_step c2 Hc2 X2 M2. exact_step c3 Hc3 X3 M3.
  exact_step c4 Hc4 X4 M4. exact_step c5 Hc5 X5 M5. exact_step c6 Hc6 X6 M6.
  exact_step c7 Hc7 X7 M7. exact_step c8 Hc8 X8 M8.
  apply wp_ret. split; [exact Hc8|].
  destruct X2 as (x2 & X2 & X2'), X4 as (x4 & X4 & X4'), X8 as (x8 & X8 & X8').
  rewrite M1 in X2 by discriminate.
  rewrite M3, M2, M1 in X4 by discriminate.
  rewrite M7, M6, M5, M4, M3, M2, M1 in X8 by discriminate.
  split.
  - intros E. destruct (C2 E) as (v & Hv & Hle).
    exists (np_clip x4 0 6). split.
    + rewrite M8, M7, M6, M5 by discriminate. exact X4'.
    + rewrite Hv in X4. injection X4 as <-. apply np_clip_ge; lra.
  - intros E. destruct (D2 E) as ((v1 & Hv1 & Hle1) & (v2 & Hv2 & Hle2)
                                  & (v3 & Hv3 & Hle3)).
    split; [|split].
    + exists (np_clip x2 (-1) 10). split.
      * rewrite M8, M7, M6, M5, M4, M3 by discriminate. exact X2'.
      * rewrite Hv1 in X2. injection X2 as <-. apply np_clip_le; lra.
    + exists (np_clip x4 0 6). split.
      * rewrite M8, M7, M6, M5 by discriminate. exact X4'.
      * rewrite Hv2 in X4. injection X4 as <-. apply np_clip_le; lra.
    + exists (np_clip x8 (5 # 10) 6). split; [exact X8'|].
      rewrite Hv3 in X8. injection X8 as <-. apply np_clip_le; lra.
Qed.

Lemma wp_macro_loop_dates (np_exp : Q -> Q) (P : Z -> gmap string Q -> Prop) :
  (forall values date i st, has_indicators values ->
     wp (_update_macro_values np_exp values date i)
        (fun m _ => has_indicators m /\ P date m) st) ->
  forall date_range values i st,
  has_indicators values ->
  wp (macro_loop np_exp values i date_range)
     (fun records _ => Forall (fun rec => P (fst rec) (snd rec)) records) st.
Proof.
  intros Hstep. induction date_range as [|d tl IH]; intros values i st H; simpl.
  - apply wp_ret. constructor.
  - apply wp_bind. eapply wp_mono; [|apply Hstep, H].
    intros m st1 [Hm Hb]. cbv beta.
    apply wp_bind. eapply wp_mono; [|apply IH, Hm].
    intros rest st2 Hall. cbv beta. apply wp_ret. now constructor.
Qed.

(** X14. In every monthly record dated March to December 2020 the federal
    funds rate is at least 0.1, and in every record dated 2022 or 2023 the
    inflation rate is at most 9, the federal funds rate at most 5.5 and the
    ten-year yield at most 5. *)
Theorem macro_event_window_caps (np_exp : Q -> Q) (mt19937 : Z -> nat -> Q)
    (cfg : Config) (st : RandomState) :
  exists records st',
    collect_macro_economic_data np_exp mt19937 cfg st = Returns records st' /\
    Forall (fun rec => event_caps (fst rec) (snd rec)) records.
Proof.
  apply wp_returns. unfold collect_macro_economic_data.
  apply wp_bind. unfold wp at 1, seed.
  apply (wp_macro_loop_dates np_exp event_caps).
  - intros. now apply wp_update_macro_caps.
  - apply initial_macro_values_complete.
Qed.

(** ** Fundamentals *)

Lemma runs_fill_indicators (sector_multiplier : gmap string Q)
    (indicators : list string) : forall record st,
  runs (fill_indicators sector_multiplier indicators record)
       (length indicators)
       (fun values =>
          forall key,
            match values !! key with
            | Some v => (key ∈ indicators /\ (1 # 100 <= v)%Q)
                        \/ ((key ∉ indicators) /\ record !! key = Some v)
            | None => (key ∉ indicators) /\ record !! key = None
            end) st.
Proof.
  induction indicators as [|indicator tl IH]; intros record st.
  - apply runs_ret. intros key. destruct (record !! key) eqn:E.
    + right. split; [apply not_elem_of_nil | reflexivity].
    + split; [apply not_elem_of_nil | reflexivity].
  - cbn [fill_indicators length]. cbv zeta.
    apply (runs_bind _ _ 1 (length tl) (fun _ => True)).
    { eapply runs_mono; [|apply runs_normal]. auto. }
    intros noise _. cbv beta.
    eapply runs_mono; [|apply IH]. cbv beta. intros values Hv key.
    specialize (Hv key). destruct (values !! key) as [v|].
    + destruct Hv as [[Hin Hle]|[Hnin Hrec]].
      * left. split; [now right | exact Hle].
      * destruct (decide (key = indicator)) as [->|Hne].
        -- rewrite lookup_insert_eq in Hrec. injection Hrec as <-.
           left. split; [now left|]. unfold py_max.
           destruct (Qltb _ _) eqn:E; [apply Qltb_true in E|]; lra.
        -- rewrite lookup_insert_ne in Hrec by congruence.
           right. split; [|exact Hrec].
           rewrite not_elem_of_cons. tauto.
    + destruct Hv as [Hnin Hrec].
      destruct (decide (key = indicator)) as [->|Hne].
      * rewrite lookup_insert_eq in Hrec. discriminate.
      * rewrite lookup_insert_ne in Hrec by congruence.
        split; [|exact Hrec]. rewrite not_elem_of_cons. tauto.
Qed.

Lemma runs_fundamental_record (quarter : Quarter) (symbol : string) st :
  runs (fundamental_record quarter symbol) 15
       (fun r => fundamental_Date r = quarter_date quarter /\
                 fundamental_Symbol r = symbol /\
                 fundamental_Quarter r
                   = pretty (quarter_year quarter) +:+ "Q"
                       +:+ pretty (quarter_number quarter) /\
                 floored (fundamental_values r)) st.
Proof.
  unfold fundamental_record. cbv zeta.
  eapply (runs_bind _ _ 15 0).
  { apply (runs_fill_indicators _ FUNDAMENTAL_INDICATORS ∅). }
  intros values Hv. cbv beta. apply runs_ret. cbn.
  split; [reflexivity|]. split; [reflexivity|]. split; [reflexivity|].
  intros key. specialize (Hv key). destruct (values !! key) as [v|].
  - destruct Hv as [H|[_ H]]; [exact H|]. rewrite lookup_empty in H. discriminate.
  - tauto.
Qed.

Lemma runs_for_each {A B} (f : A -> M B) (c : nat) (R : A -> B -> Prop)
    (xs : list A) :
  (forall x st', runs (f x) c (R x) st') ->
  forall st, runs (for_each f xs) (length xs * c) (Forall2 R xs) st.
Proof.
  intros Hf. induction xs as [|x tl IH]; intros st; simpl.
  - apply runs_ret. constructor.
  - eapply runs_bind; [apply Hf|]. intros y Hy. cbv beta.
    eapply (runs_eq _ (length tl * c + 0)); [lia|].
    eapply runs_bind; [apply IH|]. intros ys Hys. cbv beta.
    apply runs_ret. now constructor.
Qed.

Lemma Forall2_concat_prod {A B C} (R : A -> B -> C -> Prop) (xs : list A)
    (ys : list B) (frames : list (list C)) :
  Forall2 (fun x frame => Forall2 (R x) ys frame) xs frames ->
  Forall2 (fun p c => R (fst p) (snd p) c) (list_prod xs ys) (concat frames).
Proof.
  induction 1 as [|x frame xs frames Hf _ IH]; simpl; [constructor|].
  apply Forall2_app; [|exact IH].
  clear -Hf. induction Hf; simpl; constructor; assumption.
Qed.

(** X15. For every configuration [collect_fundamental_data] returns one
    record per quarter end and symbol, quarter by quarter in the order of
    the symbol list. A record carries the date of the quarter end, the
    symbol, the label <year>Q<quarter> and exactly the fifteen indicators,
    each of them at least 0.01; fifteen draws are consumed per record. *)
Theorem fundamentals_complete_and_floored (mt19937 : Z -> nat -> Q)
    (cfg : Config) (st : RandomState) :
  let quarters := quarter_end_range (START_DATE cfg) (END_DATE cfg) in
  let symbols := SP500_TOP_300_STOCKS cfg in
  exists records st',
    collect_fundamental_data mt19937 cfg st = Returns records st' /\
    position st' = (length quarters * (length symbols * 15))%nat /\
    Forall2 (fun p r =>
               fundamental_Date r = quarter_date (fst p) /\
               fundamental_Symbol r = snd p /\
               fundamental_Quarter r
                 = pretty (quarter_year (fst p)) +:+ "Q"
                     +:+ pretty (quarter_number (fst p)) /\
               floored (fundamental_values r))
            (list_prod quarters symbols) records.
Proof.
  intros quarters symbols.
  pose (st0 := {| entropy := mt19937 42; position := 0 |}).
  pose proof (runs_for_each
    (fun quarter => for_each (fundamental_record quarter) symbols)
    (length symbols * 15)
    (fun quarter frame =>
       Forall2 (fun symbol r =>
                  fundamental_Date r = quarter_date quarter /\
                  fundamental_Symbol r = symbol /\
                  fundamental_Quarter r
                    = pretty (quarter_year quarter) +:+ "Q"
                        +:+ pretty (quarter_number quarter) /\
                  floored (fundamental_values r)) symbols frame)
    quarters
    (fun quarter st' =>
       runs_for_each (fundamental_record quarter) 15 _ symbols
         (fun symbol st'' => runs_fundamental_record quarter symbol st'') st')
    st0) as (frames & Hrun & Hall).
  eexists (concat frames), _. split; [|split].
  - unfold collect_fundamental_data, mbind, M_bind, seed. fold quarters symbols st0.
    rewrite Hrun. reflexivity.
  - reflexivity.
  - apply (Forall2_concat_prod
             (fun quarter symbol r =>
                fundamental_Date r = quarter_date quarter /\
                fundamental_Symbol r = symbol /\
                fundamental_Quarter r
                  = pretty (quarter_year quarter) +:+ "Q"
                      +:+ pretty (quarter_number quarter) /\
                floored (fundamental_values r))).
    exact Hall.
Qed.

Example shipped_quarters :
  length (quarter_end_range (START_DATE shipped) (END_DATE shipped)) = 40%nat
  /\ (quarter_end_range (START_DATE shipped) (END_DATE shipped)) !! 0%nat
     = Some {| quarter_date := to_ordinal (ymd 2015 3 31);
               quarter_year := 2015; quarter_number := 1 |}.
Proof. split; vm_compute; reflexivity. Qed.

(** ** The news corpus *)

Lemma templates_mention_company_true : templates_mention_company = true.
Proof. vm_compute. reflexivity. Qed.

Lemma forallb_elem_of {A} (f : A -> bool) (xs : list A) (x : A) :
  forallb f xs = true -> x ∈ xs -> f x = true.
Proof.
  intros H Hx. rewrite forallb_forall in H. apply H. now apply list_elem_of_In.
Qed.

Lemma template_mentions (cat : string) (templates : list Template)
    (template : Template) (company : string) :
  (cat, templates) ∈ _get_comprehensive_news_templates ->
  template ∈ templates -> company ∈ _get_news_companies ->
  contains company (format_company 0 company (t_title template)) = true /\
  contains company (format_company 0 company (t_description template)) = true.
Proof.
  intros Hc Ht Hco. pose proof templates_mention_company_true as H.
  unfold templates_mention_company in H.
  pose proof (forallb_elem_of _ _ _ H Hc) as H1. cbv beta in H1.
  pose proof (forallb_elem_of _ _ _ H1 Ht) as H2. cbv beta in H2.
  pose proof (forallb_elem_of _ _ _ H2 Hco) as H3. cbv beta in H3.
  now apply andb_true_iff in H3.
Qed.

Lemma wp_dict_get_library (template_category : string) Q st :
  template_category ∈ map fst _get_comprehensive_news_templates ->
  (forall templates st',
     templates <> [] ->
     (template_category, templates) ∈ _get_comprehensive_news_templates ->
     Q templates st') ->
  wp (dict_get _get_comprehensive_news_templates template_category) Q st.
Proof.
  intros Hin H. destruct (templates_of_category _ Hin) as (ts & Hfind & Hne).
  unfold dict_get. rewrite Hfind. apply wp_ret. cbn [snd]. apply H; [exact Hne|].
  apply List.find_some in Hfind. destruct Hfind as [Hmem _].
  now apply list_elem_of_In.
Qed.

Lemma wp_daily_article_spec (o : Z) (total_generated : nat) st :
  wp (daily_article _get_comprehensive_news_templates _get_news_companies
        _get_news_sources (PdTimestamp o) total_generated)
     (fun r _ => article_of_day o r /\
                 url r = ("https://example.com/news/"
                          +:+ pretty total_generated)%string) st.
Proof.
  unfold daily_article.
  apply wp_bind, wp_choice; [discriminate|]. intros cat st1 Hcat. cbv beta.
  apply wp_bind, wp_dict_get_library; [exact Hcat|].
  intros ts st2 Hts Hlib. cbv beta.
  apply wp_bind, wp_choice; [exact Hts|]. intros t st3 Ht. cbv beta.
  apply wp_bind, wp_choice; [discriminate|]. intros c st4 Hc. cbv beta.
  apply wp_bind, wp_choice; [discriminate|]. intros s st5 Hs. cbv beta.
  apply wp_bind, wp_randint; [lia|]. intros h st6 Hh. cbv beta.
  apply wp_bind, wp_randint; [lia|]. intros mi st7 Hmi. cbv beta.
  apply wp_bind, wp_ret. apply wp_ret.
  destruct (template_mentions cat ts t c Hlib Ht Hc) as [M1 M2].
  unfold article_of_day, add_timedelta. cbn.
  split; [|reflexivity].
  split; [reflexivity|]. split; [lia|]. split; [exact Hc|]. split; [exact Hs|].
  split; [exists ts, t; tauto|]. tauto.
Qed.

Lemma wp_daily_articles_spec (o : Z) (daily_count : nat) :
  forall news_data total_generated st,
  wp (daily_articles _get_comprehensive_news_templates _get_news_companies
        _get_news_sources (PdTimestamp o) daily_count news_data total_generated)
     (fun res _ => exists block,
        fst res = news_data ++ block /\
        snd res = (total_generated + daily_count)%nat /\
        length block = daily_count /\
        Forall (article_of_day o) block /\
        numbered total_generated block) st.
Proof.
  induction daily_count as [|k IH]; intros news_data total_generated st.
  - apply wp_ret. exists []. cbn [fst snd]. rewrite app_nil_r, Nat.add_0_r.
    split; [reflexivity|]. split; [reflexivity|]. split; [reflexivity|].
    split; [constructor|]. intros j r Hj. discriminate.
  - cbn [daily_articles]. apply wp_bind. eapply wp_mono; [|apply wp_daily_article_spec].
    intros r st1 [Hr Hurl]. cbv beta. eapply wp_mono; [|apply IH].
    intros [news n] st2 (block & Hnews & Hn & Hlen & Hall & Hnum).
    cbn [fst snd] in *. exists (r :: block).
    split; [rewrite Hnews, <- app_assoc; reflexivity|].
    split; [lia|]. split; [simpl; lia|]. split; [now constructor|].
    intros [|j] r' Hj; simpl in Hj.
    + injection Hj as <-. now rewrite Nat.add_0_r.
    + rewrite (Hnum j r' Hj). do 2 f_equal. lia.
Qed.

Lemma wp_daily_loop_spec (daily_news_count : Q) (business_days : list Z) :
  (0 <= daily_news_count)%Q ->
  forall news_data total_generated st,
  wp (daily_loop daily_news_count _get_comprehensive_news_templates
        _get_news_companies _get_news_sources business_days
        news_data total_generated)
     (fun res _ => exists blocks,
        fst res = news_data ++ concat blocks /\
        Forall2 (fun d block => block <> [] /\ Forall (article_of_day d) block)
                business_days blocks /\
        numbered total_generated (concat blocks)) st.
Proof.
  intros Hlam. induction business_days as [|d tl IH];
    intros news_data total_generated st.
  - apply wp_ret. exists []. cbn [fst concat]. rewrite app_nil_r.
    split; [reflexivity|]. split; [constructor|]. intros j r Hj. discriminate.
  - cbn [daily_loop]. apply wp_bind, wp_poisson; [exact Hlam|]. intros k st1.
    cbv beta zeta.
    apply wp_bind. eapply wp_mono; [|apply wp_daily_articles_spec].
    intros [news n] st2 (block & Hnews & Hn & Hlen & Hall & Hnum).
    cbn [fst snd] in *. subst news n. eapply wp_mono; [|apply IH].
    intros [news' n'] st3 (blocks & Hnews' & Hblocks & Hnum').
    cbn [fst] in *. exists (block :: blocks). cbn [concat].
    split; [rewrite Hnews', <- app_assoc; reflexivity|]. split.
    + constructor; [|exact Hblocks]. split; [|exact Hall].
      intros ->. simpl in Hlen. lia.
    + intros j r Hj. destruct (decide (j < length block)%nat) as [Hlt|Hge].
      * rewrite lookup_app_l in Hj by exact Hlt. now apply Hnum.
      * rewrite lookup_app_r in Hj by lia.
        rewrite (Hnum' _ r Hj). do 2 f_equal. lia.
Qed.

(** X16. With a non-negative target and a non-empty calendar the daily
    loop returns a corpus made of one non-empty block of articles per
    trading day, in calendar order. An article of a day's block is dated
    that day and published between 06:00 and 21:59 of it; its company and
    source come from the two lists, its title, description and sentiment
    hint from a template of its category, and title and description
    mention the company. The URLs number the articles from 0. *)
Theorem daily_news_structure (mt19937 : Z -> nat -> Q) (cfg : Config)
    (st : RandomState) :
  0 <= EXPECTED_NEWS_COUNT cfg -> news_calendar cfg <> [] ->
  exists news st' blocks,
    generate_daily_news mt19937 cfg st = Returns news st' /\
    news = concat blocks /\
    Forall2 (fun d block => block <> [] /\ Forall (article_of_day d) block)
            (news_calendar cfg) blocks /\
    numbered 0 news.
Proof.
  intros HT Hcal.
  assert (H : wp (generate_daily_news mt19937 cfg)
                (fun news _ => exists blocks,
                   news = concat blocks /\
                   Forall2 (fun d block =>
                              block <> [] /\ Forall (article_of_day d) block)
                           (news_calendar cfg) blocks /\
                   numbered 0 news) st).
  { unfold generate_daily_news.
    destruct (news_calendar cfg) as [|d0 tl] eqn:E; [congruence|].
    apply wp_bind, wp_ret. cbv beta. apply wp_bind. unfold wp at 1, seed.
    cbv beta iota.
    apply wp_bind. eapply wp_mono; [|apply wp_daily_loop_spec].
    - intros [news n] st1 (blocks & Hnews & Hblocks & Hnum).
      cbn [fst app] in Hnews. apply wp_ret. exists blocks. subst news.
      split; [reflexivity|]. split; assumption.
    - apply Qle_shift_div_l.
      + change 0%Q with (inject_Z 0). rewrite <- Zlt_Qlt. cbn [length]. lia.
      + unfold Qle, Qmult, inject_Z. simpl. lia. }
  apply wp_returns in H. destruct H as (news & st' & Hrun & blocks & H).
  exists news, st', blocks. tauto.
Qed.

Lemma daily_news_structure_witness :
  exists news st' blocks,
    generate_daily_news Sample.stream three_days (Sample.state_of [])
      = Returns news st' /\
    news = concat blocks /\
    Forall2 (fun d block => block <> [] /\ Forall (article_of_day d) block)
            (news_calendar three_days) blocks /\
    numbered 0 news.
Proof.
  apply (daily_news_structure Sample.stream three_days (Sample.state_of []));
    vm_compute; discriminate.
Defined.

(** *** Sampling without replacement *)

Lemma wp_shuffle_perm (i : nat) : forall (xs : list nat) st,
  (i < length xs \/ i = 0)%nat ->
  wp (shuffle i xs) (fun p _ => p ≡ₚ xs) st.
Proof.
  induction i as [|k IH]; intros xs st Hi; simpl.
  - now apply wp_ret.
  - destruct Hi as [Hi|Hi]; [|discriminate].
    apply wp_bind, wp_randint; [lia|]. intros j st1 Hj. simpl.
    destruct (lookup_lt_is_Some_2 xs (S k) Hi) as [xi Hxi].
    destruct (lookup_lt_is_Some_2 xs (Z.to_nat j) ltac:(lia)) as [xj Hxj].
    apply wp_bind. eapply wp_index; [exact Hxi|]. simpl.
    apply wp_bind. eapply wp_index; [exact Hxj|]. simpl.
    eapply wp_mono; [|apply IH].
    + intros p st2 Hp. rewrite Hp.
      eapply Permutation_insert_swap; eassumption.
    + rewrite !length_insert. left. lia.
Qed.

Lemma wp_for_each_index {A} (df : list A) (positions : list nat) st :
  Forall (fun k => (k < length df)%nat) positions ->
  wp (for_each (index df) positions)
     (fun rows _ => Forall2 (fun k row => df !! k = Some row) positions rows) st.
Proof.
  intros Hall. apply wp_for_each. intros k st' Hk.
  rewrite Forall_forall in Hall.
  destruct (lookup_lt_is_Some_2 df k (Hall k Hk)) as [x Hx].
  eapply wp_index; [exact Hx | exact Hx].
Qed.

Lemma wp_sample_positions {A} (mt19937 : Z -> nat -> Q) (n random_state : Z)
    (df : list A) st :
  0 <= n <= Z.of_nat (length df) ->
  wp (sample mt19937 n random_state df)
     (fun rows _ => exists positions,
        Z.of_nat (length positions) = n /\ NoDup positions /\
        Forall2 (fun k row => df !! k = Some row) positions rows) st.
Proof.
  intros Hn. unfold sample.
  destruct (n <? 0) eqn:E1; [apply Z.ltb_lt in E1; lia|].
  destruct (Z.of_nat (length df) <? n) eqn:E2; [apply Z.ltb_lt in E2; lia|].
  pose proof (wp_shuffle_perm (length df - 1) (seq 0 (length df))
                {| entropy := mt19937 random_state; position := 0 |}) as Hs.
  rewrite length_seq in Hs. specialize (Hs ltac:(lia)). unfold wp in Hs.
  destruct (shuffle _ _ _) as [perm st0|]; [|contradiction].
  assert (Hnodup : NoDup (take (Z.to_nat n) perm)).
  { assert (Hp : NoDup perm) by (rewrite Hs; apply NoDup_seq).
    rewrite <- (take_drop (Z.to_nat n) perm) in Hp.
    apply NoDup_app in Hp. tauto. }
  assert (Hlt : Forall (fun k => (k < length df)%nat) (take (Z.to_nat n) perm)).
  { apply Forall_take. rewrite Hs. apply Forall_seq. intros; lia. }
  eapply wp_mono; [|apply wp_for_each_index, Hlt].
  intros rows st' H. exists (take (Z.to_nat n) perm).
  split; [|split; assumption].
  rewrite length_take. apply Permutation_length in Hs.
  rewrite length_seq in Hs. lia.
Qed.

Lemma for_each_index_state {A} (df : list A) (ks : list nat) :
  forall rows st st',
  for_each (index df) ks st = Returns rows st' -> st' = st.
Proof.
  induction ks as [|k tl IH]; intros rows st st'; simpl.
  - unfold mret, M_ret. congruence.
  - unfold mbind, M_bind, index. destruct (df !! k); [|discriminate].
    unfold mret at 1, M_ret at 1.
    destruct (for_each _ tl st) as [ys st1|] eqn:E; [|discriminate].
    unfold mret, M_ret. intros H. injection H as _ <-.
    eapply IH. exact E.
Qed.

Lemma sample_positions_run {A} (mt19937 : Z -> nat -> Q) (n random_state : Z)
    (df : list A) (st : RandomState) :
  0 <= n <= Z.of_nat (length df) ->
  exists rows positions,
    sample mt19937 n random_state df st = Returns rows st /\
    Z.of_nat (length rows) = n /\
    NoDup positions /\
    Forall2 (fun k row => df !! k = Some row) positions rows.
Proof.
  intros Hn.
  pose proof (wp_sample_positions mt19937 n random_state df st Hn) as H.
  apply wp_returns in H. destruct H as (rows & st' & Hrun & pos & Hlen & Hnd & Hall).
  assert (Hst : st' = st).
  { revert Hrun. unfold sample. destruct (n <? 0); [discriminate|].
    destruct (_ <? n); [discriminate|].
    destruct (shuffle _ _ _) as [perm st0|]; [|discriminate].
    apply for_each_index_state. }
  subst st'. exists rows, pos. split; [exact Hrun|].
  split; [|split; assumption].
  apply Forall2_length in Hall. lia.
Qed.

(** X17. [sample] with 0 <= n <= len(df) returns n rows, which are rows
    of the frame at pairwise distinct positions, and leaves the global
    generator as it was. *)
Theorem sample_without_replacement {A} (mt19937 : Z -> nat -> Q)
    (n random_state : Z) (df : list A) (st : RandomState) :
  0 <= n <= Z.of_nat (length df) ->
  exists rows positions,
    sample mt19937 n random_state df st = Returns rows st /\
    Z.of_nat (length rows) = n /\
    NoDup positions /\
    Forall2 (fun k row => df !! k = Some row) positions rows.
Proof.
  intros Hn.
  pose proof (wp_sample_positions mt19937 n random_state df st Hn) as H.
  apply wp_returns in H.
  destruct H as (rows & st' & Hrun & positions & Hlen & Hnd & Hall).
  assert (Hst : st' = st).
  { revert Hrun. unfold sample. destruct (n <? 0); [discriminate|].
    destruct (_ <? n); [discriminate|].
    destruct (shuffle _ _ _) as [perm st0|]; [|discriminate].
    apply for_each_index_state. }
  subst st'. exists rows, positions. split; [exact Hrun|].
  split; [|split; assumption].
  apply Forall2_length in Hall. lia.
Qed.


Lemma sample_without_replacement_witness :
  exists rows positions,
    sample Sample.stream 2 42 sample_news (Sample.state_of [])
      = Returns rows (Sample.state_of []) /\
    Z.of_nat (length rows) = 2 /\
    NoDup positions /\
    Forall2 (fun k row => sample_news !! k = Some row) positions rows.
Proof.
  apply (sample_without_replacement Sample.stream 2 42 sample_news
           (Sample.state_of [])).
  vm_compute. split; discriminate.
Defined.

(** *** Outcomes of the whole collection *)

(** X18. With a positive target, a non-empty calendar and at least one
    pass of the top-up loop allowed: when the daily loop produced fewer
    articles than the target the collection raises [AttributeError];
    otherwise it returns exactly as many articles as the target asks for,
    all of them articles of the daily loop, and the global generator is
    where the daily loop left it. *)
Theorem news_target_reached_or_top_up_fails (mt19937 : Z -> nat -> Q)
    (fuel : nat) (cfg : Config) (st : RandomState) :
  0 < EXPECTED_NEWS_COUNT cfg -> news_calendar cfg <> [] -> (0 < fuel)%nat ->
  exists news st1,
    generate_daily_news mt19937 cfg st = Returns news st1 /\
    if Z.of_nat (length news) <? EXPECTED_NEWS_COUNT cfg
    then raises (AttributeError "date")
           (collect_news_sentiment_data mt19937 fuel cfg) st
    else exists news_df,
           collect_news_sentiment_data mt19937 fuel cfg st
             = Returns (Some news_df) st1 /\
           Z.of_nat (length news_df) = EXPECTED_NEWS_COUNT cfg /\
           news_df ⊆ news.
Proof.
  intros HT Hcal Hfuel.
  pose proof (wp_generate_daily_news mt19937 cfg st ltac:(lia) Hcal) as H.
  apply wp_returns in H. destruct H as (news & st1 & Hrun & Hlen).
  exists news, st1. split; [exact Hrun|].
  destruct (Z.of_nat (length news) <? EXPECTED_NEWS_COUNT cfg) eqn:E.
  - apply Z.ltb_lt in E. unfold collect_news_sentiment_data.
    apply raises_bind. unfold wp. rewrite Hrun.
    apply raises_bind_l. now apply top_up_raises.
  - apply Z.ltb_ge in E.
    unfold collect_news_sentiment_data, mbind at 1, M_bind at 1. rewrite Hrun.
    unfold mbind at 1, M_bind at 1. rewrite top_up_enough by exact E.
    destruct (EXPECTED_NEWS_COUNT cfg <? Z.of_nat (length news)) eqn:E'.
    + destruct (sample_positions_run mt19937 (EXPECTED_NEWS_COUNT cfg) 42 news st1
                  ltac:(lia)) as (rows & pos & Hs & Hl & _ & Hall).
      unfold mbind at 1, M_bind at 1. rewrite Hs.
      destruct rows as [|r0 rows']; [simpl in Hl; lia|].
      exists (r0 :: rows'). split; [reflexivity|]. split; [exact Hl|].
      intros r Hr. apply list_elem_of_lookup in Hr. destruct Hr as [i Hi].
      destruct (Forall2_lookup_r _ _ _ _ _ Hall Hi) as (k & _ & Hk).
      eapply list_elem_of_lookup_2, Hk.
    + apply Z.ltb_ge in E'.
      destruct news as [|r0 news']; [simpl in *; lia|].
      exists (r0 :: news'). split; [reflexivity|]. split; [lia | reflexivity].
Qed.

Lemma news_target_reached_or_top_up_fails_witness :
  exists news st1,
    generate_daily_news Sample.stream (with_targets three_days 0 2)
      (Sample.state_of []) = Returns news st1 /\
    if Z.of_nat (length news) <? 2
    then raises (AttributeError "date")
           (collect_news_sentiment_data Sample.stream 1
              (with_targets three_days 0 2)) (Sample.state_of [])
    else exists news_df,
           collect_news_sentiment_data Sample.stream 1
             (with_targets three_days 0 2) (Sample.state_of [])
             = Returns (Some news_df) st1 /\
           Z.of_nat (length news_df) = 2 /\
           news_df ⊆ news.
Proof.
  apply (news_target_reached_or_top_up_fails Sample.stream 1
           (with_targets three_days 0 2) (Sample.state_of [])).
  - reflexivity.
  - vm_compute. discriminate.
  - lia.
Defined.

(** *** Degenerate configurations *)

Lemma news_empty_calendar (mt19937 : Z -> nat -> Q) (fuel : nat)
    (cfg : Config) (st : RandomState) :
  news_calendar cfg = [] ->
  collect_news_sentiment_data mt19937 fuel cfg st = Raises ZeroDivisionError st.
Proof.
  intros H. unfold collect_news_sentiment_data, generate_daily_news.
  rewrite H. reflexivity.
Qed.

Lemma news_negative_target (mt19937 : Z -> nat -> Q) (fuel : nat)
    (cfg : Config) (st : RandomState) :
  news_calendar cfg <> [] -> EXPECTED_NEWS_COUNT cfg < 0 ->
  collect_news_sentiment_data mt19937 fuel cfg st
  = Raises (ValueError "lam < 0") {| entropy := mt19937 42; position := 0 |}.
Proof.
  intros Hcal HT. unfold collect_news_sentiment_data, generate_daily_news.
  destruct (news_calendar cfg) as [|d0 tl] eqn:Ec; [congruence|].
  assert (Hneg : Qltb (inject_Z (EXPECTED_NEWS_COUNT cfg)
                       / inject_Z (Z.of_nat (length (d0 :: tl)))) 0 = true).
  { apply Qltb_true. apply Qlt_shift_div_r.
    - change 0%Q with (inject_Z 0). rewrite <- Zlt_Qlt. cbn [length]. lia.
    - unfold Qlt, Qmult, inject_Z. simpl. lia. }
  unfold mbind, M_bind, mret, M_ret, seed. cbn [daily_loop].
  unfold mbind, M_bind, poisson. rewrite Hneg. reflexivity.
Qed.

Lemma daily_loop_length_zero_rate (lam : Q) (business_days : list Z) :
  lam == 0 ->
  forall news_data total_generated st,
  wp (daily_loop lam _get_comprehensive_news_templates
        _get_news_companies _get_news_sources business_days
        news_data total_generated)
     (fun r _ => length (fst r)
                 = (length news_data + length business_days)%nat) st.
Proof.
  intros Hlam.
  assert (E1 : Qltb lam 0 = false) by (apply Qltb_false; lra).
  assert (E2 : Qis_zero lam = true) by (now apply Qis_zero_true).
  induction business_days as [|d tl IH];
    intros news_data total_generated st; simpl.
  - apply wp_ret. simpl. lia.
  - apply wp_bind. unfold poisson. rewrite E1, E2.
    apply wp_ret. cbv beta.
    apply wp_bind. eapply wp_mono; [|apply wp_daily_articles].
    intros [news n] st2 H. simpl in *. eapply wp_mono; [|apply IH].
    intros [news' n'] st3 H'. simpl in *. lia.
Qed.

Lemma news_zero_target (mt19937 : Z -> nat -> Q) (fuel : nat)
    (cfg : Config) (st : RandomState) :
  news_calendar cfg <> [] -> EXPECTED_NEWS_COUNT cfg = 0 ->
  exists news st',
    generate_daily_news mt19937 cfg st = Returns news st' /\
    length news = length (news_calendar cfg) /\
    collect_news_sentiment_data mt19937 fuel cfg st
    = Raises ZeroDivisionError st'.
Proof.
  intros Hcal H0.
  assert (Hgen : wp (generate_daily_news mt19937 cfg)
                   (fun news _ => length news = length (news_calendar cfg)) st).
  { unfold generate_daily_news. rewrite H0.
    destruct (news_calendar cfg) as [|d0 tl] eqn:Ec; [congruence|].
    apply wp_bind, wp_ret. cbv beta. apply wp_bind. unfold wp at 1, seed.
    cbv beta iota. apply wp_bind.
    eapply wp_mono;
      [|apply daily_loop_length_zero_rate; unfold Qdiv;
        change (inject_Z 0) with 0%Q; ring].
    intros [news n] st1 H. cbn [fst length Nat.add] in H. apply wp_ret. exact H. }
  apply wp_returns in Hgen. destruct Hgen as (news & st1 & Hrun & Hlen).
  exists news, st1. split; [exact Hrun|]. split; [exact Hlen|].
  unfold collect_news_sentiment_data, mbind at 1, M_bind at 1. rewrite Hrun.
  unfold mbind at 1, M_bind at 1. rewrite top_up_enough by lia. rewrite H0.
  assert (Hpos : (0 < length news)%nat).
  { rewrite Hlen. destruct (news_calendar cfg); [congruence | simpl; lia]. }
  assert (E' : (0 <? Z.of_nat (length news)) = true) by (apply Z.ltb_lt; lia).
  rewrite E'.
  destruct (sample_positions_run mt19937 0 42 news st1 ltac:(lia))
    as (rows & pos & Hs & Hl & _ & _).
  destruct rows; [|simpl in Hl; lia].
  unfold mbind at 1, M_bind at 1. rewrite Hs. reflexivity.
Qed.

(** X19. An empty calendar makes the news collection raise
    [ZeroDivisionError] before the generator is seeded. With a non-empty
    calendar, a negative target makes the first Poisson draw raise
    [ValueError], and a target of 0 makes the collection generate one
    article per day, sample none of them and raise [ZeroDivisionError] in
    its closing statistics. *)
Theorem news_degenerate_configurations (mt19937 : Z -> nat -> Q) (fuel : nat)
    (cfg : Config) (st : RandomState) :
  (news_calendar cfg = [] ->
     collect_news_sentiment_data mt19937 fuel cfg st
     = Raises ZeroDivisionError st) /\
  (news_calendar cfg <> [] -> EXPECTED_NEWS_COUNT cfg < 0 ->
     collect_news_sentiment_data mt19937 fuel cfg st
     = Raises (ValueError "lam < 0")
              {| entropy := mt19937 42; position := 0 |}) /\
  (news_calendar cfg <> [] -> EXPECTED_NEWS_COUNT cfg = 0 ->
     exists news st',
       generate_daily_news mt19937 cfg st = Returns news st' /\
       length news = length (news_calendar cfg) /\
       collect_news_sentiment_data mt19937 fuel cfg st
       = Raises ZeroDivisionError st').
Proof.
  split; [apply news_empty_calendar|].
  split; [apply news_negative_target | apply news_zero_target].
Qed.

Lemma news_degenerate_configurations_witness :
  collect_news_sentiment_data Sample.stream 1 weekend_only (Sample.state_of [])
    = Raises ZeroDivisionError (Sample.state_of [])
  /\ collect_news_sentiment_data Sample.stream 1 (with_targets three_days 0 (-1))
       (Sample.state_of [])
     = Raises (ValueError "lam < 0")
              {| entropy := Sample.stream 42; position := 0 |}
  /\ exists news st',
       generate_daily_news Sample.stream three_days (Sample.state_of [])
         = Returns news st' /\
       length news = length (news_calendar three_days) /\
       collect_news_sentiment_data Sample.stream 1 three_days (Sample.state_of [])
       = Raises ZeroDivisionError st'.
Proof.
  split; [|split].
  - apply (proj1 (news_degenerate_configurations Sample.stream 1 weekend_only
                    (Sample.state_of []))).
    vm_compute. reflexivity.
  - apply (proj1 (proj2 (news_degenerate_configurations Sample.stream 1
                           (with_targets three_days 0 (-1)) (Sample.state_of [])))).
    + vm_compute. discriminate.
    + vm_compute. reflexivity.
  - apply (proj2 (proj2 (news_degenerate_configurations Sample.stream 1
                           three_days (Sample.state_of [])))).
    + vm_compute. discriminate.
    + reflexivity.
Defined.

(** ** The per-article record *)



(** ** Grouping by date *)

Lemma elem_of_insert_key (d x : Z) (keys : list Z) :
  x ∈ insert_key d keys <-> x = d \/ x ∈ keys.
Proof.
  induction keys as [|k tl IH]; simpl.
  - rewrite list_elem_of_singleton, elem_of_nil. tauto.
  - destruct (d <? k) eqn:E1; [rewrite !elem_of_cons; tauto|].
    destruct (d =? k) eqn:E2.
    + apply Z.eqb_eq in E2. subst. rewrite !elem_of_cons. tauto.
    + rewrite !elem_of_cons, IH. tauto.
Qed.

Lemma insert_key_sorted (d : Z) (keys : list Z) :
  StronglySorted Z.lt keys -> StronglySorted Z.lt (insert_key d keys).
Proof.
  induction 1 as [|k tl Htl IH Hk]; simpl.
  - repeat constructor.
  - destruct (d <? k) eqn:E1.
    + apply Z.ltb_lt in E1. constructor; [now constructor|].
      constructor; [exact E1|]. eapply Forall_impl; [exact Hk|].
      intros y Hy. simpl in Hy. lia.
    + destruct (d =? k) eqn:E2; [now constructor|].
      apply Z.ltb_ge in E1. apply Z.eqb_neq in E2.
      constructor; [exact IH|]. apply Forall_forall. intros y Hy.
      apply elem_of_insert_key in Hy. destruct Hy as [->|Hy]; [lia|].
      rewrite Forall_forall in Hk. now apply Hk.
Qed.

Lemma group_keys_sorted (dates : list Z) : StronglySorted Z.lt (group_keys dates).
Proof.
  unfold group_keys. induction dates as [|d tl IH]; simpl.
  - constructor.
  - now apply insert_key_sorted.
Qed.

Lemma elem_of_group_keys (dates : list Z) (x : Z) :
  x ∈ group_keys dates <-> x ∈ dates.
Proof.
  unfold group_keys. induction dates as [|d tl IH]; simpl.
  - reflexivity.
  - rewrite elem_of_insert_key, elem_of_cons, IH. tauto.
Qed.

Lemma StronglySorted_lt_NoDup (keys : list Z) :
  StronglySorted Z.lt keys -> NoDup keys.
Proof.
  induction 1 as [|k tl _ IH Hk]; constructor; [|exact IH].
  intros Hin. rewrite Forall_forall in Hk. specialize (Hk k Hin). lia.
Qed.

(** Each record falls in exactly one group. *)
Lemma group_sizes (df : list SentimentRecord) : forall keys : list Z,
  NoDup keys -> (forall r, r ∈ df -> date r ∈ keys) ->
  sum_list (map (fun d => length (List.filter (fun r => date r =? d) df)) keys)
  = length df.
Proof.
  induction df as [|r tl IH]; intros keys Hnd Hin.
  - induction keys; simpl; [reflexivity|].
    apply IHkeys; [now inversion Hnd | intros r Hr; now apply elem_of_nil in Hr].
  - assert (Hone : forall ks : list Z, NoDup ks ->
              sum_list (map (fun d => length (List.filter (fun r => date r =? d) (r :: tl))) ks)
              = Nat.add (if bool_decide (date r ∈ ks) then 1%nat else 0%nat)
                  (sum_list (map (fun d => length (List.filter (fun r => date r =? d) tl)) ks))).
    { clear. induction 1 as [|k ks Hk Hnd IH]; [reflexivity|].
      cbn [map sum_list]. rewrite IH. cbn [List.filter].
      destruct (date r =? k) eqn:E.
      - apply Z.eqb_eq in E. subst k.
        rewrite (bool_decide_eq_true_2 (date r ∈ date r :: ks)) by left.
        rewrite (bool_decide_eq_false_2 (date r ∈ ks)) by exact Hk.
        simpl. lia.
      - apply Z.eqb_neq in E.
        destruct (bool_decide (date r ∈ ks)) eqn:B.
        + apply bool_decide_eq_true_1 in B.
          rewrite (bool_decide_eq_true_2 (date r ∈ k :: ks)) by now right.
          lia.
        + apply bool_decide_eq_false_1 in B.
          rewrite (bool_decide_eq_false_2 (date r ∈ k :: ks)).
          * lia.
          * rewrite elem_of_cons. intros [?|?]; [congruence | contradiction]. }
    rewrite (Hone keys Hnd).
    rewrite (bool_decide_eq_true_2 (date r ∈ keys)) by (apply Hin; left).
    rewrite IH; [reflexivity | exact Hnd |]. intros r' Hr'. apply Hin. now right.
Qed.

Lemma group_nonempty (df : list SentimentRecord) (d : Z) :
  d ∈ map date df -> List.filter (fun r => date r =? d) df <> [].
Proof.
  intros Hd. apply list_elem_of_fmap in Hd. destruct Hd as (r & -> & Hr).
  intros Hnil. apply list_elem_of_In in Hr.
  assert (Hf : In r (List.filter (fun r' => date r' =? date r) df)).
  { apply List.filter_In. split; [exact Hr | apply Z.eqb_refl]. }
  rewrite Hnil in Hf. exact Hf.
Qed.

(** ** Statistics of a group *)

Lemma round4_mono (x y : Q) : (x <= y)%Q -> (round4 x <= round4 y)%Q.
Proof.
  intros Hxy. unfold round4, Qle. simpl.
  apply Z.mul_le_mono_nonneg_r; [lia|]. apply rint_mono. lra.
Qed.

Lemma fold_Qmin_le (xs : list Q) : forall a,
  (fold_left Qmin xs a <= a)%Q /\ Forall (fun x => (fold_left Qmin xs a <= x)%Q) xs.
Proof.
  induction xs as [|x tl IH]; intros a; simpl.
  - split; [lra | constructor].
  - destruct (IH (Qmin a x)) as [H1 H2].
    pose proof (Q.le_min_l a x). pose proof (Q.le_min_r a x).
    split; [lra|]. constructor; [lra | exact H2].
Qed.

Lemma fold_Qmax_ge (xs : list Q) : forall a,
  (a <= fold_left Qmax xs a)%Q /\ Forall (fun x => (x <= fold_left Qmax xs a)%Q) xs.
Proof.
  induction xs as [|x tl IH]; intros a; simpl.
  - split; [lra | constructor].
  - destruct (IH (Qmax a x)) as [H1 H2].
    pose proof (Q.le_max_l a x). pose proof (Q.le_max_r a x).
    split; [lra|]. constructor; [lra | exact H2].
Qed.

Lemma series_min_le (xs : list Q) :
  Forall (fun x => (series_min xs <= x)%Q) xs.
Proof.
  destruct xs as [|a tl]; [constructor|]. unfold series_min.
  destruct (fold_Qmin_le tl a) as [H1 H2]. now constructor.
Qed.

Lemma series_max_ge (xs : list Q) :
  Forall (fun x => (x <= series_max xs)%Q) xs.
Proof.
  destruct xs as [|a tl]; [constructor|]. unfold series_max.
  destruct (fold_Qmax_ge tl a) as [H1 H2]. now constructor.
Qed.

(** ** The summary *)

Lemma summary_returns (np_sqrt : Q -> Q) (df : list SentimentRecord) st :
  df <> [] ->
  exists rows,
    _generate_daily_sentiment_summary np_sqrt df st = Returns rows st /\
    length rows = length (groupby_date df) /\
    forall i row, rows !! i = Some row ->
      exists d, group_keys (map date df) !! i = Some d /\
        let group := List.filter (fun r => date r =? d) df in
        group <> [] /\
        daily_date row = d /\
        combined_sentiment_count row = length group /\
        combined_sentiment_mean row
          = round4 (mean (map combined_sentiment group)) /\
        combined_sentiment_min row
          = round4 (series_min (map combined_sentiment group)) /\
        combined_sentiment_max row
          = round4 (series_max (map combined_sentiment group)) /\
        sentiment_regime row
          = pd_cut (combined_sentiment_mean row) [-1; -(2 # 10); 2 # 10; 1]%Q
                   ["Bearish"; "Neutral"; "Bullish"]%string.
Proof.
  intros Hne. unfold _generate_daily_sentiment_summary.
  destruct df as [|r0 tl] eqn:E; [congruence|]. rewrite <- E. clear E Hne r0 tl.
  eexists. split; [reflexivity|]. split; [apply length_imap|].
  intros i row Hrow. apply list_lookup_imap_Some in Hrow.
  destruct Hrow as (g & Hg & ->). unfold groupby_date in Hg.
  rewrite list_lookup_fmap in Hg.
  destruct (group_keys (map date df) !! i) as [d|] eqn:Hd; [|discriminate].
  simpl in Hg. injection Hg as <-. exists d. split; [reflexivity|].
  cbn. split; [|repeat split].
  apply group_nonempty, elem_of_group_keys. eapply list_elem_of_lookup_2, Hd.
Qed.

(** X21. On a non-empty sentiment frame the daily summary has one row per
    date that occurs, in strictly increasing order of date; the counts are
    at least 1 and add up to the number of articles, and in every row the
    (rounded) minimum, mean and maximum of the combined score are in this
    order. *)
Theorem daily_summary_groups (np_sqrt : Q -> Q) (df : list SentimentRecord)
    (st : RandomState) :
  df <> [] ->
  exists rows,
    _generate_daily_sentiment_summary np_sqrt df st = Returns rows st /\
    StronglySorted Z.lt (map daily_date rows) /\
    (forall d, d ∈ map daily_date rows <-> d ∈ map date df) /\
    sum_list (map combined_sentiment_count rows) = length df /\
    Forall (fun row =>
              (1 <= combined_sentiment_count row)%nat /\
              (combined_sentiment_min row <= combined_sentiment_mean row)%Q /\
              (combined_sentiment_mean row <= combined_sentiment_max row)%Q)
           rows.
Proof.
  intros Hne. destruct (summary_returns np_sqrt df st Hne) as (rows & Hrun & Hlen & Hrows).
  exists rows. split; [exact Hrun|].
  unfold groupby_date in Hlen. rewrite length_map in Hlen.
  assert (Hdates : map daily_date rows = group_keys (map date df)).
  { apply list_eq. intros i. rewrite list_lookup_fmap.
    destruct (rows !! i) as [row|] eqn:Hi; simpl.
    - destruct (Hrows i row Hi) as (d & Hd & _ & Hdate & _). now rewrite Hd, Hdate.
    - symmetry. apply lookup_ge_None. apply lookup_ge_None in Hi. lia. }
  assert (Hcounts : map combined_sentiment_count rows
                    = map (fun d => length (List.filter (fun r => date r =? d) df))
                          (group_keys (map date df))).
  { apply list_eq. intros i. rewrite !list_lookup_fmap.
    destruct (rows !! i) as [row|] eqn:Hi; simpl.
    - destruct (Hrows i row Hi) as (d & Hd & _ & _ & Hc & _). now rewrite Hd, Hc.
    - rewrite (proj2 (lookup_ge_None _ i)); [reflexivity|].
      apply lookup_ge_None in Hi. lia. }
  split; [rewrite Hdates; apply group_keys_sorted|].
  split; [intros d; rewrite Hdates; apply elem_of_group_keys|].
  split.
  - rewrite Hcounts. apply group_sizes.
    + apply StronglySorted_lt_NoDup, group_keys_sorted.
    + intros r Hr. apply elem_of_group_keys. now apply list_elem_of_fmap_2.
  - apply Forall_lookup. intros i row Hi.
    destruct (Hrows i row Hi) as (d & _ & Hg & _ & Hc & Hm & Hmin & Hmax & _).
    cbv zeta in *. set (group := List.filter _ df) in *.
    assert (Hbetween : between (series_min (map combined_sentiment group))
                               (series_max (map combined_sentiment group))
                               (mean (map combined_sentiment group))).
    { apply mean_between.
      - destruct group; [congruence | discriminate].
      - pose proof (series_min_le (map combined_sentiment group)) as H1.
        pose proof (series_max_ge (map combined_sentiment group)) as H2.
        rewrite Forall_forall in *. intros x Hx. split; [apply H1 | apply H2]; exact Hx. }
    destruct Hbetween as [H1 H2].
    split; [rewrite Hc; destruct group; [congruence | simpl; lia]|].
    rewrite Hm, Hmin, Hmax. split; now apply round4_mono.
Qed.

Lemma daily_summary_groups_witness :
  exists rows,
    _generate_daily_sentiment_summary Sample.sqrt
      (analyze_news_sentiment (Some toy_blob) sample_news) (Sample.state_of [])
      = Returns rows (Sample.state_of []) /\
    StronglySorted Z.lt (map daily_date rows) /\
    (forall d, d ∈ map daily_date rows
               <-> d ∈ map date (analyze_news_sentiment (Some toy_blob) sample_news)) /\
    sum_list (map combined_sentiment_count rows) = 2%nat /\
    Forall (fun row =>
              (1 <= combined_sentiment_count row)%nat /\
              (combined_sentiment_min row <= combined_sentiment_mean row)%Q /\
              (combined_sentiment_mean row <= combined_sentiment_max row)%Q)
           rows.
Proof.
  apply (daily_summary_groups Sample.sqrt
           (analyze_news_sentiment (Some toy_blob) sample_news)
           (Sample.state_of [])).
  discriminate.
Defined.

(** ** The regime label *)

Lemma pd_cut_regime (m : Q) :
  regime_spec m (pd_cut m [-1; -(2 # 10); 2 # 10; 1]%Q
                        ["Bearish"; "Neutral"; "Bullish"]%string).
Proof.
  unfold pd_cut, cut_from, regime_spec.
  destruct (Qltb (-1) m) eqn:A1; destruct (Qle_bool m (-(2 # 10))) eqn:A2;
  destruct (Qltb (-(2 # 10)) m) eqn:B1; destruct (Qle_bool m (2 # 10)) eqn:B2;
  destruct (Qltb (2 # 10) m) eqn:C1; destruct (Qle_bool m 1) eqn:C2;
  cbn [andb];
  repeat match goal with
         | H : Qltb _ _ = true |- _ => apply Qltb_true in H
         | H : Qltb _ _ = false |- _ => apply Qltb_false in H
         | H : Qle_bool _ _ = true |- _ => apply Qle_bool_iff in H
         | H : Qle_bool _ _ = false |- _ =>
             apply not_true_iff_false in H; rewrite Qle_bool_iff in H;
             apply Qnot_le_lt in H
         end;
  first [ left; split; [reflexivity | lra]
        | right; left; split; [reflexivity | lra]
        | right; right; split; [reflexivity | lra]
        | left; lra | right; lra | exfalso; lra ].
Qed.

Lemma round4_unit_band (x : Q) : in_unit_band x -> in_unit_band (round4 x).
Proof.
  intros [H1 H2].
  apply (round4_mono (-1) x) in H1. apply (round4_mono x 1) in H2.
  assert (E1 : round4 (-1) == -1) by (vm_compute; reflexivity).
  assert (E2 : round4 1 == 1) by (vm_compute; reflexivity).
  unfold in_unit_band. lra.
Qed.

(** X22. When the polarity of the scorer lies in [-1, 1], every daily mean
    lies in [-1, 1]; the regime is Bearish for a mean in (-1, -0.2], Neutral
    in (-0.2, 0.2] and Bullish in (0.2, 1]; and a day has no regime exactly
    when its mean is -1, the lowest bin being open on the left. *)
Theorem daily_regime_labels (np_sqrt : Q -> Q)
    (textblob : option (string -> Q * Q)) (news_df : list NewsRecord)
    (st : RandomState) :
  news_df <> [] ->
  (forall blob text, textblob = Some blob -> in_unit_band (fst (blob text))) ->
  exists rows,
    _generate_daily_sentiment_summary np_sqrt
      (analyze_news_sentiment textblob news_df) st = Returns rows st /\
    Forall (fun row =>
              let m := combined_sentiment_mean row in
              in_unit_band m /\
              regime_spec m (sentiment_regime row) /\
              (sentiment_regime row = None <-> m == -1))
           rows.
Proof.
  intros Hne Hblob.
  set (df := analyze_news_sentiment textblob news_df).
  assert (Hdf : df <> []).
  { unfold df, analyze_news_sentiment. destruct news_df; [congruence | discriminate]. }
  destruct (summary_returns np_sqrt df st Hdf) as (rows & Hrun & _ & Hrows).
  exists rows. split; [exact Hrun|].
  apply Forall_lookup. intros i row Hi.
  destruct (Hrows i row Hi) as (d & _ & Hg & _ & _ & Hm & _ & _ & Hregime).
  cbv zeta in *. set (group := List.filter _ df) in *.
  assert (Hband : in_unit_band (combined_sentiment_mean row)).
  { rewrite Hm. apply round4_unit_band.
    apply (mean_between (-1) 1).
    - destruct group; [congruence | discriminate].
    - apply Forall_fmap, Forall_forall. intros r Hr.
      apply list_elem_of_In, List.filter_In in Hr. destruct Hr as [Hr _].
      apply list_elem_of_In, list_elem_of_lookup in Hr. destruct Hr as [j Hj].
      unfold df, analyze_news_sentiment in Hj.
      apply list_lookup_imap_Some in Hj. destruct Hj as (art & _ & ->).
      apply analyze_article_bounded. exact Hblob. }
  pose proof (pd_cut_regime (combined_sentiment_mean row)) as Hspec.
  rewrite <- Hregime in Hspec.
  split; [exact Hband|]. split; [exact Hspec|].
  destruct Hband as [Hlo Hhi]. unfold regime_spec in Hspec.
  destruct (sentiment_regime row) as [l|].
  - split; [discriminate|]. intros Heq. exfalso.
    destruct Hspec as [[_ H]|[[_ H]|[_ H]]]; lra.
  - split; [|reflexivity]. intros _. destruct Hspec as [H|H]; lra.
Qed.

Lemma gloomy_blob_bounded (blob : string -> Q * Q) (text : string) :
  @None (string -> Q * Q) = Some blob -> in_unit_band (fst (blob text)).
Proof. discriminate. Qed.

Lemma daily_regime_labels_witness :
  exists rows,
    _generate_daily_sentiment_summary Sample.sqrt
      (analyze_news_sentiment None gloomy_news) (Sample.state_of [])
      = Returns rows (Sample.state_of []) /\
    Forall (fun row =>
              let m := combined_sentiment_mean row in
              in_unit_band m /\
              regime_spec m (sentiment_regime row) /\
              (sentiment_regime row = None <-> m == -1))
           rows.
Proof.
  apply (daily_regime_labels Sample.sqrt None gloomy_news (Sample.state_of [])).
  - discriminate.
  - exact gloomy_blob_bounded.
Defined.

(** A day whose only article scores -1 gets no regime label: the lowest
    bin is open on the left. *)
Example gloomy_day_has_no_regime :
  exists row,
    _generate_daily_sentiment_summary Sample.sqrt
      (analyze_news_sentiment None gloomy_news) (Sample.state_of [])
      = Returns [row] (Sample.state_of []) /\
    combined_sentiment_mean row == -1 /\ sentiment_regime row = None.
Proof. eexists. split; [vm_compute; reflexivity|]. split; reflexivity. Qed.

(** ** API keys *)

(** X23. [validate_keys] returns True exactly when at least one API is
    configured: the threshold of three only changes what is printed.
    [get_available_apis] lists the configured APIs, in the order of the
    validation table. With an environment that sets no key the validation
    fails. *)
Theorem validate_keys_accepts_one_api (cls : APIKeys) :
  (validate_keys cls = true <-> get_available_apis cls <> []) /\
  get_available_apis cls
    = map fst (List.filter (fun kv : string * bool => snd kv)
                       (validation_results cls)) /\
  validate_keys default_keys = false.
Proof.
  unfold validate_keys, get_available_apis, validation_results.
  destruct (py_bool (ALPHA_VANTAGE_KEY cls)
            && negb (startswith (ALPHA_VANTAGE_KEY cls) "your_"%string));
  destruct (py_bool (FRED_API_KEY cls)
            && negb (startswith (FRED_API_KEY cls) "your_"%string));
  destruct (py_bool (NEWS_API_KEY cls)
            && negb (startswith (NEWS_API_KEY cls) "your_"%string));
  destruct (py_bool (GNEWS_API_KEY cls)
            && negb (startswith (GNEWS_API_KEY cls) "your_"%string));
  destruct (py_bool (REDDIT_CLIENT_ID cls) && py_bool (REDDIT_CLIENT_SECRET cls)
            && negb (startswith (REDDIT_CLIENT_ID cls) "your_"%string)
            && negb (startswith (REDDIT_CLIENT_SECRET cls) "your_"%string));
  cbn; (split; [split; [discriminate || congruence | try reflexivity; congruence]
               | split; reflexivity]).
Qed.
